(** * lumari_demo: the coordination core of the multi-agent pipeline

    A shallow embedding of [agents/cost_optimizer.py],
    [agents/observability.py], [agents/orchestrator.py] and the intent
    classifier of [agents/email_parser.py], and the properties of the
    coordination layer proved (or refuted) on it.

    Conventions.
    - A Python [str] is a Rocq [string]; every character stands for one
      code point below 256, so [String.length] is Python's [len] and
      [str.encode] always succeeds.
    - A Python [float] that is a cost or a duration is a rational ([Q]):
      the arithmetic is exact here, rounded in Python.
    - A Python [dict] is an association list in insertion order, with
      the update, deletion and iteration order of Python 3.7 and later.
    - A Python method mutates [self] and may raise: it is a function
      from the state before to a result (a value or a raised exception)
      and the state after.  A raise keeps the mutations made before it.
    - An exception carries its message where the code reads it
      ([str(e)] in the handler of [process_email]). *)

From Stdlib Require Import List String Ascii ZArith QArith Bool Arith Lia.
From Stdlib Require Import Qround Permutation Sorted DecimalString.
Import ListNotations.

Set Warnings "-register-all".

Local Open Scope list_scope.
Local Open Scope string_scope.

(** ** Results and the state-and-exception monad *)

Inductive exn : Type :=
| TypeError (msg : string)       (* json.dumps, len() on a value without it *)
| KeyError (key : string)        (* d[k] on a missing key *)
| ValueError (msg : string)      (* raised by override_decision *)
| ExternalError (msg : string).  (* raised by a collaborator *)

Inductive result (A : Type) : Type :=
| Ok (a : A)
| Raise (e : exn).

Arguments Ok {A} a.
Arguments Raise {A} e.

Definition is_ok {A} (r : result A) : bool :=
  match r with Ok _ => true | Raise _ => false end.

Module PyM.

(** A computation on a state [S]: the result and the state after. *)
Definition M (S A : Type) : Type := S -> result A * S.

Definition ret {S A} (a : A) : M S A := fun s => (Ok a, s).

Definition raise {S A} (e : exn) : M S A := fun s => (Raise e, s).

Definition bind {S A B} (m : M S A) (k : A -> M S B) : M S B :=
  fun s =>
    match m s with
    | (Ok a, s') => k a s'
    | (Raise e, s') => (Raise e, s')
    end.

(** [try: m  except Exception as e: h e] *)
Definition try_except {S A} (m : M S A) (h : exn -> M S A) : M S A :=
  fun s =>
    match m s with
    | (Ok a, s') => (Ok a, s')
    | (Raise e, s') => h e s'
    end.

Definition get {S} : M S S := fun s => (Ok s, s).
Definition modify {S} (f : S -> S) : M S unit := fun s => (Ok tt, f s).

(** A pure expression that may raise. *)
Definition lift {S A} (r : result A) : M S A := fun s => (r, s).

(** Running a method of a component held in a field of [self]. *)
Definition zoom {S T A} (proj : S -> T) (upd : T -> S -> S) (m : M T A)
  : M S A :=
  fun s => let (r, t') := m (proj s) in (r, upd t' s).

End PyM.

Import PyM.

Declare Scope py_scope.
Delimit Scope py_scope with py.
Notation "x <- m ;; k" := (bind m (fun x => k))
  (at level 61, m at next level, right associativity) : py_scope.
Notation "' pat <- m ;; k" := (bind m (fun x => match x with pat => k end))
  (at level 61, pat pattern, m at next level, right associativity) : py_scope.
Notation "m ;;; k" := (bind m (fun _ => k))
  (at level 61, right associativity) : py_scope.
Local Open Scope py_scope.

(** ** Python values *)

(** An object outside the JSON types (a [datetime], a [set], an
    instance of a user class), by what the code can ask of it: the name
    of its class, its [str], its truth value and its [len], the last
    two raising what [__bool__] and [__len__] raise ([TypeError] for an
    object without a [len]). *)
Record PyObject : Type := mkObject {
  obj_class : string;
  obj_str : string;
  obj_truth : result bool;
  obj_len : result nat
}.

(** The values a free-form context can hold.  A float is carried by its
    [repr], which is also what [json.dumps] writes for a finite float. *)
Inductive PyVal : Type :=
| PNone
| PBool (b : bool)
| PInt (z : Z)
| PFloat (repr : string)
| PStr (s : string)
| PList (l : list PyVal)
| PDict (items : list (string * PyVal))
| PObj (o : PyObject).

Definition PyDict : Type := list (string * PyVal).

(** [d.get(k, default)] *)
Fixpoint dict_get {V} (d : list (string * V)) (k : string) (default : V) : V :=
  match d with
  | [] => default
  | (k', v) :: d' => if String.eqb k' k then v else dict_get d' k default
  end.

(** [k in d] *)
Fixpoint dict_mem {V} (k : string) (d : list (string * V)) : bool :=
  match d with
  | [] => false
  | (k', _) :: d' => String.eqb k' k || dict_mem k d'
  end.

(** [d[k]] (for a key that is present) *)
Fixpoint dict_lookup {V} (d : list (string * V)) (k : string) : option V :=
  match d with
  | [] => None
  | (k', v) :: d' => if String.eqb k' k then Some v else dict_lookup d' k
  end.

(** [d[k] = v]: an existing key keeps its place, a new one goes last. *)
Fixpoint dict_set {V} (d : list (string * V)) (k : string) (v : V)
  : list (string * V) :=
  match d with
  | [] => [(k, v)]
  | (k', v') :: d' =>
      if String.eqb k' k then (k', v) :: d' else (k', v') :: dict_set d' k v
  end.

(** [del d[k]] *)
Fixpoint dict_del {V} (d : list (string * V)) (k : string)
  : list (string * V) :=
  match d with
  | [] => []
  | (k', v') :: d' =>
      if String.eqb k' k then d' else (k', v') :: dict_del d' k
  end.

Definition dict_keys {V} (d : list (string * V)) : list string := map fst d.

(** [x in [a, b, c]] for strings *)
Definition str_in (x : string) (l : list string) : bool :=
  existsb (String.eqb x) l.

(** Truth value testing ([if v:], [v or w], [not v]). *)
Definition py_truthy (v : PyVal) : result bool :=
  match v with
  | PNone => Ok false
  | PBool b => Ok b
  | PInt z => Ok (negb (Z.eqb z 0))
  | PFloat r => Ok (negb (String.eqb r "0.0" || String.eqb r "-0.0"))
  | PStr s => Ok (negb (String.eqb s ""))
  | PList l => Ok (match l with [] => false | _ => true end)
  | PDict d => Ok (match d with [] => false | _ => true end)
  | PObj o => obj_truth o
  end.

(** [TypeError: object of type 'int' has no len()] *)
Definition no_len (type_name : string) : exn :=
  TypeError ("object of type '" ++ type_name ++ "' has no len()").

(** [len(v)] *)
Definition py_len (v : PyVal) : result nat :=
  match v with
  | PNone => Raise (no_len "NoneType")
  | PBool _ => Raise (no_len "bool")
  | PInt _ => Raise (no_len "int")
  | PFloat _ => Raise (no_len "float")
  | PStr s => Ok (String.length s)
  | PList l => Ok (List.length l)
  | PDict d => Ok (List.length d)
  | PObj o => obj_len o
  end.

(** ** [json.dumps] *)

Module Json.

(** The one-character string holding a double quote. *)
Definition dquote : string := String (ascii_of_nat 34) EmptyString.

Definition hex_digit (n : nat) : ascii :=
  nth n ["0"; "1"; "2"; "3"; "4"; "5"; "6"; "7";
         "8"; "9"; "a"; "b"; "c"; "d"; "e"; "f"]%char "0"%char.

(** The escape of one character under [ensure_ascii=True]. *)
Definition escape_char (c : ascii) : string :=
  let n := nat_of_ascii c in
  if Nat.eqb n 34 then String "\" dquote
  else if Nat.eqb n 92 then "\\"
  else if Nat.eqb n 10 then "\n"
  else if Nat.eqb n 13 then "\r"
  else if Nat.eqb n 9 then "\t"
  else if Nat.eqb n 8 then "\b"
  else if Nat.eqb n 12 then "\f"
  else if (n <? 32)%nat || (126 <? n)%nat then
    "\u00" ++ String (hex_digit (n / 16)) (String (hex_digit (n mod 16)) "")
  else String c "".

Fixpoint escape (s : string) : string :=
  match s with
  | EmptyString => ""
  | String c s' => escape_char c ++ escape s'
  end.

Definition quote (s : string) : string := dquote ++ escape s ++ dquote.

Definition string_of_Z (z : Z) : string :=
  NilZero.string_of_int (Z.to_int z).

(** [", ".join(parts)] *)
Fixpoint join (sep : string) (parts : list string) : string :=
  match parts with
  | [] => ""
  | [p] => p
  | p :: ps => p ++ sep ++ join sep ps
  end.

(** [sorted(items)] on the items of a dict: an insertion sort on the
    keys, by code points.  The keys of a dict are distinct, so the
    values are never compared. *)
Fixpoint insert_item {V} (x : string * V) (l : list (string * V))
  : list (string * V) :=
  match l with
  | [] => [x]
  | y :: l' =>
      if String.leb (fst x) (fst y) then x :: y :: l'
      else y :: insert_item x l'
  end.

Fixpoint sort_items {V} (l : list (string * V)) : list (string * V) :=
  match l with
  | [] => []
  | x :: l' => insert_item x (sort_items l')
  end.

(** The encodings of a sequence, up to the first one that raises. *)
Fixpoint sequence (l : list (result string)) : result (list string) :=
  match l with
  | [] => Ok []
  | Raise e :: _ => Raise e
  | Ok x :: l' =>
      match sequence l' with
      | Ok xs => Ok (x :: xs)
      | Raise e => Raise e
      end
  end.

Definition member (kv : string * result string) : result string :=
  match snd kv with
  | Ok v => Ok (quote (fst kv) ++ ": " ++ v)
  | Raise e => Raise e
  end.

(** [TypeError: Object of type datetime is not JSON serializable] *)
Definition not_serializable (class_name : string) : exn :=
  TypeError ("Object of type " ++ class_name ++ " is not JSON serializable").

(** [json.dumps(v, sort_keys=sort_keys)] with the default separators.
    A value outside the JSON types raises [TypeError].  The members
    of a dict are encoded in iteration order, or in key order under
    [sort_keys]. *)
Fixpoint dumps (sort_keys : bool) (v : PyVal) : result string :=
  match v with
  | PNone => Ok "null"
  | PBool true => Ok "true"
  | PBool false => Ok "false"
  | PInt z => Ok (string_of_Z z)
  | PFloat r => Ok r
  | PStr s => Ok (quote s)
  | PList l =>
      match sequence (map (dumps sort_keys) l) with
      | Ok parts => Ok ("[" ++ join ", " parts ++ "]")
      | Raise e => Raise e
      end
  | PDict items =>
      let encoded :=
        (fix enc (its : list (string * PyVal)) : list (string * result string) :=
           match its with
           | [] => []
           | (k, x) :: its' => (k, dumps sort_keys x) :: enc its'
           end) items in
      let ordered := if sort_keys then sort_items encoded else encoded in
      match sequence (map member ordered) with
      | Ok parts => Ok ("{" ++ join ", " parts ++ "}")
      | Raise e => Raise e
      end
  | PObj o => Raise (not_serializable (obj_class o))
  end.

(** The same, on the items of a dict. *)
Definition dumps_dict (sort_keys : bool) (d : PyDict) : result string :=
  dumps sort_keys (PDict d).

End Json.

Example dumps_sorted :
  Json.dumps true (PDict [("b", PInt 2); ("a", PList [PStr "x"; PNone])])
  = Ok ("{" ++ Json.dquote ++ "a" ++ Json.dquote ++ ": ["
          ++ Json.dquote ++ "x" ++ Json.dquote ++ ", null], "
          ++ Json.dquote ++ "b" ++ Json.dquote ++ ": 2}").
Proof. reflexivity. Qed.

(** A [datetime]: its [str] is the date and the time, it is true and
    has no [len]. *)
Definition a_datetime (text : string) : PyVal :=
  PObj (mkObject "datetime" text (Ok true)
          (Raise (no_len "datetime.datetime"))).

(** An empty [set]: false, of length 0. *)
Definition empty_set : PyVal :=
  PObj (mkObject "set" "set()" (Ok false) (Ok 0%nat)).

Example dumps_unsorted_raises :
  Json.dumps false (PDict [("when", a_datetime "2024-12-15 00:00:00")])
  = Raise (TypeError "Object of type datetime is not JSON serializable").
Proof. reflexivity. Qed.

(** ** [agents/cost_optimizer.py] *)

Inductive ModelTier : Type := SMALL | MEDIUM | LARGE.

(** [tier.value] *)
Definition tier_value (t : ModelTier) : string :=
  match t with
  | SMALL => "gpt-3.5-turbo"
  | MEDIUM => "gpt-3.5-turbo-16k"
  | LARGE => "gpt-4"
  end.

(** [stats["calls_by_tier"]]: one counter per tier value. *)
Record TierCounts : Type := mkTierCounts {
  n_small : nat;
  n_medium : nat;
  n_large : nat
}.

(** [calls_by_tier[tier.value]] *)
Definition tier_count (c : TierCounts) (t : ModelTier) : nat :=
  match t with
  | SMALL => n_small c
  | MEDIUM => n_medium c
  | LARGE => n_large c
  end.

(** [calls_by_tier[tier.value] += 1] *)
Definition tier_incr (c : TierCounts) (t : ModelTier) : TierCounts :=
  match t with
  | SMALL => mkTierCounts (S (n_small c)) (n_medium c) (n_large c)
  | MEDIUM => mkTierCounts (n_small c) (S (n_medium c)) (n_large c)
  | LARGE => mkTierCounts (n_small c) (n_medium c) (S (n_large c))
  end.

Record Stats : Type := mkStats {
  cache_hits : nat;
  cache_misses : nat;
  total_cost : Q;
  calls_by_tier : TierCounts
}.

(** The optimizer object.  [provider_log] is not a field of the Python
    class: it is the trace of the calls made to [_call_openai], oldest
    first, kept to state which provider calls a method made. *)
Record CostOptimizer : Type := mkCostOptimizer {
  cache : list (string * string);
  stats : Stats;
  provider_log : list (ModelTier * string)
}.

(** [CostOptimizer.__init__] *)
Definition CostOptimizer_init : CostOptimizer :=
  mkCostOptimizer [] (mkStats 0 0 0 (mkTierCounts 0 0 0)) [].

Definition set_cache (f : list (string * string) -> list (string * string))
  (o : CostOptimizer) : CostOptimizer :=
  mkCostOptimizer (f (cache o)) (stats o) (provider_log o).

Definition set_stats (f : Stats -> Stats) (o : CostOptimizer) : CostOptimizer :=
  mkCostOptimizer (cache o) (f (stats o)) (provider_log o).

Definition hit (s : Stats) : Stats :=
  mkStats (S (cache_hits s)) (cache_misses s) (total_cost s) (calls_by_tier s).

Definition miss (s : Stats) : Stats :=
  mkStats (cache_hits s) (S (cache_misses s)) (total_cost s) (calls_by_tier s).

Definition count_call (t : ModelTier) (s : Stats) : Stats :=
  mkStats (cache_hits s) (cache_misses s) (total_cost s)
    (tier_incr (calls_by_tier s) t).

Definition add_cost (c : Q) (s : Stats) : Stats :=
  mkStats (cache_hits s) (cache_misses s) (total_cost s + c) (calls_by_tier s).

(** [self.costs]: cost per 1K tokens, input and output. *)
Definition costs (t : ModelTier) : Q * Q :=
  match t with
  | SMALL => (15 # 10000, 2 # 1000)
  | MEDIUM => (3 # 1000, 4 # 1000)
  | LARGE => (3 # 100, 6 # 100)
  end.

Definition simple_tasks : list string :=
  ["extract_po_number"; "parse_date"; "extract_quantity"].
Definition medium_tasks : list string :=
  ["classify_intent"; "extract_entities"; "format_response"].
Definition complex_tasks : list string :=
  ["multi_step_reasoning"; "decision_making"; "coordination"].

(** The task types that [call_llm] never cascades. *)
Definition never_cascade : list string := ["extract_po_number"; "parse_date"].

(** [CostOptimizer.analyze_task_complexity] *)
Definition analyze_task_complexity (task_type : string) (context : PyDict)
  : result ModelTier :=
  if str_in task_type simple_tasks then Ok SMALL
  else if str_in task_type medium_tasks then
    match py_len (dict_get context "text" (PStr "")) with
    | Ok n => if (n <? 500)%nat then Ok SMALL else Ok MEDIUM
    | Raise e => Raise e
    end
  else if str_in task_type complex_tasks then Ok LARGE
  else
    match py_truthy (dict_get context "requires_reasoning" (PBool false)) with
    | Ok true => Ok LARGE
    | Ok false => Ok MEDIUM
    | Raise e => Raise e
    end.

(** The cache is bounded by this many entries. *)
Definition max_cache_size : nat := 1000.

(** The body of [cache_response] once the key is known:
    [cache[key] = response], then the oldest entry goes if the cache
    holds more than [max_cache_size] entries. *)
Definition cache_store (key response : string) (c : list (string * string))
  : list (string * string) :=
  let c1 := dict_set c key response in
  if (max_cache_size <? List.length c1)%nat then
    match c1 with
    | [] => c1
    | (oldest_key, _) :: _ => dict_del c1 oldest_key
    end
  else c1.

(** [mock_responses[tier]] in [_call_openai] *)
Definition mock_response (tier : ModelTier) : string :=
  match tier with
  | SMALL => "Mock response from " ++ tier_value tier
  | MEDIUM => "Detailed mock response from " ++ tier_value tier
  | LARGE => "Comprehensive mock response from " ++ tier_value tier
               ++ " with reasoning"
  end.

(** The body of [_call_openai] in the source, a stand-in for the real
    client.  [openai_available] is the module flag [OPENAI_AVAILABLE];
    a token is a quarter of a character. *)
Definition _call_openai_body (openai_available : bool) (tier : ModelTier)
  (prompt : string) : string * Q :=
  if negb openai_available then
    let input_tokens := inject_Z (Z.of_nat (String.length prompt)) / 4 in
    let output_tokens :=
      inject_Z (Z.of_nat (String.length (mock_response tier))) / 4 in
    let cost := (input_tokens * fst (costs tier)
                 + output_tokens * snd (costs tier)) / 1000 in
    (mock_response tier, cost)
  else ("Response", 0).

Section Optimizer.

(** [hashlib.md5(s.encode()).hexdigest()] *)
Variable md5 : string -> string.

(** The inference provider behind [_call_openai]: given the calls made
    so far, the tier and the prompt, a response and its cost, or a
    failure.  The stand-in of the source is [source_provider]. *)
Variable provider :
  list (ModelTier * string) -> ModelTier -> string -> result (string * Q).

(** [CostOptimizer._generate_cache_key] *)
Definition _generate_cache_key (task_type prompt : string) (context : PyDict)
  : result string :=
  match Json.dumps_dict true context with
  | Ok js => Ok (md5 (task_type ++ ":" ++ prompt ++ ":" ++ js))
  | Raise e => Raise e
  end.

(** [CostOptimizer.get_cached_response] *)
Definition get_cached_response (task_type prompt : string) (context : PyDict)
  : M CostOptimizer (option string) :=
  cache_key <- lift (_generate_cache_key task_type prompt context) ;;
  o <- get ;;
  if dict_mem cache_key (cache o) then
    modify (set_stats hit) ;;;
    ret (dict_lookup (cache o) cache_key)
  else
    modify (set_stats miss) ;;;
    ret None.

(** [CostOptimizer.cache_response] *)
Definition cache_response (task_type prompt : string) (context : PyDict)
  (response : string) : M CostOptimizer unit :=
  cache_key <- lift (_generate_cache_key task_type prompt context) ;;
  modify (set_cache (cache_store cache_key response)).

(** [CostOptimizer._call_openai], as a call to the provider. *)
Definition _call_openai (tier : ModelTier) (prompt : string)
  : M CostOptimizer (string * Q) :=
  fun o =>
    (provider (provider_log o) tier prompt,
     mkCostOptimizer (cache o) (stats o)
       (provider_log o ++ [(tier, prompt)])%list).

(** [if cached:] on the optional cached response. *)
Definition cached_truthy (cached : option string) : bool :=
  match cached with
  | Some r => negb (String.eqb r "")
  | None => false
  end.

(** [context or {}] *)
Definition context_or_empty (context : option PyDict) : PyDict :=
  match context with
  | Some d => d
  | None => []
  end.

Definition is_some {A} (o : option A) : bool :=
  match o with Some _ => true | None => false end.

(** The cascading attempt of [call_llm]: [Some] when it returns from
    inside the [try], [None] when control falls through. *)
Definition cascade_attempt (task_type prompt : string) (context : PyDict)
  (force_tier : option ModelTier) : M CostOptimizer (option (string * Q)) :=
  if negb (is_some force_tier) && negb (str_in task_type never_cascade) then
    try_except
      ('(response, cost) <- _call_openai SMALL prompt ;;
       if (10 <? String.length response)%nat then
         modify (set_stats (count_call SMALL)) ;;;
         cache_response task_type prompt context response ;;;
         ret (Some (response, cost))
       else ret None)
      (fun _ => ret None)
  else ret None.

(** [CostOptimizer.call_llm] *)
Definition call_llm (task_type prompt : string) (context : option PyDict)
  (force_tier : option ModelTier) : M CostOptimizer (string * Q) :=
  let context := context_or_empty context in
  cached <- get_cached_response task_type prompt context ;;
  if cached_truthy cached then
    ret (match cached with Some r => r | None => "" end, 0)
  else
    tier <- lift (match force_tier with
                  | Some t => Ok t
                  | None => analyze_task_complexity task_type context
                  end) ;;
    early <- cascade_attempt task_type prompt context force_tier ;;
    match early with
    | Some rc => ret rc
    | None =>
        '(response, cost) <- _call_openai tier prompt ;;
        modify (set_stats (count_call tier)) ;;;
        modify (set_stats (add_cost cost)) ;;;
        cache_response task_type prompt context response ;;;
        ret (response, cost)
    end.

End Optimizer.

(** The provider of the source: the stand-in body, whatever was called
    before. *)
Definition source_provider (openai_available : bool)
  : list (ModelTier * string) -> ModelTier -> string -> result (string * Q) :=
  fun _ tier prompt => Ok (_call_openai_body openai_available tier prompt).

(** [round(x, digits)]: to the nearest multiple of [1 / 10^digits],
    ties to even. *)
Definition py_round (x : Q) (digits : nat) : Q :=
  let scale := inject_Z (10 ^ Z.of_nat digits) in
  let y := x * scale in
  let f := Qfloor y in
  let d := y - inject_Z f in
  let n := if Qlt_le_dec d (1 # 2) then f
           else if Qlt_le_dec (1 # 2) d then (f + 1)%Z
           else if Z.even f then f else (f + 1)%Z in
  inject_Z n / scale.

(** What [get_stats] returns. *)
Record StatsReport : Type := mkStatsReport {
  rep_cache_hit_rate : Q;
  rep_cache_hits : nat;
  rep_cache_misses : nat;
  rep_total_cost : Q;
  rep_calls_by_tier : TierCounts;
  rep_estimated_savings : Q
}.

(** [CostOptimizer.get_stats] *)
Definition get_stats (o : CostOptimizer) : StatsReport :=
  let total_calls := (cache_hits (stats o) + cache_misses (stats o))%nat in
  let cache_hit_rate :=
    if (0 <? total_calls)%nat
    then inject_Z (Z.of_nat (cache_hits (stats o)))
         / inject_Z (Z.of_nat total_calls) * 100
    else 0 in
  mkStatsReport
    (py_round cache_hit_rate 2)
    (cache_hits (stats o))
    (cache_misses (stats o))
    (py_round (total_cost (stats o)) 4)
    (calls_by_tier (stats o))
    (py_round (inject_Z (Z.of_nat (cache_hits (stats o))) * (2 # 1000)) 4).

(** The [total_cost] entry of [get_stats]. *)
Definition get_stats_total_cost (o : CostOptimizer) : Q :=
  rep_total_cost (get_stats o).

(** ** [agents/observability.py] *)

Record Event : Type := mkEvent {
  ev_timestamp : string;
  ev_agent : string;
  ev_action : string;
  ev_context : string;
  ev_outcome : string;
  ev_cost : Q;
  ev_duration_ms : Q;
  ev_execution_id : string
}.

Record Metrics : Type := mkMetrics {
  total_actions : nat;
  successful_actions : nat;
  failed_actions : nat;
  m_total_cost : Q;
  total_time : Q;
  overrides : nat
}.

(** The default factory of [agent_metrics]. *)
Definition Metrics_default : Metrics := mkMetrics 0 0 0 0 0 0.

Record ObservabilityLogger : Type := mkLogger {
  events : list Event;
  agent_metrics : list (string * Metrics)
}.

(** [ObservabilityLogger.__init__] *)
Definition ObservabilityLogger_init : ObservabilityLogger := mkLogger [] [].

(** [self.agent_metrics[agent_name]] read without inserting. *)
Definition metrics_of (l : ObservabilityLogger) (agent_name : string) : Metrics :=
  dict_get (agent_metrics l) agent_name Metrics_default.

(** [l[-n:]] for [n > 0] *)
Definition last_n {A} (n : nat) (l : list A) : list A :=
  skipn (List.length l - n) l.

Definition max_events : nat := 1000.

(** The update of one agent's accumulator in [log_event]. *)
Definition record_action (outcome : string) (cost duration_ms : Q) (m : Metrics)
  : Metrics :=
  mkMetrics
    (S (total_actions m))
    (if String.eqb outcome "success"
     then S (successful_actions m) else successful_actions m)
    (if String.eqb outcome "success"
     then failed_actions m else S (failed_actions m))
    (m_total_cost m + cost)
    (total_time m + duration_ms)
    (overrides m).

Definition record_override (m : Metrics) : Metrics :=
  mkMetrics (total_actions m) (successful_actions m) (failed_actions m)
    (m_total_cost m) (total_time m) (S (overrides m)).

(** [metrics = self.agent_metrics[agent_name]] followed by updates in
    place: a missing agent gets the default first. *)
Definition update_metrics (agent_name : string) (f : Metrics -> Metrics)
  (l : ObservabilityLogger) : ObservabilityLogger :=
  mkLogger (events l)
    (dict_set (agent_metrics l) agent_name (f (metrics_of l agent_name))).

Section Observability.

(** [str(v)]: a text, or what [__str__] raises. *)
Variable py_str : PyVal -> result string.

(** [json.dumps(context) if isinstance(context, dict)
     else str(context)] *)
Definition render_context (context : PyVal) : result string :=
  match context with
  | PDict _ => Json.dumps false context
  | _ => py_str context
  end.

(** [execution_id or f"exec_{len(self.events)}"] *)
Definition execution_id_or (execution_id : option string) (n_events : nat)
  : string :=
  match execution_id with
  | Some e => if String.eqb e "" then "exec_" ++ Json.string_of_Z (Z.of_nat n_events)
              else e
  | None => "exec_" ++ Json.string_of_Z (Z.of_nat n_events)
  end.

(** [ObservabilityLogger.log_event]; [now] is the reading of
    [datetime.now().isoformat()]. *)
Definition log_event (now agent_name action : string) (context : PyVal)
  (outcome : string) (cost duration_ms : Q) (execution_id : option string)
  : M ObservabilityLogger unit :=
  rendered <- lift (render_context context) ;;
  l <- get ;;
  let event :=
    mkEvent now agent_name action rendered outcome cost duration_ms
      (execution_id_or execution_id (List.length (events l))) in
  modify (fun l => mkLogger (events l ++ [event])%list (agent_metrics l)) ;;;
  modify (update_metrics agent_name (record_action outcome cost duration_ms)) ;;;
  modify (fun l =>
            if (max_events <? List.length (events l))%nat
            then mkLogger (last_n max_events (events l)) (agent_metrics l)
            else l).

(** [ObservabilityLogger.log_decision] *)
Definition log_decision (now agent_name decision reasoning : string)
  (inputs : PyVal) (execution_id : option string)
  : M ObservabilityLogger unit :=
  log_event now agent_name ("decision: " ++ decision)
    (PDict [("reasoning", PStr reasoning);
            ("inputs", inputs);
            ("decision", PStr decision)])
    "success" 0 0 execution_id.

(** [ObservabilityLogger.log_override] *)
Definition log_override (now agent_name original_decision override_reason : string)
  : M ObservabilityLogger unit :=
  modify (update_metrics agent_name record_override) ;;;
  log_event now agent_name "override"
    (PDict [("original_decision", PStr original_decision);
            ("override_reason", PStr override_reason)])
    "overridden" 0 0 None.

(** The operations of the ledger, as data. *)
Inductive LedgerOp : Type :=
| OpEvent (now agent_name action : string) (context : PyVal)
    (outcome : string) (cost duration_ms : Q) (execution_id : option string)
| OpDecision (now agent_name decision reasoning : string) (inputs : PyVal)
    (execution_id : option string)
| OpOverride (now agent_name original_decision override_reason : string).

Definition run_op (op : LedgerOp) : M ObservabilityLogger unit :=
  match op with
  | OpEvent now a act ctx out c d e => log_event now a act ctx out c d e
  | OpDecision now a dec r i e => log_decision now a dec r i e
  | OpOverride now a o r => log_override now a o r
  end.

(** A sequence of calls, each caller going on after a call that
    raised. *)
Fixpoint run_ops (ops : list LedgerOp) (l : ObservabilityLogger)
  : ObservabilityLogger :=
  match ops with
  | [] => l
  | op :: ops' => run_ops ops' (snd (run_op op l))
  end.

(** The agent, the outcome and the rendered context of the event an
    operation logs. *)
Definition op_agent (op : LedgerOp) : string :=
  match op with
  | OpEvent _ a _ _ _ _ _ _ => a
  | OpDecision _ a _ _ _ _ => a
  | OpOverride _ a _ _ => a
  end.

Definition op_outcome (op : LedgerOp) : string :=
  match op with
  | OpEvent _ _ _ _ out _ _ _ => out
  | OpDecision _ _ _ _ _ _ => "success"
  | OpOverride _ _ _ _ => "overridden"
  end.

Definition op_context (op : LedgerOp) : PyVal :=
  match op with
  | OpEvent _ _ _ ctx _ _ _ _ => ctx
  | OpDecision _ _ dec r i _ =>
      PDict [("reasoning", PStr r); ("inputs", i); ("decision", PStr dec)]
  | OpOverride _ _ o r =>
      PDict [("original_decision", PStr o); ("override_reason", PStr r)]
  end.

(** The operation appends an event (its context renders). *)
Definition op_logged (op : LedgerOp) : bool :=
  is_ok (render_context (op_context op)).

(** The events of [agent], among those a sequence of operations
    logged, whose outcome satisfies [p]. *)
Definition count_logged (p : string -> bool) (agent : string)
  (ops : list LedgerOp) : nat :=
  List.length
    (filter (fun op => op_logged op && String.eqb (op_agent op) agent
                       && p (op_outcome op)) ops).

Definition is_override (op : LedgerOp) : bool :=
  match op with OpOverride _ _ _ _ => true | _ => false end.

Definition count_overrides (agent : string) (ops : list LedgerOp) : nat :=
  List.length
    (filter (fun op => is_override op && String.eqb (op_agent op) agent) ops).

End Observability.

(** ** [agents/orchestrator.py] *)

Record Agent : Type := mkAgent {
  agent_name : string;
  status : string;
  active_tasks : Z;
  description : string
}.

Record Orchestrator : Type := mkOrchestrator {
  cost_optimizer : CostOptimizer;
  observability : ObservabilityLogger;
  agents : list (string * Agent)
}.

(** [AgentOrchestrator.__init__] *)
Definition Orchestrator_init : Orchestrator :=
  mkOrchestrator CostOptimizer_init ObservabilityLogger_init
    [("inbox_agent",
      mkAgent "Inbox Agent" "idle" 0 "Parses emails and extracts entities");
     ("po_tracker",
      mkAgent "PO Tracker Agent" "idle" 0
        "Tracks purchase orders and delivery dates");
     ("change_manager",
      mkAgent "Change Manager Agent" "idle" 0
        "Handles price and quantity changes");
     ("routing_agent",
      mkAgent "Routing Agent" "idle" 0 "Routes emails to appropriate agents")].

(** What [classify_intent] returns. *)
Record IntentResult : Type := mkIntent {
  intent : string;
  confidence : string;              (* the repr of a float *)
  scores : list (string * Z)
}.

Definition intent_to_py (i : IntentResult) : PyVal :=
  PDict [("intent", PStr (intent i));
         ("confidence", PFloat (confidence i));
         ("scores", PDict (map (fun kv => (fst kv, PInt (snd kv))) (scores i)))].

(** What a stage workflow returns. *)
Record WorkflowResult : Type := mkWorkflowResult {
  wf_action : string;
  wf_cost : Q;
  wf_po_number : option PyVal
}.

(** What [process_email] returns. *)
Record ProcessResult : Type := mkProcessResult {
  r_execution_id : string;
  r_intent : string;
  r_routed_agent : string;
  r_entities : PyDict;
  r_workflow_result : WorkflowResult;
  r_cost : Q;
  r_duration_ms : Q
}.

(** The readings of the clock and of [hash] during one request. *)
Record Clock : Type := mkClock {
  execution_id : string;
  now : string;
  parse_duration : Q;
  total_duration : Q
}.

Definition routing_rules : list (string * string) :=
  [("delivery_delay", "po_tracker");
   ("price_change", "change_manager");
   ("quantity_change", "change_manager");
   ("acknowledgement_request", "po_tracker");
   ("quality_issue", "change_manager");
   ("general_inquiry", "inbox_agent")].

(** [AgentOrchestrator._route_email] *)
Definition _route_email (intent : string) (entities : PyDict) : string :=
  dict_get routing_rules intent "inbox_agent".

Definition set_agents (f : list (string * Agent) -> list (string * Agent))
  (o : Orchestrator) : Orchestrator :=
  mkOrchestrator (cost_optimizer o) (observability o) (f (agents o)).

(** An assignment to a field of [self.agents[id]]; a missing id raises
    [KeyError]. *)
Definition update_agent (id : string) (f : Agent -> Agent) : M Orchestrator unit :=
  o <- get ;;
  match dict_lookup (agents o) id with
  | Some a => modify (set_agents (fun ags => dict_set ags id (f a)))
  | None => raise (KeyError id)
  end.

Definition set_status (st : string) (a : Agent) : Agent :=
  mkAgent (agent_name a) st (active_tasks a) (description a).

(** [active_tasks += 1] *)
Definition incr_tasks (a : Agent) : Agent :=
  mkAgent (agent_name a) (status a) (active_tasks a + 1) (description a).

(** [active_tasks = max(0, active_tasks - 1)] *)
Definition decr_tasks (a : Agent) : Agent :=
  mkAgent (agent_name a) (status a) (Z.max 0 (active_tasks a - 1))
    (description a).

(** The two statements that mark an agent active, and the two that mark
    it idle. *)
Definition mark_active (id : string) : M Orchestrator unit :=
  update_agent id (set_status "active") ;;;
  update_agent id incr_tasks.

Definition mark_idle (id : string) : M Orchestrator unit :=
  update_agent id (set_status "idle") ;;;
  update_agent id decr_tasks.

(** [str(e)] of an exception. *)
Definition exn_str (e : exn) : string :=
  match e with
  | TypeError m => m
  | KeyError k => "'" ++ k ++ "'"
  | ValueError m => m
  | ExternalError m => m
  end.

(** A [str] that raises on no value. *)
Definition total_str (f : PyVal -> string) : PyVal -> result string :=
  fun v => Ok (f v).

Section Orchestration.

Variable md5 : string -> string.
Variable provider :
  list (ModelTier * string) -> ModelTier -> string -> result (string * Q).

(** [str(v)] of the values the parser extracts, which are built-ins:
    it raises on none of them. *)
Variable py_str : PyVal -> string.

(** The parser: [EmailParser.extract_entities(body, subject)] and
    [EmailParser.classify_intent(subject, body)]. *)
Variable extract_entities : string -> string -> result PyDict.
Variable classify_intent : string -> string -> result IntentResult.

Variable clock : Clock.

Definition in_optimizer {A} (m : M CostOptimizer A) : M Orchestrator A :=
  zoom cost_optimizer
    (fun c o => mkOrchestrator c (observability o) (agents o)) m.

Definition in_observability {A} (m : M ObservabilityLogger A)
  : M Orchestrator A :=
  zoom observability
    (fun l o => mkOrchestrator (cost_optimizer o) l (agents o)) m.

(** [AgentOrchestrator._po_tracker_workflow] *)
Definition _po_tracker_workflow (intent_result : IntentResult)
  (entities : PyDict) (sender : string) (execution_id : string)
  : M Orchestrator WorkflowResult :=
  mark_active "po_tracker" ;;;
  let po_number := dict_get entities "po_number" PNone in
  let prompt :=
    "PO " ++ py_str po_number ++ " has delivery update. Intent: "
      ++ intent intent_result ++ ". Dates: "
      ++ py_str (dict_get entities "dates" (PList [])) in
  '(response, cost) <-
    in_optimizer
      (call_llm md5 provider "decision_making" prompt
         (Some [("intent", intent_to_py intent_result);
                ("entities", PDict entities)])
         None) ;;
  let action :=
    if String.eqb (intent intent_result) "delivery_delay"
    then "escalate_if_critical"
    else if String.eqb (intent intent_result) "acknowledgement_request"
         then "send_acknowledgement"
         else "update_erp" in
  in_observability
    (log_event (total_str py_str) (now clock) "po_tracker" action
       (PDict [("po_number", po_number); ("sender", PStr sender)])
       "success" cost 0 (Some execution_id)) ;;;
  mark_idle "po_tracker" ;;;
  ret (mkWorkflowResult action cost (Some po_number)).

(** [AgentOrchestrator._change_manager_workflow] *)
Definition _change_manager_workflow (intent_result : IntentResult)
  (entities : PyDict) (sender : string) (execution_id : string)
  : M Orchestrator WorkflowResult :=
  mark_active "change_manager" ;;;
  let prompt :=
    "Analyze impact of " ++ intent intent_result ++ " for supplier "
      ++ sender ++ ". Entities: " ++ py_str (PDict entities) in
  '(response, cost) <-
    in_optimizer
      (call_llm md5 provider "multi_step_reasoning" prompt
         (Some [("intent", intent_to_py intent_result);
                ("entities", PDict entities)])
         None) ;;
  let action :=
    if str_in (intent intent_result) ["price_change"; "quantity_change"]
    then "requires_approval" else "log_change" in
  in_observability
    (log_event (total_str py_str) (now clock) "change_manager" action
       (PDict [("intent", PStr (intent intent_result));
               ("sender", PStr sender)])
       "success" cost 0 (Some execution_id)) ;;;
  mark_idle "change_manager" ;;;
  ret (mkWorkflowResult action cost None).

(** [AgentOrchestrator._execute_workflow] *)
Definition _execute_workflow (agent : string) (intent_result : IntentResult)
  (entities : PyDict) (sender : string) (execution_id : string)
  : M Orchestrator WorkflowResult :=
  if String.eqb agent "po_tracker" then
    _po_tracker_workflow intent_result entities sender execution_id
  else if String.eqb agent "change_manager" then
    _change_manager_workflow intent_result entities sender execution_id
  else ret (mkWorkflowResult "logged" 0 None).

(** The body of the [try] of [process_email]. *)
Definition process_email_body (sender subject body : string)
  : M Orchestrator ProcessResult :=
  let execution_id := execution_id clock in
  mark_active "inbox_agent" ;;;
  entities <- lift (extract_entities body subject) ;;
  intent_result <- lift (classify_intent subject body) ;;
  in_observability
    (log_event (total_str py_str) (now clock) "inbox_agent" "parse_email"
       (PDict [("sender", PStr sender); ("subject", PStr subject)])
       "success" 0 (parse_duration clock) (Some execution_id)) ;;;
  mark_active "routing_agent" ;;;
  let routed_agent := _route_email (intent intent_result) entities in
  in_observability
    (log_decision (total_str py_str) (now clock) "routing_agent"
       ("route_to_" ++ routed_agent)
       ("Intent: " ++ intent intent_result ++ ", PO: "
          ++ py_str (dict_get entities "po_number" (PStr "N/A")))
       (PDict [("intent", intent_to_py intent_result);
               ("entities", PDict entities)])
       (Some execution_id)) ;;;
  workflow_result <-
    _execute_workflow routed_agent intent_result entities sender
      execution_id ;;
  let total_cost := wf_cost workflow_result in
  mark_idle "inbox_agent" ;;;
  mark_idle "routing_agent" ;;;
  ret (mkProcessResult execution_id (intent intent_result) routed_agent
         entities workflow_result total_cost (total_duration clock)).

(** [AgentOrchestrator.process_email] *)
Definition process_email (sender subject body : string)
  : M Orchestrator ProcessResult :=
  try_except
    (process_email_body sender subject body)
    (fun e =>
       in_observability
         (log_event (total_str py_str) (now clock) "orchestrator"
            "process_email"
            (PDict [("error", PStr (exn_str e))])
            "failure" 0 0 (Some (execution_id clock))) ;;;
       raise e).

(** [AgentOrchestrator.override_decision] *)
Definition override_decision (agent_id decision reason : string)
  : M Orchestrator unit :=
  o <- get ;;
  if dict_mem agent_id (agents o) then
    in_observability
      (log_override (total_str py_str) (now clock) agent_id decision reason)
  else raise (ValueError ("Agent " ++ agent_id ++ " not found")).

End Orchestration.

(** The status and the task count of an agent of the registry. *)
Definition agent_status (o : Orchestrator) (id : string) : option string :=
  option_map status (dict_lookup (agents o) id).

Definition agent_tasks (o : Orchestrator) (id : string) : option Z :=
  option_map active_tasks (dict_lookup (agents o) id).

(** ** More of [agents/observability.py] *)

(** [part / total * 100 if total > 0 else 0] *)
Definition percent_of (part total : nat) : Q :=
  if (0 <? total)%nat
  then inject_Z (Z.of_nat part) / inject_Z (Z.of_nat total) * 100
  else 0.

(** What [get_agent_metrics] returns for a known agent. *)
Record AgentReport : Type := mkAgentReport {
  ar_agent : string;
  ar_total_actions : nat;
  ar_success_rate : Q;
  ar_failure_rate : Q;
  ar_avg_response_time_ms : Q;
  ar_total_cost : Q;
  ar_overrides : nat;
  ar_override_rate : Q
}.

(** [ObservabilityLogger.get_agent_metrics]: [None] is the empty dict
    returned for an agent without an accumulator. *)
Definition get_agent_metrics (l : ObservabilityLogger) (agent_name : string)
  : option AgentReport :=
  if negb (dict_mem agent_name (agent_metrics l)) then None
  else
    let metrics := metrics_of l agent_name in
    let total := total_actions metrics in
    Some (mkAgentReport
            agent_name
            total
            (percent_of (successful_actions metrics) total)
            (percent_of (failed_actions metrics) total)
            (if (0 <? total)%nat
             then total_time metrics / inject_Z (Z.of_nat total) else 0)
            (py_round (m_total_cost metrics) 4)
            (overrides metrics)
            (percent_of (overrides metrics) total)).

(** [sum(xs)]: from 0, left to right. *)
Definition py_sum (xs : list Q) : Q := fold_left Qplus xs 0.

(** What [get_metrics] returns. *)
Record MetricsReport : Type := mkMetricsReport {
  mr_total_processed : nat;
  mr_success_rate : Q;
  mr_total_cost : Q;
  mr_agent_count : nat;
  mr_events_last_hour : nat
}.

(** [ObservabilityLogger.get_metrics]; [age_seconds ts] is
    [(datetime.now() - datetime.fromisoformat(ts)).total_seconds()] at
    the time of the query. *)
Definition get_metrics (age_seconds : string -> Q) (l : ObservabilityLogger)
  : MetricsReport :=
  let total_events := List.length (events l) in
  let successful_events :=
    List.length
      (filter (fun e => String.eqb (ev_outcome e) "success") (events l)) in
  let total_cost :=
    py_sum (map (fun kv => m_total_cost (snd kv)) (agent_metrics l)) in
  mkMetricsReport
    total_events
    (percent_of successful_events total_events)
    (py_round total_cost 4)
    (List.length (agent_metrics l))
    (List.length
       (filter (fun e => negb (Qle_bool 3600 (age_seconds (ev_timestamp e))))
          (events l))).

(** [sorted(events, key=timestamp, reverse=True)]: a stable sort, the
    newest first; events with the same timestamp keep their order. *)
Fixpoint insert_newest_first (x : Event) (l : list Event) : list Event :=
  match l with
  | [] => [x]
  | y :: l' =>
      if String.ltb (ev_timestamp x) (ev_timestamp y)
      then y :: insert_newest_first x l'
      else x :: y :: l'
  end.

Fixpoint sort_newest_first (l : list Event) : list Event :=
  match l with
  | [] => []
  | x :: l' => insert_newest_first x (sort_newest_first l')
  end.

(** [l[:limit]] for an integer [limit]: a negative one counts from the
    end. *)
Definition py_slice_to {A} (limit : Z) (l : list A) : list A :=
  if (0 <=? limit)%Z then firstn (Z.to_nat limit) l
  else firstn (List.length l - Z.to_nat (- limit)) l.

(** [ObservabilityLogger.get_timeline] *)
Definition get_timeline (limit : Z) (agent_filter : option string)
  (l : ObservabilityLogger) : list Event :=
  let events :=
    match agent_filter with
    | Some a =>
        if String.eqb a "" then events l
        else filter (fun e => String.eqb (ev_agent e) a) (events l)
    | None => events l
    end in
  py_slice_to limit (sort_newest_first events).

(** ** More of [agents/orchestrator.py] *)

(** One entry of what [get_agent_statuses] returns. *)
Record AgentStatus : Type := mkAgentStatus {
  as_id : string;
  as_name : string;
  as_status : string;
  as_active_tasks : Z;
  as_total_cost : Q;
  as_success_rate : Q
}.

(** [AgentOrchestrator.get_agent_statuses] *)
Definition get_agent_statuses (o : Orchestrator) : list AgentStatus :=
  map (fun entry =>
         let metrics := get_agent_metrics (observability o) (fst entry) in
         mkAgentStatus
           (fst entry)
           (agent_name (snd entry))
           (status (snd entry))
           (active_tasks (snd entry))
           (match metrics with Some r => ar_total_cost r | None => 0 end)
           (match metrics with Some r => ar_success_rate r | None => 0 end))
    (agents o).

(** ** [agents/email_parser.py]: [classify_intent] *)

(** [c.lower()] for a code point below 256. *)
Definition lower_char (c : ascii) : ascii :=
  let n := nat_of_ascii c in
  if ((65 <=? n) && (n <=? 90))%nat then ascii_of_nat (n + 32)
  else if ((192 <=? n) && (n <=? 222) && negb (n =? 215))%nat
       then ascii_of_nat (n + 32)
       else c.

(** [s.lower()] *)
Fixpoint py_lower (s : string) : string :=
  match s with
  | EmptyString => EmptyString
  | String c s' => String (lower_char c) (py_lower s')
  end.

(** [sub in s] *)
Fixpoint contains (sub s : string) : bool :=
  String.prefix sub s
  || match s with
     | EmptyString => false
     | String _ s' => contains sub s'
     end.

Definition intent_keywords : list (string * list string) :=
  [("delivery_delay",
    ["delay"; "delayed"; "late"; "postpone"; "reschedule"; "behind schedule"]);
   ("price_change",
    ["price"; "pricing"; "cost"; "quote"; "increase"; "decrease"; "change"]);
   ("quantity_change",
    ["quantity"; "qty"; "units"; "increase"; "decrease"; "revise"]);
   ("acknowledgement_request",
    ["acknowledge"; "confirm"; "receipt"; "received"; "please confirm"]);
   ("quality_issue",
    ["defect"; "quality"; "damage"; "issue"; "problem"; "reject"]);
   ("general_inquiry",
    ["question"; "inquiry"; "ask"; "help"; "information"])].

(** [sum(1 for keyword in keywords if keyword in text)] *)
Definition keyword_score (text : string) (keywords : list string) : nat :=
  List.length (filter (fun keyword => contains keyword text) keywords).

(** The [scores] dict, in the order of [intent_keywords]. *)
Definition intent_scores (text : string) : list (string * nat) :=
  map (fun entry => (fst entry, keyword_score text (snd entry))) intent_keywords.

(** [max(scores.values())] *)
Definition max_score (scores : list (string * nat)) : nat :=
  fold_right (fun kv m => Nat.max (snd kv) m) 0%nat scores.

(** [max(scores, key=scores.get)]: the first key with the largest
    score. *)
Fixpoint first_max (scores : list (string * nat)) (best : string * nat)
  : string * nat :=
  match scores with
  | [] => best
  | kv :: rest =>
      if (snd best <? snd kv)%nat then first_max rest kv
      else first_max rest best
  end.

Definition primary_of (scores : list (string * nat)) : string * nat :=
  match scores with
  | [] => (EmptyString, 0%nat)
  | kv :: rest => first_max rest kv
  end.

(** What [classify_intent] returns, the confidence as a rational. *)
Record Classification : Type := mkClassification {
  cl_intent : string;
  cl_confidence : Q;
  cl_scores : list (string * nat)
}.

(** [EmailParser.classify_intent] *)
Definition classify_intent_source (subject body : string) : Classification :=
  let text := py_lower (subject ++ " " ++ body) in
  let scores := intent_scores text in
  if (max_score scores =? 0)%nat then
    mkClassification "general_inquiry" (1 # 2) scores
  else
    let primary_intent := fst (primary_of scores) in
    let ratio :=
      inject_Z (Z.of_nat (dict_get scores primary_intent 0%nat))
      / inject_Z (Z.of_nat
                    (List.length (dict_get intent_keywords primary_intent []))) in
    let confidence := if Qle_bool ratio 1 then ratio else 1 in
    mkClassification primary_intent confidence scores.

(** The classification as the orchestrator receives it; [float_repr]
    is the [repr] of the float of a rational. *)
Definition classification_result (float_repr : Q -> string)
  (c : Classification) : IntentResult :=
  mkIntent (cl_intent c) (float_repr (cl_confidence c))
    (map (fun kv => (fst kv, Z.of_nat (snd kv))) (cl_scores c)).

(** * Definitions for the statements *)

(** ** The tier selector, as specified *)

(** The policy of the tier selector as the specification words it, on
    the length of [context.text] (0 when absent) and on whether
    [context.requires_reasoning] is true. *)
Definition select_tier_spec (task_type : string) (text_len : nat)
  (requires_reasoning : bool) : ModelTier :=
  if str_in task_type simple_tasks then SMALL
  else if str_in task_type medium_tasks then
         if (text_len <? 500)%nat then SMALL else MEDIUM
  else if str_in task_type complex_tasks then LARGE
  else if requires_reasoning then LARGE
  else MEDIUM.

(** [text] is absent from the context or is a string. *)
Definition text_is_str (context : PyDict) : bool :=
  match dict_lookup context "text" with
  | None | Some (PStr _) => true
  | Some _ => false
  end.

(** [requires_reasoning] is absent from the context or is a boolean. *)
Definition reasoning_is_bool (context : PyDict) : bool :=
  match dict_lookup context "requires_reasoning" with
  | None | Some (PBool _) => true
  | Some _ => false
  end.

(** [len(context.text)], 0 when [text] is absent. *)
Definition text_length (context : PyDict) : nat :=
  match dict_lookup context "text" with
  | Some (PStr s) => String.length s
  | _ => 0
  end.

(** [context.requires_reasoning == true] *)
Definition requires_reasoning (context : PyDict) : bool :=
  match dict_lookup context "requires_reasoning" with
  | Some (PBool b) => b
  | _ => false
  end.

(** What the code reads instead: the [len] of whatever [text] holds
    and the truth value of whatever [requires_reasoning] holds, each of
    which may raise. *)
Definition text_len (context : PyDict) : result nat :=
  match dict_lookup context "text" with
  | None => Ok 0%nat
  | Some v => py_len v
  end.

Definition reasoning_truth (context : PyDict) : result bool :=
  match dict_lookup context "requires_reasoning" with
  | None => Ok false
  | Some v => py_truthy v
  end.

(** What the selector reads of the context, rule by rule: the length of
    [text] only once the task type is in the medium set, the truth
    value of [requires_reasoning] only once the task type is in none of
    the three sets. *)
Definition tier_inputs (task_type : string) (context : PyDict)
  : result (nat * bool) :=
  if str_in task_type simple_tasks then Ok (0%nat, false)
  else if str_in task_type medium_tasks then
    match text_len context with
    | Ok n => Ok (n, false)
    | Raise e => Raise e
    end
  else if str_in task_type complex_tasks then Ok (0%nat, false)
  else
    match reasoning_truth context with
    | Ok b => Ok (0%nat, b)
    | Raise e => Raise e
    end.

(** ** Keys, cache runs and providers *)

(** The order of [sorted] on the items of a dict: by key. *)
Definition key_le {V} (x y : string * V) : Prop :=
  String.leb (fst x) (fst y) = true.

(** A run of insertions, by key. *)
Definition insert_all (entries : list (string * string))
  (c : list (string * string)) : list (string * string) :=
  fold_left (fun c kr => cache_store (fst kr) (snd kr) c) entries c.

(** No string twice, decided. *)
Fixpoint distinct (l : list string) : bool :=
  match l with
  | [] => true
  | x :: l' => negb (str_in x l') && distinct l'
  end.

(** 1001 entries under the keys "0", "1", ..., "1000". *)
Definition sample_entries : list (string * string) :=
  map (fun n => (Json.string_of_Z (Z.of_nat n), "cached"))
    (seq 0 (S max_cache_size)).

(** The optimizer after a call to the provider. *)
Definition logged (tier : ModelTier) (prompt : string) (o : CostOptimizer)
  : CostOptimizer :=
  mkCostOptimizer (cache o) (stats o)
    (provider_log o ++ [(tier, prompt)])%list.

(** The last step of [call_llm]: the call at the selected tier. *)
Definition authoritative_call
  (provider : list (ModelTier * string) -> ModelTier -> string
              -> result (string * Q))
  (tier : ModelTier) (key prompt : string) (o : CostOptimizer)
  : result (string * Q) * CostOptimizer :=
  match provider (provider_log o) tier prompt with
  | Ok (response, cost) =>
      (Ok (response, cost),
       set_cache (cache_store key response)
         (set_stats (add_cost cost)
            (set_stats (count_call tier) (logged tier prompt o))))
  | Raise e => (Raise e, logged tier prompt o)
  end.

(** A provider that answers every call with one fixed text. *)
Definition fixed_provider (text : string) (cost : Q)
  : list (ModelTier * string) -> ModelTier -> string -> result (string * Q) :=
  fun _ _ _ => Ok (text, cost).

(** The speculative attempt was rejected: the provider raised, or its
    response has 10 characters or fewer. *)
Definition attempt_rejected (r : result (string * Q)) : bool :=
  match r with
  | Ok (response, _) => (String.length response <=? 10)%nat
  | Raise _ => true
  end.

(** A provider that raises at SMALL and answers at the other tiers. *)
Definition small_down_provider
  : list (ModelTier * string) -> ModelTier -> string -> result (string * Q) :=
  fun _ tier _ =>
    match tier with
    | SMALL => Raise (ExternalError "quota exceeded")
    | _ => Ok ("escalate to buyer", 3 # 100)
    end.

(** A provider that answers in two characters at SMALL and raises at
    the other tiers. *)
Definition terse_provider
  : list (ModelTier * string) -> ModelTier -> string -> result (string * Q) :=
  fun _ tier _ =>
    match tier with
    | SMALL => Ok ("ok", 1 # 1000)
    | _ => Raise (ExternalError "network unreachable")
    end.


(** Which step of [call_llm] served a call. *)
Inductive Serving : Type :=
| ServedFromCache
| ServedByCascade
| ServedAtSelectedTier
| NotServed.

(** The step that serves the call, read off the branches of
    [call_llm]. *)
Definition serving (md5 : string -> string)
  (provider : list (ModelTier * string) -> ModelTier -> string
              -> result (string * Q))
  (task_type prompt : string) (context : option PyDict)
  (force_tier : option ModelTier) (o : CostOptimizer) : Serving :=
  match _generate_cache_key md5 task_type prompt (context_or_empty context) with
  | Raise _ => NotServed
  | Ok key =>
      let o0 := set_stats (if dict_mem key (cache o) then hit else miss) o in
      let cached := if dict_mem key (cache o)
                    then dict_lookup (cache o) key else None in
      if cached_truthy cached then ServedFromCache
      else
        match (match force_tier with
               | Some t => Ok t
               | None => analyze_task_complexity task_type
                           (context_or_empty context)
               end) with
        | Raise _ => NotServed
        | Ok tier =>
            match cascade_attempt md5 provider task_type prompt
                    (context_or_empty context) force_tier o0 with
            | (Ok (Some _), _) => ServedByCascade
            | (Ok None, o1) =>
                if is_ok (provider (provider_log o1) tier prompt)
                then ServedAtSelectedTier else NotServed
            | (Raise _, _) => NotServed
            end
        end
  end.

(** ** The ledger *)

(** The counters of an agent after one operation. *)
Definition step_metrics (py_str : PyVal -> result string) (op : LedgerOp)
  (a : string) (m : Metrics) : Metrics :=
  if String.eqb (op_agent op) a then
    let m1 := if is_override op then record_override m else m in
    if op_logged py_str op
    then record_action (op_outcome op)
           (match op with OpEvent _ _ _ _ _ c _ _ => c | _ => 0 end)
           (match op with OpEvent _ _ _ _ _ _ d _ => d | _ => 0 end) m1
    else m1
  else m.

(** A [str] for the examples: the text of a string or of an opaque
    object, nothing for the rest. *)
Definition plain_str (v : PyVal) : string :=
  match v with
  | PStr s => s
  | PObj o => obj_str o
  | _ => ""
  end.

(** ** The orchestrator *)

(** What the parser extracts from the delivery-delay email of the
    demo. *)
Definition demo_entities : PyDict :=
  [("po_number", PStr "12345");
   ("quantities", PList [PStr "500"]);
   ("dates", PList [PStr "December 15, 2024"]);
   ("part_numbers", PList []);
   ("prices", PList [PStr "12345"; PStr "12345"; PStr "3"]);
   ("confidence", PFloat "0.5")].

(** How the parser classifies that email. *)
Definition demo_intent : IntentResult :=
  mkIntent "delivery_delay" "0.3333333333333333"
    [("delivery_delay", 2%Z); ("price_change", 0%Z); ("quantity_change", 2%Z);
     ("acknowledgement_request", 0%Z); ("quality_issue", 0%Z);
     ("general_inquiry", 0%Z)].

(** Readings of the clock for one request. *)
Definition demo_clock : Clock :=
  mkClock "exec_1734256800_4242" "2024-12-15T10:00:00" (1 # 2) 12.

(** A provider that is down: every call raises. *)
Definition down_provider
  : list (ModelTier * string) -> ModelTier -> string -> result (string * Q) :=
  fun _ _ _ => Raise (ExternalError "provider unavailable").

(** The delivery-delay email of the demo, processed by a fresh
    orchestrator with the given provider. *)
Definition demo_process_email
  (provider : list (ModelTier * string) -> ModelTier -> string
              -> result (string * Q))
  : result ProcessResult * Orchestrator :=
  process_email (fun s => s) provider plain_str
    (fun _ _ => Ok demo_entities) (fun _ _ => Ok demo_intent) demo_clock
    "supplier@acme.com" "PO #12345 Delivery Update"
    ("Dear buyer, Purchase Order #12345 will be delayed by 3 days. "
       ++ "New delivery date: December 15, 2024. Quantity: 500 units. "
       ++ "We apologize for the inconvenience.")
    Orchestrator_init.

(** [m], run on a registry satisfying [P], returns with a registry
    satisfying [Q] or raises with a registry satisfying [E]. *)
Definition registry_triple {A} (P : list (string * Agent) -> Prop)
  (m : M Orchestrator A) (Q E : list (string * Agent) -> Prop) : Prop :=
  forall o, P (agents o) ->
            match m o with
            | (Ok _, o') => Q (agents o')
            | (Raise _, o') => E (agents o')
            end.

(** [m] never touches the registry. *)
Definition keeps_registry {A} (m : M Orchestrator A) : Prop :=
  forall o, agents (snd (m o)) = agents o.

(** The registry with the status and the task count of one agent
    replaced. *)
Definition with_status (L : list (string * Agent)) (id st : string) (n : Z)
  : list (string * Agent) :=
  match dict_lookup L id with
  | Some a => dict_set L id (mkAgent (agent_name a) st n (description a))
  | None => L
  end.

(** The registry of the constructor, the registry while the inbox agent
    parses, and the registry once the routing agent has started. *)
Definition registry_idle : list (string * Agent) := agents Orchestrator_init.

Definition registry_parsing : list (string * Agent) :=
  Eval vm_compute in with_status registry_idle "inbox_agent" "active" 1.

Definition registry_routing : list (string * Agent) :=
  Eval vm_compute in with_status registry_parsing "routing_agent" "active" 1.

(** The inbox agent was marked active and never marked idle again. *)
Definition inbox_left_active (L : list (string * Agent)) : Prop :=
  option_map status (dict_lookup L "inbox_agent") = Some "active"
  /\ option_map active_tasks (dict_lookup L "inbox_agent") = Some 1%Z.

(** ** Definitions for the further properties *)

(** The provider never charges a negative cost. *)
Definition nonneg_costs
  (provider : list (ModelTier * string) -> ModelTier -> string
              -> result (string * Q)) : Prop :=
  forall log tier prompt response cost,
    provider log tier prompt = Ok (response, cost) -> 0 <= cost.

(** The calls counted in [calls_by_tier], all tiers together. *)
Definition counted_calls (o : CostOptimizer) : nat :=
  (n_small (calls_by_tier (stats o)) + n_medium (calls_by_tier (stats o))
   + n_large (calls_by_tier (stats o)))%nat.

(** The lookups counted, hits and misses together. *)
Definition lookups (o : CostOptimizer) : nat :=
  (cache_hits (stats o) + cache_misses (stats o))%nat.

(** Every counter of the second statistics is at least that of the
    first. *)
Definition stats_le (s s' : Stats) : Prop :=
  (cache_hits s <= cache_hits s')%nat
  /\ (cache_misses s <= cache_misses s')%nat
  /\ total_cost s <= total_cost s'
  /\ (n_small (calls_by_tier s) <= n_small (calls_by_tier s'))%nat
  /\ (n_medium (calls_by_tier s) <= n_medium (calls_by_tier s'))%nat
  /\ (n_large (calls_by_tier s) <= n_large (calls_by_tier s'))%nat.

(** The cost of the event an operation logs. *)
Definition op_cost (op : LedgerOp) : Q :=
  match op with
  | OpEvent _ _ _ _ _ c _ _ => c
  | _ => 0
  end.

(** The sum of the costs of the events a sequence of operations
    logged. *)
Definition logged_cost (py_str : PyVal -> result string)
  (ops : list LedgerOp) : Q :=
  fold_right (fun op acc => (if op_logged py_str op then op_cost op else 0) + acc)
    0 ops.

(** The number of events a sequence of operations logged. *)
Definition logged_count (py_str : PyVal -> result string)
  (ops : list LedgerOp) : nat :=
  List.length (filter (op_logged py_str) ops).

(** The sum behind the [total_cost] of [get_metrics], before
    rounding. *)
Definition agents_total_cost (l : ObservabilityLogger) : Q :=
  py_sum (map (fun kv => m_total_cost (snd kv)) (agent_metrics l)).


(** The events [get_timeline] selects before sorting. *)
Definition timeline_pool (agent_filter : option string)
  (l : ObservabilityLogger) : list Event :=
  match agent_filter with
  | Some a =>
      if String.eqb a "" then events l
      else filter (fun e => String.eqb (ev_agent e) a) (events l)
  | None => events l
  end.

(** [m], run on a state satisfying [P], returns [a] in a state
    satisfying [Q a], or raises in a state satisfying [E]. *)
Definition hoare {A} (P : Orchestrator -> Prop) (m : M Orchestrator A)
  (Q : A -> Orchestrator -> Prop) (E : Orchestrator -> Prop) : Prop :=
  forall o, P o ->
            match m o with
            | (Ok a, o') => Q a o'
            | (Raise _, o') => E o'
            end.

(** [m] leaves the component [f] of the orchestrator as it is. *)
Definition preserves {A T} (f : Orchestrator -> T) (m : M Orchestrator A)
  : Prop :=
  forall o, f (snd (m o)) = f o.

(** The action a stage reports, by the agent and the intent. *)
Definition stage_action (agent intent : string) : string :=
  if String.eqb agent "po_tracker" then
    if String.eqb intent "delivery_delay" then "escalate_if_critical"
    else if String.eqb intent "acknowledgement_request"
         then "send_acknowledgement"
         else "update_erp"
  else if String.eqb agent "change_manager" then
    if str_in intent ["price_change"; "quantity_change"]
    then "requires_approval" else "log_change"
  else "logged".

(** The request is served by a stage that calls the provider. *)
Definition is_stage (agent : string) : bool :=
  String.eqb agent "po_tracker" || String.eqb agent "change_manager".

(** * Properties *)

(** ** The tier selector *)

Lemma dict_get_lookup {V} (d : list (string * V)) k default :
  dict_get d k default =
  match dict_lookup d k with Some v => v | None => default end.
Proof.
  induction d as [|[k' v] d IH]; simpl; [reflexivity|].
  destruct (String.eqb k' k); [reflexivity | exact IH].
Qed.

Lemma dict_mem_lookup {V} (d : list (string * V)) k :
  dict_mem k d = match dict_lookup d k with Some _ => true | None => false end.
Proof.
  induction d as [|[k' v] d IH]; simpl; [reflexivity|].
  destruct (String.eqb k' k); [reflexivity | exact IH].
Qed.

(** C7.  For every task type and every context, the tier selector
    returns the tier of the ordered policy (SMALL for a simple task
    type; for a medium one SMALL under 500 and MEDIUM otherwise; LARGE
    for a complex one or under requires_reasoning; MEDIUM for the
    rest), where the length is the [len] of whatever [text] holds, 0
    when absent, and requires_reasoning is the truth value of whatever
    the context holds under it, false when absent.  It raises exactly
    when the rule that applies takes a [len] or a truth value that
    raises, with that exception. *)
Theorem analyze_task_complexity_policy :
  forall (task_type : string) (context : PyDict),
    analyze_task_complexity task_type context
    = match tier_inputs task_type context with
      | Ok (len, reasoning) =>
          Ok (select_tier_spec task_type len reasoning)
      | Raise e => Raise e
      end.
Proof.
  intros task_type context.
  unfold analyze_task_complexity, tier_inputs, select_tier_spec.
  destruct (str_in task_type simple_tasks); [reflexivity|].
  destruct (str_in task_type medium_tasks).
  - rewrite dict_get_lookup. unfold text_len.
    destruct (dict_lookup context "text") as [v|]; [|reflexivity].
    destruct (py_len v) as [n|e]; [|reflexivity].
    destruct (n <? 500)%nat; reflexivity.
  - destruct (str_in task_type complex_tasks); [reflexivity|].
    rewrite dict_get_lookup. unfold reasoning_truth.
    destruct (dict_lookup context "requires_reasoning") as [v|];
      [|reflexivity].
    destruct (py_truthy v) as [[|]|e]; reflexivity.
Qed.

(** C7, as the specification words it, fails on two kinds of context.
    Under a medium task type a [text] that is None has no [len]: the
    policy gives SMALL, the code raises.  Under a task type of no set,
    requires_reasoning holding the string false is not true: the policy
    gives MEDIUM, the code, which takes the truth value of a non-empty
    string, gives LARGE. *)
Lemma analyze_task_complexity_off_policy :
  (select_tier_spec "classify_intent"
     (text_length [("text", PNone)]) (requires_reasoning [("text", PNone)])
   = SMALL
   /\ analyze_task_complexity "classify_intent" [("text", PNone)]
      = Raise (TypeError "object of type 'NoneType' has no len()"))
  /\ (select_tier_spec "summarize"
        (text_length [("requires_reasoning", PStr "false")])
        (requires_reasoning [("requires_reasoning", PStr "false")])
      = MEDIUM
      /\ analyze_task_complexity "summarize"
           [("requires_reasoning", PStr "false")]
         = Ok LARGE).
Proof. repeat split; reflexivity. Qed.

(** On a context whose [text] is absent or a string and whose
    [requires_reasoning] is absent or a boolean, the code and the
    policy as the specification words it agree, and nothing raises. *)
Lemma analyze_task_complexity_on_typed_context task_type context :
  text_is_str context = true ->
  reasoning_is_bool context = true ->
  analyze_task_complexity task_type context
  = Ok (select_tier_spec task_type (text_length context)
          (requires_reasoning context)).
Proof.
  intros Htext Hreason.
  unfold analyze_task_complexity, select_tier_spec.
  destruct (str_in task_type simple_tasks); [reflexivity|].
  destruct (str_in task_type medium_tasks).
  - rewrite dict_get_lookup.
    unfold text_is_str in Htext. unfold text_length.
    destruct (dict_lookup context "text") as [[]|]; try discriminate Htext;
      simpl; [|reflexivity].
    destruct (String.length s <? 500)%nat; reflexivity.
  - destruct (str_in task_type complex_tasks); [reflexivity|].
    rewrite dict_get_lookup.
    unfold reasoning_is_bool in Hreason. unfold requires_reasoning.
    destruct (dict_lookup context "requires_reasoning") as [[]|];
      try discriminate Hreason; simpl; try reflexivity.
    destruct b; reflexivity.
Qed.


Lemma medium_task_without_text task_type context :
  str_in task_type medium_tasks = true ->
  dict_lookup context "text" = None ->
  analyze_task_complexity task_type context = Ok SMALL.
Proof.
  intros Hm Ht. unfold analyze_task_complexity.
  destruct (str_in task_type simple_tasks); [reflexivity|].
  rewrite Hm, dict_get_lookup, Ht. reflexivity.
Qed.

(** A medium task type is settled by the second rule, whatever
    [requires_reasoning] says: the first match wins. *)
Example medium_rule_before_reasoning :
  analyze_task_complexity "format_response" [("requires_reasoning", PBool true)]
  = Ok SMALL.
Proof. reflexivity. Qed.

(** Any value with a length is measured, and any truth value counts:
    a list as [text], an empty set as [requires_reasoning]. *)
Example text_length_of_a_list :
  analyze_task_complexity "classify_intent"
    [("text", PList [PStr "PO 12345"; PStr "is late"])]
  = Ok SMALL.
Proof. reflexivity. Qed.

Example reasoning_by_truth_value :
  analyze_task_complexity "summarize" [("requires_reasoning", PStr "yes")]
  = Ok LARGE
  /\ analyze_task_complexity "summarize" [("requires_reasoning", empty_set)]
     = Ok MEDIUM.
Proof. split; reflexivity. Qed.

(** ** Key derivation *)

Module StringOrder.

Lemma ascii_compare_lt_trans a b c :
  Ascii.compare a b = Lt -> Ascii.compare b c = Lt -> Ascii.compare a c = Lt.
Proof.
  unfold Ascii.compare. rewrite !N.compare_lt_iff. apply N.lt_trans.
Qed.

Lemma compare_lt_trans s1 :
  forall s2 s3,
    String.compare s1 s2 = Lt -> String.compare s2 s3 = Lt ->
    String.compare s1 s3 = Lt.
Proof.
  induction s1 as [|a s1 IH]; intros [|b s2] [|c s3]; simpl;
    try discriminate; try reflexivity.
  destruct (Ascii.compare a b) eqn:Hab; try discriminate;
    destruct (Ascii.compare b c) eqn:Hbc; try discriminate; intros H12 H23.
  - apply Ascii.compare_eq_iff in Hab, Hbc. subst.
    replace (Ascii.compare c c) with Eq.
    + eapply IH; eassumption.
    + symmetry. unfold Ascii.compare. apply N.compare_refl.
  - apply Ascii.compare_eq_iff in Hab. subst. rewrite Hbc. reflexivity.
  - apply Ascii.compare_eq_iff in Hbc. subst. rewrite Hab. reflexivity.
  - rewrite (ascii_compare_lt_trans _ _ _ Hab Hbc). reflexivity.
Qed.

Lemma leb_cases s1 s2 :
  String.leb s1 s2 = true <-> s1 = s2 \/ String.compare s1 s2 = Lt.
Proof.
  unfold String.leb. split.
  - destruct (String.compare s1 s2) eqn:H; try discriminate; intros _.
    + left. apply String.compare_eq_iff. exact H.
    + right. reflexivity.
  - intros [ -> | -> ]; [|reflexivity].
    destruct (String.compare s2 s2) eqn:H; try reflexivity.
    pose proof (String.compare_antisym s2 s2) as Ha.
    rewrite H in Ha. discriminate Ha.
Qed.

Lemma leb_trans s1 s2 s3 :
  String.leb s1 s2 = true -> String.leb s2 s3 = true ->
  String.leb s1 s3 = true.
Proof.
  rewrite !leb_cases. intros [ -> | H12] [ -> | H23]; auto.
  right. eapply compare_lt_trans; eassumption.
Qed.

Lemma leb_false_flip s1 s2 :
  String.leb s1 s2 = false -> String.leb s2 s1 = true.
Proof.
  intros H. destruct (String.leb_total s1 s2) as [H'|H']; congruence.
Qed.

End StringOrder.

Section SortItems.

Context {V : Type}.

Lemma insert_item_perm (x : string * V) l :
  Permutation (x :: l) (Json.insert_item x l).
Proof.
  induction l as [|y l IH]; simpl; [apply Permutation_refl|].
  destruct (String.leb (fst x) (fst y)); [apply Permutation_refl|].
  eapply perm_trans; [apply perm_swap|]. apply perm_skip. exact IH.
Qed.

Lemma sort_items_perm (l : list (string * V)) :
  Permutation l (Json.sort_items l).
Proof.
  induction l as [|x l IH]; simpl; [constructor|].
  eapply perm_trans; [apply perm_skip; exact IH | apply insert_item_perm].
Qed.

Lemma insert_item_sorted (x : string * V) l :
  StronglySorted key_le l -> StronglySorted key_le (Json.insert_item x l).
Proof.
  induction 1 as [|y l Hs IH Hall]; simpl.
  - repeat constructor.
  - destruct (String.leb (fst x) (fst y)) eqn:Hxy.
    + constructor; [constructor; assumption|].
      constructor; [exact Hxy|].
      eapply Forall_impl; [|exact Hall].
      intros z Hyz. eapply StringOrder.leb_trans; eassumption.
    + constructor; [exact IH|].
      eapply Permutation_Forall; [apply insert_item_perm|].
      constructor; [|exact Hall].
      apply StringOrder.leb_false_flip. exact Hxy.
Qed.

Lemma sort_items_sorted (l : list (string * V)) :
  StronglySorted key_le (Json.sort_items l).
Proof.
  induction l; simpl; [constructor | apply insert_item_sorted; assumption].
Qed.

(** Two lists of items in key order, with the same items and no key
    twice, are the same list. *)
Lemma sorted_items_unique (l1 : list (string * V)) :
  forall l2,
    NoDup (map fst l1) ->
    StronglySorted key_le l1 -> StronglySorted key_le l2 ->
    Permutation l1 l2 -> l1 = l2.
Proof.
  induction l1 as [|a l1 IH]; intros l2 Hnd Hs1 Hs2 Hp.
  - apply Permutation_nil in Hp. subst. reflexivity.
  - destruct l2 as [|b l2].
    + apply Permutation_sym, Permutation_nil in Hp. discriminate.
    + inversion Hs1 as [|? ? Hs1' Ha]; subst.
      inversion Hs2 as [|? ? Hs2' Hb]; subst.
      inversion Hnd as [|? ? Hnotin Hnd']; subst.
      assert (Hab : a = b).
      { assert (Hin_b : In b (a :: l1))
          by (eapply Permutation_in; [apply Permutation_sym; exact Hp | left; reflexivity]).
        assert (Hin_a : In a (b :: l2))
          by (eapply Permutation_in; [exact Hp | left; reflexivity]).
        destruct Hin_b as [Heq|Hin_b]; [exact Heq|].
        destruct Hin_a as [Heq|Hin_a]; [symmetry; exact Heq|].
        exfalso. apply Hnotin.
        rewrite Forall_forall in Ha, Hb.
        assert (Hk : fst a = fst b)
          by (apply String.leb_antisym; [apply Ha | apply Hb]; assumption).
        rewrite Hk. apply in_map. exact Hin_b. }
      subst b. f_equal.
      apply IH; try assumption.
      eapply Permutation_cons_inv. exact Hp.
Qed.

Lemma sort_items_canonical (l1 l2 : list (string * V)) :
  NoDup (map fst l1) -> Permutation l1 l2 ->
  Json.sort_items l1 = Json.sort_items l2.
Proof.
  intros Hnd Hp.
  apply sorted_items_unique.
  - eapply Permutation_NoDup; [|exact Hnd].
    apply Permutation_map. apply sort_items_perm.
  - apply sort_items_sorted.
  - apply sort_items_sorted.
  - eapply perm_trans; [apply Permutation_sym, sort_items_perm|].
    eapply perm_trans; [exact Hp | apply sort_items_perm].
Qed.

End SortItems.

Lemma dumps_dict_unfold sort_keys (items : PyDict) :
  Json.dumps sort_keys (PDict items) =
  let encoded := map (fun kv => (fst kv, Json.dumps sort_keys (snd kv))) items in
  let ordered := if sort_keys then Json.sort_items encoded else encoded in
  match Json.sequence (map Json.member ordered) with
  | Ok parts => Ok ("{" ++ Json.join ", " parts ++ "}")
  | Raise e => Raise e
  end.
Proof.
  simpl.
  set (enc := fix enc (its : list (string * PyVal)) {struct its}
                : list (string * result string) :=
         match its with
         | [] => []
         | (k, x) :: its' => (k, Json.dumps sort_keys x) :: enc its'
         end).
  assert (Henc : enc items
                 = map (fun kv => (fst kv, Json.dumps sort_keys (snd kv))) items).
  { clear. induction items as [|[k x] its IH]; simpl; [reflexivity|].
    f_equal. exact IH. }
  rewrite Henc. reflexivity.
Qed.

(** The key depends on a context through the keys and the sorted
    serializations of the values only, in any order: values that are
    themselves dicts may differ in insertion order too. *)
Lemma generate_cache_key_canonical md5 task_type prompt
  (context1 context2 : PyDict) :
  NoDup (dict_keys context1) ->
  Permutation
    (map (fun kv => (fst kv, Json.dumps true (snd kv))) context1)
    (map (fun kv => (fst kv, Json.dumps true (snd kv))) context2) ->
  _generate_cache_key md5 task_type prompt context1
  = _generate_cache_key md5 task_type prompt context2.
Proof.
  intros Hnd Hp.
  unfold _generate_cache_key, Json.dumps_dict.
  rewrite !dumps_dict_unfold. cbv zeta.
  rewrite (sort_items_canonical _ _ (V := result string)) with (2 := Hp).
  - reflexivity.
  - rewrite map_map. simpl. exact Hnd.
Qed.

(** C9. Two contexts with the same key/value pairs in different
    insertion orders (the second a permutation of the first, no key
    twice) derive the same cache key, for every task type and prompt:
    the same digest, or the same exception when a value is not
    serializable. *)
Theorem generate_cache_key_order_independent :
  forall (md5 : string -> string) (task_type prompt : string)
         (context1 context2 : PyDict),
    NoDup (dict_keys context1) ->
    Permutation context1 context2 ->
    _generate_cache_key md5 task_type prompt context1
    = _generate_cache_key md5 task_type prompt context2.
Proof.
  intros md5 task_type prompt c1 c2 Hnd Hp.
  apply generate_cache_key_canonical; [exact Hnd|].
  apply Permutation_map. exact Hp.
Qed.

Lemma generate_cache_key_order_independent_witness :
  _generate_cache_key (fun s => s) "decision_making" "PO 12345"
    [("intent", PStr "delivery_delay"); ("urgent", PBool true)]
  = _generate_cache_key (fun s => s) "decision_making" "PO 12345"
      [("urgent", PBool true); ("intent", PStr "delivery_delay")].
Proof.
  apply generate_cache_key_order_independent.
  - constructor; [simpl; intros [H|[]]; discriminate H|].
    constructor; [intros []|constructor].
  - apply perm_swap.
Defined.

(** On that pair the key is a digest, not an exception. *)
Example generate_cache_key_defined :
  is_ok (_generate_cache_key (fun s => s) "decision_making" "PO 12345"
           [("urgent", PBool true); ("intent", PStr "delivery_delay")]) = true.
Proof. reflexivity. Qed.

(** The contexts the stage workflows build, with the inner dict in two
    insertion orders. *)
Example generate_cache_key_nested_order :
  _generate_cache_key (fun s => s) "decision_making" "PO 12345"
    [("intent", PDict [("intent", PStr "delivery_delay");
                       ("confidence", PFloat "0.5")]);
     ("entities", PDict [("po_number", PStr "12345")])]
  = _generate_cache_key (fun s => s) "decision_making" "PO 12345"
      [("entities", PDict [("po_number", PStr "12345")]);
       ("intent", PDict [("confidence", PFloat "0.5");
                         ("intent", PStr "delivery_delay")])].
Proof. reflexivity. Qed.

(** Without [sort_keys] the two orders would serialize differently. *)
Example dumps_unsorted_depends_on_order :
  Json.dumps false (PDict [("a", PInt 1); ("b", PInt 2)])
  <> Json.dumps false (PDict [("b", PInt 2); ("a", PInt 1)]).
Proof. vm_compute. discriminate. Qed.

(** ** The response cache *)

Lemma str_in_In x l : str_in x l = true <-> In x l.
Proof.
  unfold str_in. rewrite existsb_exists. split.
  - intros [y [Hy Heq]]. apply String.eqb_eq in Heq. subst. exact Hy.
  - intros H. exists x. split; [exact H | apply String.eqb_refl].
Qed.

Lemma distinct_NoDup l : distinct l = true -> NoDup l.
Proof.
  induction l as [|x l IH]; simpl; intros H; [constructor|].
  apply andb_true_iff in H. destruct H as [Hx Hl].
  constructor; [|apply IH; exact Hl].
  intros Hin. apply str_in_In in Hin. rewrite Hin in Hx. discriminate.
Qed.

Section DictLemmas.

Context {V : Type}.
Implicit Types (d : list (string * V)) (k : string) (v : V).

Lemma dict_mem_In k d : dict_mem k d = true <-> In k (dict_keys d).
Proof.
  induction d as [|[k' v'] d IH]; simpl; [split; [discriminate | intros []]|].
  rewrite orb_true_iff, IH, String.eqb_eq. reflexivity.
Qed.

Lemma dict_set_new k v d :
  dict_mem k d = false -> dict_set d k v = (d ++ [(k, v)])%list.
Proof.
  induction d as [|[k' v'] d IH]; simpl; [reflexivity|].
  destruct (String.eqb k' k); simpl; [discriminate|].
  intros H. rewrite IH by exact H. reflexivity.
Qed.

Lemma dict_set_length k v d :
  List.length (dict_set d k v)
  = if dict_mem k d then List.length d else S (List.length d).
Proof.
  induction d as [|[k' v'] d IH]; simpl; [reflexivity|].
  destruct (String.eqb k' k); simpl; [reflexivity|].
  rewrite IH. destruct (dict_mem k d); reflexivity.
Qed.

Lemma dict_lookup_set_same k v d : dict_lookup (dict_set d k v) k = Some v.
Proof.
  induction d as [|[k' v'] d IH]; simpl.
  - rewrite String.eqb_refl. reflexivity.
  - destruct (String.eqb k' k) eqn:E; simpl; rewrite E; [reflexivity | exact IH].
Qed.

Lemma dict_del_head k v d : dict_del ((k, v) :: d) k = d.
Proof. simpl. rewrite String.eqb_refl. reflexivity. Qed.

End DictLemmas.

(** [cache_store] drops the head when the insertion overflows. *)
Lemma cache_store_eq key response c :
  cache_store key response c =
  if (max_cache_size <? List.length (dict_set c key response))%nat
  then tl (dict_set c key response)
  else dict_set c key response.
Proof.
  unfold cache_store.
  destruct (max_cache_size <? _)%nat; [|reflexivity].
  destruct (dict_set c key response) as [|[k0 v0] rest]; [reflexivity|].
  apply dict_del_head.
Qed.

Lemma dict_lookup_app_new {V} (d : list (string * V)) k v :
  dict_mem k d = false -> dict_lookup (d ++ [(k, v)])%list k = Some v.
Proof.
  induction d as [|[k' v'] d IH]; simpl.
  - intros _. rewrite String.eqb_refl. reflexivity.
  - destruct (String.eqb k' k); simpl; [discriminate | exact IH].
Qed.

(** Under a key the cache does not hold, the entry goes last, and the
    oldest entry goes once the cache is full. *)
Lemma cache_store_miss key response c :
  dict_mem key c = false ->
  cache_store key response c
  = ((if (List.length c <? max_cache_size)%nat then c else tl c)
     ++ [(key, response)])%list.
Proof.
  intros Hmiss. rewrite cache_store_eq, dict_set_new by exact Hmiss.
  rewrite length_app. cbn [List.length].
  destruct (List.length c <? max_cache_size)%nat eqn:Hroom.
  - apply Nat.ltb_lt in Hroom.
    replace (max_cache_size <? List.length c + 1)%nat with false
      by (symmetry; apply Nat.ltb_ge; lia).
    reflexivity.
  - apply Nat.ltb_ge in Hroom.
    replace (max_cache_size <? List.length c + 1)%nat with true
      by (symmetry; apply Nat.ltb_lt; lia).
    destruct c as [|x c']; [|reflexivity].
    cbn [List.length] in Hroom. unfold max_cache_size in Hroom. lia.
Qed.

Lemma cache_store_miss_lookup key response c :
  dict_mem key c = false ->
  dict_lookup (cache_store key response c) key = Some response.
Proof.
  intros Hmiss. rewrite cache_store_miss by exact Hmiss.
  apply dict_lookup_app_new.
  destruct (List.length c <? max_cache_size)%nat; [exact Hmiss|].
  destruct c as [|[k0 v0] c']; [reflexivity|].
  cbn [tl]. cbn [dict_mem] in Hmiss. apply orb_false_iff in Hmiss. apply Hmiss.
Qed.

Lemma cache_store_bounded key response c :
  (List.length c <= max_cache_size)%nat ->
  (List.length (cache_store key response c) <= max_cache_size)%nat.
Proof.
  intros Hc. rewrite cache_store_eq.
  pose proof (dict_set_length key response c) as Hlen.
  destruct (max_cache_size <? _)%nat eqn:Hover.
  - destruct (dict_set c key response) as [|x rest]; simpl in *; [lia|].
    destruct (dict_mem key c); lia.
  - apply Nat.ltb_ge in Hover. exact Hover.
Qed.

Lemma insert_all_bounded entries :
  forall c, (List.length c <= max_cache_size)%nat ->
            (List.length (insert_all entries c) <= max_cache_size)%nat.
Proof.
  induction entries as [|[k r] entries IH]; intros c Hc; simpl; [exact Hc|].
  apply IH. apply cache_store_bounded. exact Hc.
Qed.

(** Below the capacity, new keys pile up in insertion order. *)
Lemma insert_all_below_capacity entries :
  forall c,
    NoDup (dict_keys c ++ dict_keys entries)%list ->
    (List.length c + List.length entries <= max_cache_size)%nat ->
    insert_all entries c = (c ++ entries)%list.
Proof.
  induction entries as [|[k r] entries IH]; intros c Hnd Hlen; simpl.
  - rewrite app_nil_r. reflexivity.
  - simpl in Hlen.
    assert (Hnew : dict_mem k c = false).
    { destruct (dict_mem k c) eqn:E; [|reflexivity].
      apply dict_mem_In in E. exfalso.
      apply NoDup_remove_2 in Hnd. apply Hnd.
      apply in_or_app. left. exact E. }
    rewrite cache_store_eq, dict_set_new by exact Hnew.
    replace (max_cache_size <? List.length (c ++ [(k, r)]))%nat with false
      by (symmetry; apply Nat.ltb_ge; rewrite length_app; simpl; lia).
    rewrite IH.
    + rewrite <- app_assoc. reflexivity.
    + unfold dict_keys in *. rewrite map_app. simpl.
      rewrite <- app_assoc. simpl. exact Hnd.
    + rewrite length_app. simpl. lia.
Qed.

Lemma get_cached_response_keeps_cache md5 task_type prompt context o :
  cache (snd (get_cached_response md5 task_type prompt context o)) = cache o.
Proof.
  unfold get_cached_response, bind, lift, get, modify, ret.
  destruct (_generate_cache_key md5 task_type prompt context); [|reflexivity].
  destruct (dict_mem a (cache o)); reflexivity.
Qed.

(** C8. Whatever is inserted into the empty cache, it never holds more
    than 1000 entries; inserting 1001 distinct keys leaves exactly the
    entries after the first-inserted one, in insertion order; and a
    lookup leaves the cache as it is, so a read protects no entry. *)
Theorem cache_fifo_eviction :
  forall entries : list (string * string),
    NoDup (dict_keys entries) ->
    List.length entries = S max_cache_size ->
    insert_all entries [] = tl entries
    /\ (forall any, (List.length (insert_all any []) <= max_cache_size)%nat)
    /\ (forall md5 task_type prompt context o,
          cache (snd (get_cached_response md5 task_type prompt context o))
          = cache o).
Proof.
  intros entries Hnd Hlen. split; [|split].
  - destruct (exists_last (l := entries)) as [front [[k r] Hsplit]].
    { intros ->. discriminate Hlen. }
    subst entries.
    rewrite length_app in Hlen. simpl in Hlen.
    unfold insert_all. rewrite fold_left_app. simpl.
    fold (insert_all front []).
    unfold dict_keys in Hnd. rewrite map_app in Hnd. simpl in Hnd.
    rewrite insert_all_below_capacity; simpl.
    + assert (Hnew : dict_mem k front = false).
      { destruct (dict_mem k front) eqn:E; [|reflexivity].
        apply dict_mem_In in E. exfalso.
        apply NoDup_remove_2 in Hnd. rewrite app_nil_r in Hnd.
        exact (Hnd E). }
      rewrite cache_store_eq, dict_set_new by exact Hnew.
      replace (max_cache_size <? List.length (front ++ [(k, r)]))%nat with true
        by (symmetry; apply Nat.ltb_lt; rewrite length_app; simpl; lia).
      reflexivity.
    + eapply NoDup_app_remove_r. exact Hnd.
    + lia.
  - intros any. apply insert_all_bounded. simpl. lia.
  - intros. apply get_cached_response_keeps_cache.
Qed.

Lemma cache_fifo_eviction_witness :
  insert_all sample_entries [] = tl sample_entries
  /\ (forall any, (List.length (insert_all any []) <= max_cache_size)%nat)
  /\ (forall md5 task_type prompt context o,
        cache (snd (get_cached_response md5 task_type prompt context o))
        = cache o).
Proof.
  apply cache_fifo_eviction.
  - apply distinct_NoDup. vm_compute. reflexivity.
  - vm_compute. reflexivity.
Defined.

(** The first-inserted key is gone and the second is now the oldest. *)
Example sample_first_key_evicted :
  dict_mem "0" (insert_all sample_entries []) = false
  /\ option_map fst (hd_error (insert_all sample_entries [])) = Some "1"
  /\ dict_mem "1000" (insert_all sample_entries []) = true.
Proof. vm_compute. repeat split. Qed.

(** [cache_response] is [cache_store] under the derived key. *)
Lemma cache_response_store md5 task_type prompt context response key o :
  _generate_cache_key md5 task_type prompt context = Ok key ->
  cache_response md5 task_type prompt context response o
  = (Ok tt, set_cache (cache_store key response) o).
Proof.
  intros Hkey. unfold cache_response, bind, lift, modify. rewrite Hkey.
  reflexivity.
Qed.

(** ** The cascading invoker *)

Ltac run_monad :=
  unfold bind, ret, lift, get, modify, raise, try_except in *.

Section Invoker.

Variable md5 : string -> string.
Variable provider :
  list (ModelTier * string) -> ModelTier -> string -> result (string * Q).

(** The cascading attempt, once the key is known. *)
Lemma cascade_attempt_eq task_type prompt context key o :
  _generate_cache_key md5 task_type prompt context = Ok key ->
  str_in task_type never_cascade = false ->
  cascade_attempt md5 provider task_type prompt context None o =
  match provider (provider_log o) SMALL prompt with
  | Ok (response, cost) =>
      if (10 <? String.length response)%nat then
        (Ok (Some (response, cost)),
         set_cache (cache_store key response)
           (set_stats (count_call SMALL) (logged SMALL prompt o)))
      else (Ok None, logged SMALL prompt o)
  | Raise _ => (Ok None, logged SMALL prompt o)
  end.
Proof.
  intros Hkey Hnc. unfold cascade_attempt. rewrite Hnc. simpl.
  unfold cache_response, _call_openai. run_monad. rewrite Hkey.
  fold (logged SMALL prompt o).
  destruct (provider (provider_log o) SMALL prompt) as [[response cost]|e];
    [|reflexivity].
  destruct (10 <? String.length response)%nat; reflexivity.
Qed.

(** No attempt under a forced tier or for a never-cascade task type. *)
Lemma cascade_attempt_skipped task_type prompt context force_tier o :
  is_some force_tier || str_in task_type never_cascade = true ->
  cascade_attempt md5 provider task_type prompt context force_tier o
  = (Ok None, o).
Proof.
  intros H. unfold cascade_attempt.
  destruct (is_some force_tier); simpl in *; [reflexivity|].
  rewrite H. reflexivity.
Qed.

(** [call_llm], once the key is known. *)
Lemma call_llm_eq task_type prompt context force_tier key o :
  _generate_cache_key md5 task_type prompt (context_or_empty context) = Ok key ->
  call_llm md5 provider task_type prompt context force_tier o =
  let o0 := set_stats (if dict_mem key (cache o) then hit else miss) o in
  let cached := if dict_mem key (cache o)
                then dict_lookup (cache o) key else None in
  if cached_truthy cached then
    (Ok (match cached with Some r => r | None => "" end, 0), o0)
  else
    match (match force_tier with
           | Some t => Ok t
           | None => analyze_task_complexity task_type
                       (context_or_empty context)
           end) with
    | Raise e => (Raise e, o0)
    | Ok tier =>
        match cascade_attempt md5 provider task_type prompt
                (context_or_empty context) force_tier o0 with
        | (Ok (Some rc), o1) => (Ok rc, o1)
        | (Ok None, o1) => authoritative_call provider tier key prompt o1
        | (Raise e, o1) => (Raise e, o1)
        end
    end.
Proof.
  intros Hkey. unfold call_llm, get_cached_response. run_monad.
  rewrite Hkey. cbv zeta.
  destruct (dict_mem key (cache o)).
  - destruct (cached_truthy (dict_lookup (cache o) key)); [reflexivity|].
    destruct (match force_tier with
              | Some t => Ok t
              | None => _
              end) as [tier|e]; [|reflexivity].
    destruct (cascade_attempt _ _ _ _ _ _ _) as [[[rc|]|e] o1]; try reflexivity.
    unfold authoritative_call, cache_response, _call_openai. run_monad.
    fold (logged tier prompt o1).
    destruct (provider (provider_log o1) tier prompt) as [[response cost]|e];
      [|reflexivity].
    rewrite Hkey. reflexivity.
  - simpl.
    destruct (match force_tier with
              | Some t => Ok t
              | None => _
              end) as [tier|e]; [|reflexivity].
    destruct (cascade_attempt _ _ _ _ _ _ _) as [[[rc|]|e] o1]; try reflexivity.
    unfold authoritative_call, cache_response, _call_openai. run_monad.
    fold (logged tier prompt o1).
    destruct (provider (provider_log o1) tier prompt) as [[response cost]|e];
      [|reflexivity].
    rewrite Hkey. reflexivity.
Qed.

(** A context without a key raises before anything is counted. *)
Lemma call_llm_key_error task_type prompt context force_tier e o :
  _generate_cache_key md5 task_type prompt (context_or_empty context) = Raise e ->
  call_llm md5 provider task_type prompt context force_tier o = (Raise e, o).
Proof.
  intros Hkey. unfold call_llm, get_cached_response. run_monad.
  rewrite Hkey. reflexivity.
Qed.

End Invoker.

(** C5. For a task type outside the never-cascade set, no forced tier
    and a cache miss: when the provider call at SMALL succeeds with a
    response longer than 10 characters, [call_llm] returns that
    response and cost; the provider was called once, at SMALL, so the
    selected tier is not invoked; calls_by_tier has one more call under
    SMALL and the same counts under MEDIUM and LARGE; the cache holds
    the response under the key, as its newest entry, the oldest entry
    gone if the cache was full; one miss is counted, and the total cost
    is what it was. *)
Theorem cascade_acceptance :
  forall md5 provider task_type prompt context o key tier response cost,
    str_in task_type never_cascade = false ->
    _generate_cache_key md5 task_type prompt (context_or_empty context) = Ok key ->
    dict_mem key (cache o) = false ->
    analyze_task_complexity task_type (context_or_empty context) = Ok tier ->
    provider (provider_log o) SMALL prompt = Ok (response, cost) ->
    (10 < String.length response)%nat ->
    let run := call_llm md5 provider task_type prompt context None o in
    fst run = Ok (response, cost)
    /\ provider_log (snd run) = (provider_log o ++ [(SMALL, prompt)])%list
    /\ calls_by_tier (stats (snd run))
       = mkTierCounts (S (n_small (calls_by_tier (stats o))))
           (n_medium (calls_by_tier (stats o)))
           (n_large (calls_by_tier (stats o)))
    /\ cache (snd run)
       = ((if (List.length (cache o) <? max_cache_size)%nat
           then cache o else tl (cache o))
          ++ [(key, response)])%list
    /\ dict_lookup (cache (snd run)) key = Some response
    /\ cache_hits (stats (snd run)) = cache_hits (stats o)
    /\ cache_misses (stats (snd run)) = S (cache_misses (stats o))
    /\ total_cost (stats (snd run)) = total_cost (stats o).
Proof.
  intros md5 provider task_type prompt context o key tier response cost
    Hnc Hkey Hmiss Htier Hsmall Hlen. cbv zeta.
  rewrite (call_llm_eq _ _ _ _ _ _ key) by exact Hkey.
  rewrite Hmiss. cbv zeta. simpl cached_truthy. cbv iota.
  rewrite Htier.
  rewrite (cascade_attempt_eq _ _ _ _ _ key) by assumption.
  simpl provider_log. rewrite Hsmall.
  apply Nat.ltb_lt in Hlen. rewrite Hlen.
  cbn [fst snd set_cache set_stats logged cache stats provider_log
       count_call miss calls_by_tier cache_hits cache_misses total_cost
       tier_incr].
  rewrite cache_store_miss by exact Hmiss.
  repeat split.
  apply dict_lookup_app_new.
  destruct (List.length (cache o) <? max_cache_size)%nat; [exact Hmiss|].
  destruct (cache o) as [|[k0 v0] c']; [reflexivity|].
  cbn [tl]. cbn [dict_mem] in Hmiss. apply orb_false_iff in Hmiss. apply Hmiss.
Qed.

Lemma cascade_acceptance_witness :
  let run :=
    call_llm (fun s => s) (fixed_provider "escalate to buyer" (1 # 1000))
      "decision_making" "PO 12345 delayed" None None CostOptimizer_init in
  fst run = Ok ("escalate to buyer", 1 # 1000)
  /\ provider_log (snd run) = [(SMALL, "PO 12345 delayed")]
  /\ calls_by_tier (stats (snd run)) = mkTierCounts 1 0 0
  /\ cache (snd run)
     = [("decision_making:PO 12345 delayed:{}", "escalate to buyer")]
  /\ dict_lookup (cache (snd run)) "decision_making:PO 12345 delayed:{}"
     = Some "escalate to buyer"
  /\ cache_hits (stats (snd run)) = 0%nat
  /\ cache_misses (stats (snd run)) = 1%nat
  /\ total_cost (stats (snd run)) = 0.
Proof.
  apply (cascade_acceptance (fun s => s)
           (fixed_provider "escalate to buyer" (1 # 1000))
           "decision_making" "PO 12345 delayed" None CostOptimizer_init
           "decision_making:PO 12345 delayed:{}" LARGE).
  - reflexivity.
  - reflexivity.
  - reflexivity.
  - reflexivity.
  - reflexivity.
  - simpl. lia.
Defined.

(** C6. For a task type outside the never-cascade set, no forced tier
    and a cache miss: when the attempt at SMALL raises or answers with
    10 characters or fewer, nothing of it is kept but the call, and
    [call_llm] calls the provider a second time, at the selected tier.
    If that call succeeds, its response and cost are returned,
    calls_by_tier has one more call under the selected tier and under
    no other, the total cost has grown by the cost, and the cache holds
    the response under the key as its newest entry; if it raises,
    [call_llm] raises the same exception, with calls_by_tier, the total
    cost and the cache as they were.  Either way one miss is counted. *)
Theorem cascade_rejection :
  forall md5 provider task_type prompt context o key tier,
    str_in task_type never_cascade = false ->
    _generate_cache_key md5 task_type prompt (context_or_empty context) = Ok key ->
    dict_mem key (cache o) = false ->
    analyze_task_complexity task_type (context_or_empty context) = Ok tier ->
    attempt_rejected (provider (provider_log o) SMALL prompt) = true ->
    let run := call_llm md5 provider task_type prompt context None o in
    provider_log (snd run)
    = (provider_log o ++ [(SMALL, prompt); (tier, prompt)])%list
    /\ cache_hits (stats (snd run)) = cache_hits (stats o)
    /\ cache_misses (stats (snd run)) = S (cache_misses (stats o))
    /\ match provider (provider_log o ++ [(SMALL, prompt)])%list tier prompt with
       | Ok (response, cost) =>
           fst run = Ok (response, cost)
           /\ n_small (calls_by_tier (stats (snd run)))
              = (n_small (calls_by_tier (stats o))
                 + match tier with SMALL => 1 | _ => 0 end)%nat
           /\ n_medium (calls_by_tier (stats (snd run)))
              = (n_medium (calls_by_tier (stats o))
                 + match tier with MEDIUM => 1 | _ => 0 end)%nat
           /\ n_large (calls_by_tier (stats (snd run)))
              = (n_large (calls_by_tier (stats o))
                 + match tier with LARGE => 1 | _ => 0 end)%nat
           /\ total_cost (stats (snd run)) = total_cost (stats o) + cost
           /\ cache (snd run)
              = ((if (List.length (cache o) <? max_cache_size)%nat
                  then cache o else tl (cache o))
                 ++ [(key, response)])%list
           /\ dict_lookup (cache (snd run)) key = Some response
       | Raise e =>
           fst run = Raise e
           /\ calls_by_tier (stats (snd run)) = calls_by_tier (stats o)
           /\ total_cost (stats (snd run)) = total_cost (stats o)
           /\ cache (snd run) = cache o
       end.
Proof.
  intros md5 provider task_type prompt context o key tier
    Hnc Hkey Hmiss Htier Hrej. cbv zeta.
  rewrite (call_llm_eq _ _ _ _ _ _ key) by exact Hkey.
  rewrite Hmiss. cbv zeta. simpl cached_truthy. cbv iota.
  rewrite Htier.
  rewrite (cascade_attempt_eq _ _ _ _ _ key) by assumption.
  simpl provider_log.
  assert (Hfall :
    match provider (provider_log o) SMALL prompt with
    | Ok (response, cost) =>
        if (10 <? String.length response)%nat
        then (Ok (Some (response, cost)),
              set_cache (cache_store key response)
                (set_stats (count_call SMALL)
                   (logged SMALL prompt (set_stats miss o))))
        else (Ok None, logged SMALL prompt (set_stats miss o))
    | Raise _ => (Ok None, logged SMALL prompt (set_stats miss o))
    end = (Ok None, logged SMALL prompt (set_stats miss o))).
  { destruct (provider (provider_log o) SMALL prompt) as [[response cost]|e];
      [|reflexivity].
    simpl in Hrej. apply Nat.leb_le in Hrej.
    replace (10 <? String.length response)%nat with false
      by (symmetry; apply Nat.ltb_ge; exact Hrej).
    reflexivity. }
  rewrite Hfall. unfold authoritative_call. simpl provider_log.
  destruct (provider (provider_log o ++ [(SMALL, prompt)])%list tier prompt)
    as [[response cost]|e];
    cbn [fst snd set_cache set_stats logged cache stats provider_log
         add_cost count_call miss calls_by_tier cache_hits cache_misses
         total_cost].
  - rewrite <- app_assoc. cbn [app].
    rewrite cache_store_miss_lookup, cache_store_miss by exact Hmiss.
    repeat split; destruct tier; cbn [tier_incr n_small n_medium n_large]; lia.
  - rewrite <- app_assoc. cbn [app]. repeat split.
Qed.

Lemma cascade_rejection_witness :
  let run :=
    call_llm (fun s => s) small_down_provider
      "decision_making" "PO 12345 delayed" None None CostOptimizer_init in
  provider_log (snd run)
  = [(SMALL, "PO 12345 delayed"); (LARGE, "PO 12345 delayed")]
  /\ fst run = Ok ("escalate to buyer", 3 # 100)
  /\ calls_by_tier (stats (snd run)) = mkTierCounts 0 0 1
  /\ total_cost (stats (snd run)) = 0 + (3 # 100)
  /\ cache (snd run)
     = [("decision_making:PO 12345 delayed:{}", "escalate to buyer")].
Proof.
  pose proof (cascade_rejection (fun s => s) small_down_provider
                "decision_making" "PO 12345 delayed" None CostOptimizer_init
                "decision_making:PO 12345 delayed:{}" LARGE
                eq_refl eq_refl eq_refl eq_refl eq_refl) as H.
  cbv zeta in H.
  destruct H as [Hlog [_ [_ [Hres [_ [_ [_ [Hcost [Hcache _]]]]]]]]].
  repeat split; first [assumption | reflexivity].
Defined.

(** A short answer at SMALL is rejected too, and a failure at the
    selected tier is raised to the caller. *)
Example cascade_rejection_then_failure :
  call_llm (fun s => s) terse_provider
    "decision_making" "PO 12345 delayed" None None CostOptimizer_init
  = (Raise (ExternalError "network unreachable"),
     mkCostOptimizer [] (mkStats 0 1 0 (mkTierCounts 0 0 0))
       [(SMALL, "PO 12345 delayed"); (LARGE, "PO 12345 delayed")]).
Proof. reflexivity. Qed.

(** ** Cache idempotence *)

(** What was just stored is found again: the entry dropped on overflow
    is never the new one. *)
Lemma cache_store_lookup key response c :
  (List.length c <= max_cache_size)%nat ->
  dict_lookup (cache_store key response c) key = Some response.
Proof.
  intros Hc. rewrite cache_store_eq.
  destruct (max_cache_size <? _)%nat eqn:Hover;
    [|apply dict_lookup_set_same].
  apply Nat.ltb_lt in Hover. rewrite dict_set_length in Hover.
  destruct (dict_mem key c) eqn:Hmem; [lia|].
  rewrite dict_set_new by exact Hmem.
  destruct c as [|[k0 v0] c']; [simpl in Hover; unfold max_cache_size in Hover; lia|].
  simpl. apply dict_lookup_app_new.
  simpl in Hmem. apply orb_false_iff in Hmem. apply Hmem.
Qed.

Lemma dict_lookup_mem {V} (d : list (string * V)) k v :
  dict_lookup d k = Some v -> dict_mem k d = true.
Proof. intros H. rewrite dict_mem_lookup, H. reflexivity. Qed.

Section Idempotence.

Variable md5 : string -> string.
Variable provider :
  list (ModelTier * string) -> ModelTier -> string -> result (string * Q).



(** [call_llm] keeps the cache within its bound. *)
Lemma call_llm_keeps_bound task_type prompt context force_tier o :
  (List.length (cache o) <= max_cache_size)%nat ->
  (List.length
     (cache (snd (call_llm md5 provider task_type prompt context force_tier o)))
   <= max_cache_size)%nat.
Proof.
  intros Hbound.
  destruct (_generate_cache_key md5 task_type prompt (context_or_empty context))
    as [key|e] eqn:Hkey;
    [|rewrite (call_llm_key_error _ _ _ _ _ _ e) by exact Hkey; exact Hbound].
  rewrite (call_llm_eq _ _ _ _ _ _ key) by exact Hkey. cbv zeta.
  remember (set_stats (if dict_mem key (cache o) then hit else miss) o) as o0
    eqn:Ho0.
  assert (Hc0 : cache o0 = cache o)
    by (rewrite Ho0; destruct (dict_mem _ _); reflexivity).
  clear Ho0.
  destruct (cached_truthy _); [simpl; rewrite Hc0; exact Hbound|].
  destruct (match force_tier with Some t => Ok t | None => _ end)
    as [tier|e]; [|simpl; rewrite Hc0; exact Hbound].
  assert (Hauth : forall o', cache o' = cache o ->
            (List.length
               (cache (snd (authoritative_call provider tier key prompt o')))
             <= max_cache_size)%nat).
  { intros o' Hc'. unfold authoritative_call.
    destruct (provider (provider_log o') tier prompt) as [[response cost]|e];
      simpl; rewrite Hc'; [apply cache_store_bounded|]; exact Hbound. }
  destruct (is_some force_tier || str_in task_type never_cascade) eqn:Hskip.
  - rewrite cascade_attempt_skipped by exact Hskip. apply Hauth. exact Hc0.
  - apply orb_false_iff in Hskip. destruct Hskip as [Hforce Hnc].
    destruct force_tier; [discriminate Hforce|].
    rewrite (cascade_attempt_eq _ _ _ _ _ key) by assumption.
    destruct (provider (provider_log o0) SMALL prompt) as [[response cost]|e].
    + destruct (10 <? String.length response)%nat.
      * simpl. rewrite Hc0. apply cache_store_bounded. exact Hbound.
      * apply Hauth. simpl. exact Hc0.
    + apply Hauth. simpl. exact Hc0.
Qed.



End Idempotence.





(** The same with a provider that answers with an empty text: the
    second call finds the entry, counts a hit, and calls the provider
    again all the same, because the empty response tests false. *)
Example empty_response_is_fetched_again :
  let p := fixed_provider "" (1 # 1000) in
  let first := call_llm (fun s => s) p "parse_date" "when?" None None
                 CostOptimizer_init in
  let second := call_llm (fun s => s) p "parse_date" "when?" None None
                  (snd first) in
  fst first = Ok ("", 1 # 1000)
  /\ fst second = Ok ("", 1 # 1000)
  /\ provider_log (snd second) = [(SMALL, "when?"); (SMALL, "when?")]
  /\ cache_hits (stats (snd second)) = 1%nat
  /\ n_small (calls_by_tier (stats (snd second))) = 2%nat.
Proof. vm_compute. repeat split. Qed.

(** ** Cost accounting *)

(** The stand-in charges a positive cost at every tier. *)
Lemma mock_cost_positive tier prompt :
  0 < snd (_call_openai_body false tier prompt).
Proof.
  unfold _call_openai_body. simpl negb. cbv iota. simpl snd.
  assert (Hin : 0 <= inject_Z (Z.of_nat (String.length prompt)) / 4
                     * fst (costs tier)).
  { apply Qmult_le_0_compat.
    - apply Qle_shift_div_l; [reflexivity|].
      rewrite Qmult_0_l. change 0 with (inject_Z 0).
      rewrite <- Zle_Qle. apply Nat2Z.is_nonneg.
    - destruct tier; discriminate. }
  assert (Hout : 0 < inject_Z (Z.of_nat (String.length (mock_response tier))) / 4
                     * snd (costs tier)).
  { destruct tier; reflexivity. }
  apply Qlt_shift_div_l; [reflexivity|].
  rewrite Qmult_0_l.
  apply Qlt_le_trans with (1 := Hout).
  rewrite <- (Qplus_0_l (_ * snd (costs tier))) at 1.
  apply Qplus_le_l. exact Hin.
Qed.

Lemma get_stats_total_cost_eq o :
  get_stats_total_cost o = py_round (total_cost (stats o)) 4.
Proof. reflexivity. Qed.

(** Only a call served at the selected tier adds its cost to the
    total, whatever the provider. *)
Lemma call_llm_total_cost md5 provider task_type prompt context force_tier
  r c o o1 :
  call_llm md5 provider task_type prompt context force_tier o = (Ok (r, c), o1) ->
  total_cost (stats o1)
  = match serving md5 provider task_type prompt context force_tier o with
    | ServedAtSelectedTier => total_cost (stats o) + c
    | _ => total_cost (stats o)
    end.
Proof.
  unfold serving.
  destruct (_generate_cache_key md5 task_type prompt (context_or_empty context))
    as [key|e] eqn:Hkey;
    [|rewrite (call_llm_key_error _ _ _ _ _ _ e) by exact Hkey; discriminate].
  rewrite (call_llm_eq _ _ _ _ _ _ key) by exact Hkey. cbv zeta.
  remember (set_stats (if dict_mem key (cache o) then hit else miss) o) as o0
    eqn:Ho0.
  assert (Hc0 : total_cost (stats o0) = total_cost (stats o))
    by (rewrite Ho0; destruct (dict_mem _ _); reflexivity).
  clear Ho0.
  destruct (cached_truthy _).
  - intros H. injection H as _ _ <-. exact Hc0.
  - destruct (match force_tier with Some t => Ok t | None => _ end)
      as [tier|e]; [|discriminate].
    assert (Hauth : forall o',
              total_cost (stats o') = total_cost (stats o) ->
              authoritative_call provider tier key prompt o' = (Ok (r, c), o1) ->
              total_cost (stats o1)
              = (if is_ok (provider (provider_log o') tier prompt)
                 then total_cost (stats o) + c else total_cost (stats o))).
    { intros o' Hc'. unfold authoritative_call.
      destruct (provider (provider_log o') tier prompt) as [[response cost]|e];
        [|discriminate].
      intros H. injection H as _ <- <-. simpl. rewrite Hc'. reflexivity. }
    destruct (is_some force_tier || str_in task_type never_cascade) eqn:Hskip.
    + rewrite cascade_attempt_skipped by exact Hskip.
      intros H. rewrite (Hauth _ Hc0 H).
      destruct (is_ok _); reflexivity.
    + apply orb_false_iff in Hskip. destruct Hskip as [Hforce Hnc].
      destruct force_tier; [discriminate Hforce|].
      rewrite (cascade_attempt_eq _ _ _ _ _ key) by assumption.
      destruct (provider (provider_log o0) SMALL prompt) as [[response cost]|e].
      * destruct (10 <? String.length response)%nat.
        -- intros H. injection H as _ _ <-. simpl. exact Hc0.
        -- intros H. rewrite (Hauth (logged SMALL prompt o0) Hc0 H).
           destruct (is_ok _); reflexivity.
      * intros H. rewrite (Hauth (logged SMALL prompt o0) Hc0 H).
        destruct (is_ok _); reflexivity.
Qed.

(** C10. With the provider of the source, a call that the cascading
    attempt serves returns a strictly positive cost and leaves the
    total cost of the statistics, and the total that [get_stats]
    reports, as they were, so the total falls short of what it would be
    with that cost added; and with any provider a call adds its cost
    to the total exactly when it is served at the selected tier. *)
Theorem accepted_cascade_cost_not_totalled :
  forall md5 openai_available task_type prompt context force_tier o,
    serving md5 (source_provider openai_available)
      task_type prompt context force_tier o = ServedByCascade ->
    (exists r c o1,
        call_llm md5 (source_provider openai_available)
          task_type prompt context force_tier o = (Ok (r, c), o1)
        /\ 0 < c
        /\ total_cost (stats o1) = total_cost (stats o)
        /\ get_stats_total_cost o1 = get_stats_total_cost o
        /\ total_cost (stats o1) < total_cost (stats o) + c)
    /\ (forall provider task_type' prompt' context' force_tier' r c o' o1,
          call_llm md5 provider task_type' prompt' context' force_tier' o'
          = (Ok (r, c), o1) ->
          total_cost (stats o1)
          = match serving md5 provider task_type' prompt' context' force_tier' o'
            with
            | ServedAtSelectedTier => total_cost (stats o') + c
            | _ => total_cost (stats o')
            end).
Proof.
  intros md5 avail task_type prompt context force_tier o Hserved.
  split; [|intros; eapply call_llm_total_cost; eassumption].
  unfold serving in Hserved.
  destruct (_generate_cache_key md5 task_type prompt (context_or_empty context))
    as [key|e] eqn:Hkey; [|discriminate Hserved].
  rewrite (call_llm_eq _ _ _ _ _ _ key) by exact Hkey.
  cbv zeta in *.
  remember (set_stats (if dict_mem key (cache o) then hit else miss) o) as o0
    eqn:Ho0.
  assert (Hc0 : total_cost (stats o0) = total_cost (stats o))
    by (rewrite Ho0; destruct (dict_mem _ _); reflexivity).
  clear Ho0.
  destruct (cached_truthy _); [discriminate Hserved|].
  destruct (match force_tier with Some t => Ok t | None => _ end)
    as [tier|e]; [|discriminate Hserved].
  destruct (is_some force_tier || str_in task_type never_cascade) eqn:Hskip.
  - rewrite cascade_attempt_skipped in Hserved by exact Hskip.
    first [discriminate Hserved | destruct (is_ok _); discriminate Hserved].
  - apply orb_false_iff in Hskip. destruct Hskip as [Hforce Hnc].
    destruct force_tier; [discriminate Hforce|].
    rewrite (cascade_attempt_eq _ _ _ _ _ key) in Hserved |- * by assumption.
    unfold source_provider at 1. unfold source_provider at 1 in Hserved.
    destruct avail.
    + simpl in Hserved. first [discriminate Hserved | destruct (is_ok _); discriminate Hserved].
    + pose proof (mock_cost_positive SMALL prompt) as Hpos.
      destruct (_call_openai_body false SMALL prompt) as [response cost].
      simpl in Hpos.
      destruct (10 <? String.length response)%nat;
        [|first [discriminate Hserved | destruct (is_ok _); discriminate Hserved]].
      exists response, cost. eexists. split; [reflexivity|].
      split; [exact Hpos|].
      assert (Htot : total_cost
                       (stats (set_cache (cache_store key response)
                                 (set_stats (count_call SMALL)
                                    (logged SMALL prompt o0))))
                     = total_cost (stats o)) by (simpl; exact Hc0).
      split; [exact Htot|].
      split; [rewrite !get_stats_total_cost_eq, Htot; reflexivity|].
      rewrite Htot.
      rewrite <- (Qplus_0_r (total_cost (stats o))) at 1.
      apply Qplus_lt_r. exact Hpos.
Qed.

Lemma accepted_cascade_cost_not_totalled_witness :
  exists r c o1,
    call_llm (fun s => s) (source_provider false)
      "decision_making" "PO 12345 delayed" None None CostOptimizer_init
    = (Ok (r, c), o1)
    /\ 0 < c
    /\ total_cost (stats o1) = total_cost (stats CostOptimizer_init)
    /\ get_stats_total_cost o1 = get_stats_total_cost CostOptimizer_init
    /\ total_cost (stats o1) < total_cost (stats CostOptimizer_init) + c.
Proof.
  exact (proj1 (accepted_cascade_cost_not_totalled (fun s => s) false
                  "decision_making" "PO 12345 delayed" None None
                  CostOptimizer_init eq_refl)).
Defined.

(** On a fresh optimizer: the caller is charged, [get_stats] reports a
    total of 0. *)
Example reported_total_below_returned_cost :
  let run := call_llm (fun s => s) (source_provider false)
               "decision_making" "PO 12345 delayed" None None
               CostOptimizer_init in
  fst run = Ok ("Mock response from gpt-3.5-turbo", 3520000 # 160000000000)
  /\ get_stats_total_cost (snd run) == 0
  /\ n_small (calls_by_tier (stats (snd run))) = 1%nat.
Proof. vm_compute. repeat split. Qed.

(** ** The observability ledger *)

Lemma dict_get_set {V} (d : list (string * V)) k v k' default :
  dict_get (dict_set d k v) k' default
  = if String.eqb k k' then v else dict_get d k' default.
Proof.
  induction d as [|[k0 v0] d IH]; simpl.
  - destruct (String.eqb k k'); reflexivity.
  - destruct (String.eqb k0 k) eqn:E0; simpl.
    + apply String.eqb_eq in E0. subst k0.
      destruct (String.eqb k k'); reflexivity.
    + destruct (String.eqb k0 k') eqn:E1; [|exact IH].
      apply String.eqb_eq in E1. subst k0.
      rewrite String.eqb_sym, E0. reflexivity.
Qed.

Lemma metrics_of_update agent f l agent' :
  metrics_of (update_metrics agent f l) agent'
  = if String.eqb agent agent' then f (metrics_of l agent)
    else metrics_of l agent'.
Proof. unfold metrics_of, update_metrics. simpl. apply dict_get_set. Qed.

Section Ledger.

Variable py_str : PyVal -> result string.

(** What [log_event] does, by whether the context renders. *)
Lemma log_event_eq now agent action context outcome cost duration_ms
  execution_id l :
  log_event py_str now agent action context outcome cost duration_ms
    execution_id l
  = match render_context py_str context with
    | Raise e => (Raise e, l)
    | Ok rendered =>
        let event :=
          mkEvent now agent action rendered outcome cost duration_ms
            (execution_id_or execution_id (List.length (events l))) in
        let l1 := update_metrics agent (record_action outcome cost duration_ms)
                    (mkLogger (events l ++ [event])%list (agent_metrics l)) in
        (Ok tt,
         if (max_events <? List.length (events l1))%nat
         then mkLogger (last_n max_events (events l1)) (agent_metrics l1)
         else l1)
    end.
Proof.
  unfold log_event. run_monad.
  destruct (render_context py_str context); reflexivity.
Qed.

Lemma log_event_metrics now agent action context outcome cost duration_ms
  execution_id l a :
  metrics_of (snd (log_event py_str now agent action context outcome cost
                     duration_ms execution_id l)) a
  = if is_ok (render_context py_str context) && String.eqb agent a
    then record_action outcome cost duration_ms (metrics_of l a)
    else metrics_of l a.
Proof.
  rewrite log_event_eq.
  destruct (render_context py_str context) as [rendered|e]; [|reflexivity].
  cbv zeta. simpl is_ok. simpl andb.
  match goal with
  | |- metrics_of (snd (_, if ?b then _ else _)) _ = _ => destruct b
  end; simpl snd.
  - unfold metrics_of at 1. simpl agent_metrics.
    change (dict_get _ a Metrics_default)
      with (metrics_of
              (update_metrics agent (record_action outcome cost duration_ms)
                 (mkLogger (events l ++ [mkEvent now agent action rendered
                    outcome cost duration_ms
                    (execution_id_or execution_id (List.length (events l)))])%list
                    (agent_metrics l))) a).
    rewrite metrics_of_update.
    destruct (String.eqb agent a) eqn:E; [|reflexivity].
    apply String.eqb_eq in E. subst. reflexivity.
  - rewrite metrics_of_update.
    destruct (String.eqb agent a) eqn:E; [|reflexivity].
    apply String.eqb_eq in E. subst. reflexivity.
Qed.

Lemma run_op_metrics op l a :
  metrics_of (snd (run_op py_str op l)) a
  = step_metrics py_str op a (metrics_of l a).
Proof.
  unfold step_metrics, op_logged.
  destruct op as [now ag act ctx out c d e | now ag dec r i e | now ag o r];
    simpl run_op; simpl op_agent; simpl is_override; simpl op_outcome;
    simpl op_context.
  - rewrite log_event_metrics.
    destruct (is_ok _), (String.eqb ag a); reflexivity.
  - unfold log_decision. rewrite log_event_metrics.
    destruct (is_ok _), (String.eqb ag a); reflexivity.
  - unfold log_override, bind, modify. cbv beta iota.
    rewrite log_event_metrics, metrics_of_update.
    simpl. destruct (String.eqb ag a) eqn:E; [|reflexivity].
    apply String.eqb_eq in E. subst. reflexivity.
Qed.

(** The counters after a run, from any logger. *)
Lemma run_ops_counters ops :
  forall l a,
    let m0 := metrics_of l a in
    let m := metrics_of (run_ops py_str ops l) a in
    total_actions m
    = (total_actions m0 + count_logged py_str (fun _ => true) a ops)%nat
    /\ successful_actions m
       = (successful_actions m0
          + count_logged py_str (fun out => String.eqb out "success") a ops)%nat
    /\ failed_actions m
       = (failed_actions m0
          + count_logged py_str (fun out => negb (String.eqb out "success")) a ops)%nat
    /\ overrides m = (overrides m0 + count_overrides a ops)%nat.
Proof.
  induction ops as [|op ops IH]; intros l a; cbv zeta.
  - simpl. unfold count_logged, count_overrides. simpl. lia.
  - simpl run_ops.
    destruct (IH (snd (run_op py_str op l)) a) as [Ht [Hs [Hf Ho]]].
    rewrite Ht, Hs, Hf, Ho, run_op_metrics. clear Ht Hs Hf Ho IH.
    unfold count_logged, count_overrides, step_metrics. simpl filter.
    destruct (String.eqb (op_agent op) a); simpl andb;
      [|rewrite ?andb_false_r; simpl; lia].
    rewrite ?andb_true_r.
    destruct (op_logged py_str op); simpl andb.
    + destruct (is_override op) eqn:Hov.
      * destruct op; try discriminate Hov. simpl. lia.
      * simpl. destruct (String.eqb (op_outcome op) "success"); simpl; lia.
    + destruct (is_override op); simpl; lia.
Qed.

End Ledger.

Lemma count_logged_split py_str a ops :
  count_logged py_str (fun _ => true) a ops
  = (count_logged py_str (fun out => String.eqb out "success") a ops
     + count_logged py_str (fun out => negb (String.eqb out "success")) a ops)%nat.
Proof.
  unfold count_logged.
  induction ops as [|op ops IH]; simpl; [reflexivity|].
  destruct (op_logged py_str op && String.eqb (op_agent op) a); simpl;
    [|exact IH].
  destruct (String.eqb (op_outcome op) "success"); simpl; lia.
Qed.

(** C2, as the code has it.  For every agent and every sequence of
    ledger operations on a fresh ledger: total_actions is
    successful_actions plus failed_actions; successful_actions counts
    the logged events whose outcome is "success"; failed_actions counts
    every other logged event, the "overridden" ones included; and the
    override counter counts the calls to [log_override]. *)
Theorem metrics_count_every_outcome :
  forall (py_str : PyVal -> result string) (ops : list LedgerOp)
         (agent : string),
    let m := metrics_of (run_ops py_str ops ObservabilityLogger_init) agent in
    total_actions m = (successful_actions m + failed_actions m)%nat
    /\ successful_actions m
       = count_logged py_str (fun out => String.eqb out "success") agent ops
    /\ failed_actions m
       = count_logged py_str (fun out => negb (String.eqb out "success"))
           agent ops
    /\ overrides m = count_overrides agent ops.
Proof.
  intros py_str ops agent. cbv zeta.
  destruct (run_ops_counters py_str ops ObservabilityLogger_init agent)
    as [Ht [Hs [Hf Ho]]].
  cbv zeta in *. simpl in Ht, Hs, Hf, Ho.
  rewrite Ht, Hs, Hf, Ho, count_logged_split. repeat split.
Qed.

(** C2, as the specification words it, fails on one override: the
    ledger holds no event with outcome "failure" and one with outcome
    "overridden", and failed_actions is 1, as are total_actions and the
    override counter. *)
Lemma override_counted_as_failed :
  let ops := [OpOverride "2024-12-15T10:00:00" "po_tracker"
                "escalate_if_critical" "buyer accepts the delay"] in
  let l := run_ops (total_str plain_str) ops ObservabilityLogger_init in
  let m := metrics_of l "po_tracker" in
  map ev_outcome (events l) = ["overridden"]
  /\ count_logged (total_str plain_str) (fun out => String.eqb out "failure")
       "po_tracker" ops = 0%nat
  /\ failed_actions m = 1%nat
  /\ successful_actions m = 0%nat
  /\ total_actions m = 1%nat
  /\ overrides m = 1%nat.
Proof. vm_compute. repeat split. Qed.

(** [log_event] raises exactly when the rendering of the context
    raises, with that exception, and then leaves the ledger as it was;
    otherwise the event it appends holds the rendered context. *)
Lemma log_event_raises_as_rendering
  (py_str : PyVal -> result string) now agent action context outcome cost
  duration_ms execution_id l :
  let run := log_event py_str now agent action context outcome cost
               duration_ms execution_id l in
  match render_context py_str context with
  | Raise e => run = (Raise e, l)
  | Ok rendered =>
      fst run = Ok tt
      /\ exists older,
          events (snd run)
          = (older ++ [mkEvent now agent action rendered outcome cost
                         duration_ms
                         (execution_id_or execution_id
                            (List.length (events l)))])%list
  end.
Proof.
  cbv zeta. rewrite log_event_eq.
  destruct (render_context py_str context) as [rendered|e]; [|reflexivity].
  cbv zeta. split; [reflexivity|].
  simpl events.
  match goal with
  | |- context [if ?b then _ else _] => destruct b eqn:Hover
  end; simpl.
  - unfold last_n.
    match goal with
    | |- context [skipn ?n (?xs ++ [?e])%list] =>
        exists (skipn n xs);
        assert (Hn : (n <= List.length xs)%nat)
    end.
    { rewrite length_app. simpl. unfold max_events. lia. }
    rewrite skipn_app.
    replace (_ - List.length (events l))%nat with 0%nat by lia.
    reflexivity.
  - exists (events l). reflexivity.
Qed.

Lemma sequence_raises (l : list (result string)) e :
  In (Raise e) l -> exists e', Json.sequence l = Raise e'.
Proof.
  induction l as [|[x|e0] l IH]; intros Hin; [destruct Hin| |].
  - destruct Hin as [Heq|Hin]; [discriminate|].
    destruct (IH Hin) as [e' He']. exists e'. simpl. rewrite He'. reflexivity.
  - exists e0. reflexivity.
Qed.

Lemma sequence_raised (l : list (result string)) e :
  Json.sequence l = Raise e -> In (Raise e) l.
Proof.
  induction l as [|[x|e0] l IH]; simpl; [discriminate| |].
  - destruct (Json.sequence l); [discriminate|].
    intros H. injection H as <-. right. apply IH. reflexivity.
  - intros H. injection H as <-. left. reflexivity.
Qed.

(** Induction on a value, through the lists and the dicts it holds. *)
Lemma PyVal_nested_ind (P : PyVal -> Prop) :
  P PNone ->
  (forall b, P (PBool b)) ->
  (forall z, P (PInt z)) ->
  (forall r, P (PFloat r)) ->
  (forall s, P (PStr s)) ->
  (forall l, Forall P l -> P (PList l)) ->
  (forall d, Forall (fun kv => P (snd kv)) d -> P (PDict d)) ->
  (forall o, P (PObj o)) ->
  forall v, P v.
Proof.
  intros HN HB HI HF HS HL HD HO.
  fix IH 1. intros [ |b|z|r|s|l|d|o].
  - exact HN.
  - apply HB.
  - apply HI.
  - apply HF.
  - apply HS.
  - apply HL. induction l as [|x l IHl]; constructor; [apply IH | exact IHl].
  - apply HD. induction d as [|[k x] d IHd]; constructor;
      [apply IH | exact IHd].
  - apply HO.
Qed.

(** [json.dumps] raises nothing but the [TypeError] of a value outside
    the JSON types. *)
Lemma dumps_raises_type_error sort_keys v e :
  Json.dumps sort_keys v = Raise e ->
  exists class_name, e = Json.not_serializable class_name.
Proof.
  revert e. induction v as [ |b|z|r|s|l IHl|d IHd|o] using PyVal_nested_ind;
    intros e; try discriminate.
  - destruct b; discriminate.
  - simpl. destruct (Json.sequence (map (Json.dumps sort_keys) l)) eqn:Hseq;
      [discriminate|].
    intros H. injection H as <-.
    apply sequence_raised in Hseq. apply in_map_iff in Hseq.
    destruct Hseq as [x [Hx Hin]].
    rewrite Forall_forall in IHl. exact (IHl x Hin _ Hx).
  - rewrite dumps_dict_unfold. cbv zeta.
    match goal with
    | |- context [Json.sequence ?parts] => destruct (Json.sequence parts) eqn:Hseq
    end; [discriminate|].
    intros H. injection H as <-.
    apply sequence_raised in Hseq. apply in_map_iff in Hseq.
    destruct Hseq as [[k r] [Hr Hin]].
    assert (Hmem : In (k, r)
                     (map (fun kv => (fst kv, Json.dumps sort_keys (snd kv))) d)).
    { destruct sort_keys; [|exact Hin].
      eapply Permutation_in; [|exact Hin].
      apply Permutation_sym. apply sort_items_perm. }
    apply in_map_iff in Hmem. destruct Hmem as [[k0 x] [Hkx Hd]].
    injection Hkx as -> <-. cbn [snd] in *.
    unfold Json.member in Hr. cbn [fst snd] in Hr.
    destruct (Json.dumps sort_keys x) eqn:Hx; [discriminate|].
    injection Hr as ->.
    rewrite Forall_forall in IHd. exact (IHd (k, x) Hd _ Hx).
  - simpl. intros H. injection H as <-. exists (obj_class o). reflexivity.
Qed.

(** A dict holding, at any place of its own, an object outside the JSON
    types is refused. *)
Lemma dumps_refuses_object (d : PyDict) k o :
  In (k, PObj o) d ->
  exists class_name,
    Json.dumps false (PDict d) = Raise (Json.not_serializable class_name).
Proof.
  intros Hin.
  assert (Hraise : exists e, Json.dumps false (PDict d) = Raise e).
  { rewrite dumps_dict_unfold. cbv zeta.
    destruct (sequence_raises
                (map Json.member
                   (map (fun kv => (fst kv, Json.dumps false (snd kv))) d))
                (Json.not_serializable (obj_class o))) as [e' He'].
    - apply in_map_iff. exists (k, Raise (Json.not_serializable (obj_class o))).
      split; [reflexivity|].
      apply in_map_iff. exists (k, PObj o). split; [reflexivity | exact Hin].
    - exists e'. rewrite He'. reflexivity. }
  destruct Hraise as [e He].
  destruct (dumps_raises_type_error _ _ _ He) as [class_name ->].
  exists class_name. exact He.
Qed.

(** So every dict context holding such an object makes [log_event]
    raise that [TypeError], whatever [str] is, and nothing is logged or
    counted. *)
Lemma log_event_refuses_object
  (py_str : PyVal -> result string) now agent action (d : PyDict) k o outcome
  cost duration_ms execution_id l :
  In (k, PObj o) d ->
  exists class_name,
    log_event py_str now agent action (PDict d) outcome cost duration_ms
      execution_id l
    = (Raise (Json.not_serializable class_name), l).
Proof.
  intros Hin. destruct (dumps_refuses_object d k o Hin) as [class_name He].
  exists class_name. rewrite log_event_eq.
  unfold render_context. rewrite He. reflexivity.
Qed.

(** C3 fails on a dict context holding a [datetime]: [json.dumps]
    refuses it, [log_event] raises its [TypeError], and no event is
    appended and no action counted.  The same value passed as the
    context itself is logged by its [str], as the other branch of the
    same expression has it. *)
Theorem log_event_raises_on_unserializable_value :
  let received_at := a_datetime "2024-12-15 10:00:00" in
  let log context :=
    log_event (total_str plain_str) "2024-12-15T10:00:00" "po_tracker"
      "update_erp" context "success" 0 0 None ObservabilityLogger_init in
  log (PDict [("po_number", PStr "12345"); ("received_at", received_at)])
  = (Raise (TypeError "Object of type datetime is not JSON serializable"),
     ObservabilityLogger_init)
  /\ fst (log received_at) = Ok tt
  /\ map ev_context (events (snd (log received_at)))
     = ["2024-12-15 10:00:00"].
Proof. repeat split; reflexivity. Qed.

(** A context that is not a dict raises too when its [str] raises. *)
Lemma log_event_raises_with_str
  (py_str : PyVal -> result string) now agent action context outcome cost
  duration_ms execution_id l e :
  match context with PDict _ => False | _ => True end ->
  py_str context = Raise e ->
  log_event py_str now agent action context outcome cost duration_ms
    execution_id l
  = (Raise e, l).
Proof.
  intros Hnd Hstr. rewrite log_event_eq.
  destruct context; try contradiction; simpl; rewrite Hstr; reflexivity.
Qed.

(** ** The orchestrator *)

(** C1 fails when the provider raises.  The request is routed to
    po_tracker; the call at the selected tier raises; [process_email]
    logs the failure and raises the same exception; and the three agents
    it marked active stay active, each with one task counted. *)
Theorem process_email_failure_leaves_agents_active :
  let run := demo_process_email down_provider in
  fst run = Raise (ExternalError "provider unavailable")
  /\ map (fun id => (agent_status (snd run) id, agent_tasks (snd run) id))
       ["inbox_agent"; "routing_agent"; "po_tracker"; "change_manager"]
     = [(Some "active", Some 1%Z); (Some "active", Some 1%Z);
        (Some "active", Some 1%Z); (Some "idle", Some 0%Z)]
  /\ map (fun e => (ev_agent e, ev_action e, ev_outcome e))
       (events (observability (snd run)))
     = [("inbox_agent", "parse_email", "success");
        ("routing_agent", "decision: route_to_po_tracker", "success");
        ("orchestrator", "process_email", "failure")].
Proof. vm_compute. repeat split. Qed.

(** The same request with the provider of the source returns, and every
    agent is idle again with no task counted. *)
Example process_email_success_restores_agents :
  let run := demo_process_email (source_provider false) in
  is_ok (fst run) = true
  /\ agents (snd run) = agents Orchestrator_init.
Proof. vm_compute. repeat split. Qed.

(** *** The exit paths of [process_email], on the registry *)

Lemma triple_bind {A B} (m : M Orchestrator A) (k : A -> M Orchestrator B)
  P Q R E :
  registry_triple P m Q E ->
  (forall a, registry_triple Q (k a) R E) ->
  registry_triple P (bind m k) R E.
Proof.
  intros Hm Hk o HP. unfold bind. specialize (Hm o HP).
  destruct (m o) as [[a|e] o']; [apply Hk; exact Hm | exact Hm].
Qed.

Lemma triple_ret {A} (a : A) P E : registry_triple P (ret a) P E.
Proof. intros o HP. exact HP. Qed.

Lemma triple_keeps {A} (m : M Orchestrator A) L (E : _ -> Prop) :
  keeps_registry m -> E L -> registry_triple (eq L) m (eq L) E.
Proof.
  intros Hk HE o HP. specialize (Hk o).
  destruct (m o) as [[a|e] o']; simpl in Hk; rewrite Hk, <- HP;
    [reflexivity | exact HE].
Qed.

Lemma triple_try {A} (m : M Orchestrator A) (h : exn -> M Orchestrator A)
  P Q E E' :
  registry_triple P m Q E ->
  (forall e, registry_triple E (h e) Q E') ->
  registry_triple P (try_except m h) Q E'.
Proof.
  intros Hm Hh o HP. unfold try_except. specialize (Hm o HP).
  destruct (m o) as [[a|e] o']; [exact Hm | apply Hh; exact Hm].
Qed.

Lemma triple_update id f L a (E : _ -> Prop) :
  dict_lookup L id = Some a ->
  registry_triple (eq L) (update_agent id f) (eq (dict_set L id (f a))) E.
Proof.
  intros Hl o HP. unfold update_agent, bind, get, modify. subst L. rewrite Hl.
  reflexivity.
Qed.

Lemma keeps_lift {A} (r : result A) : keeps_registry (lift r).
Proof. intros o. reflexivity. Qed.

Lemma keeps_in_observability {A} (m : M ObservabilityLogger A) :
  keeps_registry (in_observability m).
Proof.
  intros o. unfold in_observability, zoom.
  destruct (m (observability o)). reflexivity.
Qed.

Lemma keeps_in_optimizer {A} (m : M CostOptimizer A) :
  keeps_registry (in_optimizer m).
Proof.
  intros o. unfold in_optimizer, zoom.
  destruct (m (cost_optimizer o)). reflexivity.
Qed.

Lemma dict_set_set {V} (d : list (string * V)) k v v' :
  dict_set (dict_set d k v) k v' = dict_set d k v'.
Proof.
  induction d as [|[k0 v0] d IH]; simpl.
  - rewrite String.eqb_refl. reflexivity.
  - destruct (String.eqb k0 k) eqn:E; simpl; rewrite E; [reflexivity|].
    rewrite IH. reflexivity.
Qed.

Lemma triple_mark_active id L a (E : _ -> Prop) :
  dict_lookup L id = Some a ->
  registry_triple (eq L) (mark_active id)
    (eq (with_status L id "active" (active_tasks a + 1))) E.
Proof.
  intros Hl. unfold mark_active.
  eapply triple_bind; [apply (triple_update id _ L a); exact Hl|].
  intros _.
  unfold with_status. rewrite Hl.
  pose proof (triple_update id incr_tasks _ (set_status "active" a) E
                (dict_lookup_set_same id (set_status "active" a) L)) as H.
  rewrite dict_set_set in H. exact H.
Qed.

Lemma triple_mark_idle id L a (E : _ -> Prop) :
  dict_lookup L id = Some a ->
  registry_triple (eq L) (mark_idle id)
    (eq (with_status L id "idle" (Z.max 0 (active_tasks a - 1)))) E.
Proof.
  intros Hl. unfold mark_idle.
  eapply triple_bind; [apply (triple_update id _ L a); exact Hl|].
  intros _.
  unfold with_status. rewrite Hl.
  pose proof (triple_update id decr_tasks _ (set_status "idle" a) E
                (dict_lookup_set_same id (set_status "idle" a) L)) as H.
  rewrite dict_set_set in H. exact H.
Qed.

(** One statement of a method, by its kind. *)
Ltac registry_step :=
  eapply triple_bind;
  [ first
      [ apply triple_keeps;
        [ first [ apply keeps_in_optimizer
                | apply keeps_in_observability
                | apply keeps_lift ]
        | vm_compute; split; reflexivity ]
      | eapply triple_mark_active; vm_compute; reflexivity
      | eapply triple_mark_idle; vm_compute; reflexivity ]
  | intros ? ].

Ltac registry_done L :=
  match goal with
  | |- registry_triple (eq ?X) _ _ _ =>
      replace X with L by (vm_compute; reflexivity); apply triple_ret
  end.

Section ExitPaths.

Variable md5 : string -> string.
Variable provider :
  list (ModelTier * string) -> ModelTier -> string -> result (string * Q).
Variable py_str : PyVal -> string.
Variable extract_entities : string -> string -> result PyDict.
Variable classify_intent : string -> string -> result IntentResult.
Variable clock : Clock.

(** A stage workflow that returns has restored its agent; one that
    raises has not, and the inbox agent is still active. *)
Lemma po_tracker_workflow_registry intent_result entities sender eid :
  registry_triple (eq registry_routing)
    (_po_tracker_workflow md5 provider py_str clock intent_result entities
       sender eid)
    (eq registry_routing) inbox_left_active.
Proof.
  unfold _po_tracker_workflow.
  registry_step. cbv zeta.
  registry_step. destruct a0 as [response cost].
  registry_step. registry_step.
  registry_done registry_routing.
Qed.

Lemma change_manager_workflow_registry intent_result entities sender eid :
  registry_triple (eq registry_routing)
    (_change_manager_workflow md5 provider py_str clock intent_result entities
       sender eid)
    (eq registry_routing) inbox_left_active.
Proof.
  unfold _change_manager_workflow.
  registry_step. cbv zeta.
  registry_step. destruct a0 as [response cost].
  registry_step. registry_step.
  registry_done registry_routing.
Qed.

Lemma execute_workflow_registry agent intent_result entities sender eid :
  registry_triple (eq registry_routing)
    (_execute_workflow md5 provider py_str clock agent intent_result entities
       sender eid)
    (eq registry_routing) inbox_left_active.
Proof.
  unfold _execute_workflow.
  destruct (String.eqb agent "po_tracker");
    [apply po_tracker_workflow_registry|].
  destruct (String.eqb agent "change_manager");
    [apply change_manager_workflow_registry|].
  apply triple_ret.
Qed.

(** From the registry of the constructor, and whatever the parser, the
    provider, the clock, the optimizer and the ledger are:
    [process_email] either returns with the registry of the constructor
    again, or raises with the inbox agent still active and its task
    still counted. *)
Lemma process_email_exit_paths sender subject body o :
  agents o = registry_idle ->
  match process_email md5 provider py_str extract_entities classify_intent
          clock sender subject body o with
  | (Ok _, o') => agents o' = registry_idle
  | (Raise _, o') => inbox_left_active (agents o')
  end.
Proof.
  intros Hidle.
  assert (H : registry_triple (eq registry_idle)
                (process_email md5 provider py_str extract_entities
                   classify_intent clock sender subject body)
                (eq registry_idle) inbox_left_active).
  { unfold process_email.
    eapply triple_try with (E := inbox_left_active).
    - unfold process_email_body. cbv zeta.
      eapply triple_bind.
      { eapply triple_mark_active. vm_compute. reflexivity. }
      intros _. change (with_status _ _ _ _) with registry_parsing.
      registry_step. registry_step. registry_step.
      eapply triple_bind.
      { eapply triple_mark_active. vm_compute. reflexivity. }
      intros _. change (with_status _ _ _ _) with registry_routing.
      registry_step.
      eapply triple_bind; [apply execute_workflow_registry|].
      intros workflow_result.
      registry_step. registry_step.
      registry_done registry_idle.
    - intros e. eapply triple_bind.
      + intros o' HE. pose proof (keeps_in_observability
          (log_event (total_str py_str) (now clock) "orchestrator"
             "process_email"
             (PDict [("error", PStr (exn_str e))]) "failure" 0 0
             (Some (execution_id clock))) o') as Hk.
        destruct (in_observability _ o') as [[u|e'] o'']; simpl in Hk;
          rewrite Hk; exact HE.
      + intros _ o' HE. exact HE. }
  specialize (H o (eq_sym Hidle)).
  destruct (process_email _ _ _ _ _ _ _ _ _ o) as [[res|e] o'];
    [symmetry; exact H | exact H].
Qed.

End ExitPaths.


(** * Further properties *)

(** ** The optimizer *)





(** X3. Every [call_llm] that derives a key counts exactly one lookup,
    a hit or a miss, whatever happens next (a provider failure
    included); a call whose context has no key counts none. *)
Theorem call_llm_counts_one_lookup :
  forall md5 provider task_type prompt context force_tier o,
    lookups (snd (call_llm md5 provider task_type prompt context force_tier o))
    = (lookups o
       + if is_ok (_generate_cache_key md5 task_type prompt
                     (context_or_empty context))
         then 1 else 0)%nat.
Proof.
  intros md5 provider task_type prompt context force_tier o.
  destruct (_generate_cache_key md5 task_type prompt (context_or_empty context))
    as [key|e] eqn:Hkey.
  2:{ rewrite (call_llm_key_error _ _ _ _ _ _ e) by exact Hkey.
      simpl. lia. }
  rewrite (call_llm_eq _ _ _ _ _ _ key) by exact Hkey. cbv zeta.
  remember (set_stats (if dict_mem key (cache o) then hit else miss) o) as o0
    eqn:Ho0.
  assert (H0 : lookups o0 = (lookups o + 1)%nat).
  { rewrite Ho0. unfold lookups.
    destruct (dict_mem key (cache o)); simpl; lia. }
  clear Ho0. simpl is_ok. cbv iota.
  destruct (cached_truthy _); [exact H0|].
  destruct (match force_tier with Some t => Ok t | None => _ end)
    as [tier|e]; [|exact H0].
  assert (Hauth : forall o', lookups o' = lookups o0 ->
            lookups (snd (authoritative_call provider tier key prompt o'))
            = (lookups o + 1)%nat).
  { intros o' Ho'. unfold authoritative_call.
    destruct (provider (provider_log o') tier prompt) as [[response cost]|e];
      simpl; rewrite <- H0, <- Ho'; reflexivity. }
  destruct (is_some force_tier || str_in task_type never_cascade) eqn:Hskip.
  - rewrite cascade_attempt_skipped by exact Hskip. apply Hauth. reflexivity.
  - apply orb_false_iff in Hskip. destruct Hskip as [Hforce Hnc].
    destruct force_tier; [discriminate Hforce|].
    rewrite (cascade_attempt_eq _ _ _ _ _ key) by assumption.
    destruct (provider (provider_log o0) SMALL prompt) as [[response cost]|e].
    + destruct (10 <? String.length response)%nat.
      * simpl. exact H0.
      * apply Hauth. reflexivity.
    + apply Hauth. reflexivity.
Qed.

(** X4. What [cache_response] stores, [get_cached_response] returns:
    on a cache within its bound, a lookup with the same arguments right
    after the store finds the response, counts a hit and leaves the
    cache as it is. *)
Theorem cache_response_then_lookup :
  forall md5 task_type prompt context response o,
    (List.length (cache o) <= max_cache_size)%nat ->
    is_ok (_generate_cache_key md5 task_type prompt context) = true ->
    let o1 := snd (cache_response md5 task_type prompt context response o) in
    get_cached_response md5 task_type prompt context o1
    = (Ok (Some response), set_stats hit o1).
Proof.
  intros md5 task_type prompt context response o Hbound Hkey. cbv zeta.
  destruct (_generate_cache_key md5 task_type prompt context) as [key|e] eqn:Ek;
    [clear Hkey|discriminate Hkey].
  rewrite (cache_response_store _ _ _ _ _ key) by exact Ek. simpl snd.
  unfold get_cached_response. run_monad. rewrite Ek.
  pose proof (cache_store_lookup key response (cache o) Hbound) as Hl.
  unfold set_cache at 1 2 3. cbn [cache].
  rewrite (dict_lookup_mem _ _ _ Hl), Hl. reflexivity.
Qed.

Lemma cache_response_then_lookup_witness :
  get_cached_response (fun s => s) "parse_date" "when?" []
    (snd (cache_response (fun s => s) "parse_date" "when?" [] "Dec 15"
            CostOptimizer_init))
  = (Ok (Some "Dec 15"),
     set_stats hit
       (snd (cache_response (fun s => s) "parse_date" "when?" [] "Dec 15"
               CostOptimizer_init))).
Proof.
  apply (cache_response_then_lookup (fun s => s) "parse_date" "when?" []
           "Dec 15" CostOptimizer_init).
  - simpl. unfold max_cache_size. lia.
  - reflexivity.
Defined.

Lemma dict_set_present_keys {V} (d : list (string * V)) k v :
  dict_mem k d = true -> dict_keys (dict_set d k v) = dict_keys d.
Proof.
  induction d as [|[k0 v0] d IH]; simpl; [discriminate|].
  destruct (String.eqb k0 k) eqn:E; simpl; [reflexivity|].
  intros H. f_equal. apply IH. exact H.
Qed.

(** X5. Storing again under a key the cache already holds replaces the
    response in place: the keys and their order are unchanged, so the
    entry is no younger for eviction.  In a full cache whose oldest key
    is stored again, the next new key still evicts that key. *)
Theorem restore_does_not_renew :
  forall (oldest v0 v1 fresh v2 : string) (rest : list (string * string)),
    List.length rest = pred max_cache_size ->
    dict_mem fresh ((oldest, v0) :: rest) = false ->
    let full := (oldest, v0) :: rest in
    dict_keys (cache_store oldest v1 full) = dict_keys full
    /\ dict_lookup (cache_store oldest v1 full) oldest = Some v1
    /\ cache_store fresh v2 (cache_store oldest v1 full)
       = (rest ++ [(fresh, v2)])%list.
Proof.
  intros oldest v0 v1 fresh v2 rest Hlen Hfresh. cbv zeta.
  assert (Hstore : cache_store oldest v1 ((oldest, v0) :: rest)
                   = (oldest, v1) :: rest).
  { rewrite cache_store_eq. simpl dict_set. rewrite String.eqb_refl.
    replace (max_cache_size <? List.length ((oldest, v1) :: rest))%nat
      with false; [reflexivity|].
    symmetry. apply Nat.ltb_ge. simpl. rewrite Hlen.
    unfold max_cache_size. simpl. lia. }
  rewrite Hstore. split; [reflexivity|]. split.
  - simpl. rewrite String.eqb_refl. reflexivity.
  - rewrite cache_store_eq.
    assert (Hnew : dict_mem fresh ((oldest, v1) :: rest) = false)
      by exact Hfresh.
    rewrite dict_set_new by exact Hnew.
    replace (max_cache_size <? _)%nat with true; [reflexivity|].
    symmetry. apply Nat.ltb_lt. rewrite length_app. simpl. rewrite Hlen.
    unfold max_cache_size. simpl. lia.
Qed.

Lemma restore_does_not_renew_witness :
  let full := ("0", "cached") :: tl (removelast sample_entries) in
  dict_keys (cache_store "0" "again" full) = dict_keys full
  /\ dict_lookup (cache_store "0" "again" full) "0" = Some "again"
  /\ cache_store "1000" "new" (cache_store "0" "again" full)
     = (tl (removelast sample_entries) ++ [("1000", "new")])%list.
Proof.
  apply (restore_does_not_renew "0" "cached" "again" "1000" "new"
           (tl (removelast sample_entries))).
  - vm_compute. reflexivity.
  - vm_compute. reflexivity.
Defined.

Lemma stats_le_refl s : stats_le s s.
Proof. unfold stats_le. repeat split; try lia. apply Qle_refl. Qed.

Lemma stats_le_trans s1 s2 s3 : stats_le s1 s2 -> stats_le s2 s3 -> stats_le s1 s3.
Proof.
  unfold stats_le. intros [A1 [A2 [A3 [A4 [A5 A6]]]]] [B1 [B2 [B3 [B4 [B5 B6]]]]].
  repeat split; try lia. eapply Qle_trans; eassumption.
Qed.

Lemma stats_le_lookup s (b : bool) : stats_le s ((if b then hit else miss) s).
Proof.
  unfold stats_le. destruct b; simpl; repeat split; try lia; apply Qle_refl.
Qed.

Lemma stats_le_count_call s t : stats_le s (count_call t s).
Proof.
  unfold stats_le. destruct t; simpl; repeat split; try lia; apply Qle_refl.
Qed.

Lemma stats_le_add_cost s c : 0 <= c -> stats_le s (add_cost c s).
Proof.
  intros Hc. unfold stats_le. simpl. repeat split; try lia.
  rewrite <- (Qplus_0_r (total_cost s)) at 1.
  apply Qplus_le_r. exact Hc.
Qed.

(** X6. With a provider that never charges a negative cost, no
    counter of the statistics ever decreases over a [call_llm], whether
    it returns or raises: hits, misses, total cost and the calls of
    each tier. *)
Theorem call_llm_stats_monotone :
  forall md5 provider task_type prompt context force_tier o,
    nonneg_costs provider ->
    stats_le (stats o)
      (stats (snd (call_llm md5 provider task_type prompt context force_tier o))).
Proof.
  intros md5 provider task_type prompt context force_tier o Hpos.
  destruct (_generate_cache_key md5 task_type prompt (context_or_empty context))
    as [key|e] eqn:Hkey;
    [|rewrite (call_llm_key_error _ _ _ _ _ _ e) by exact Hkey;
      apply stats_le_refl].
  rewrite (call_llm_eq _ _ _ _ _ _ key) by exact Hkey. cbv zeta.
  remember (set_stats (if dict_mem key (cache o) then hit else miss) o) as o0
    eqn:Ho0.
  assert (H0 : stats_le (stats o) (stats o0))
    by (rewrite Ho0; apply stats_le_lookup).
  clear Ho0.
  destruct (cached_truthy _); [exact H0|].
  destruct (match force_tier with Some t => Ok t | None => _ end)
    as [tier|e]; [|exact H0].
  assert (Hauth : forall o', stats o' = stats o0 ->
            stats_le (stats o)
              (stats (snd (authoritative_call provider tier key prompt o')))).
  { intros o' Ho'. unfold authoritative_call.
    destruct (provider (provider_log o') tier prompt) as [[response cost]|e] eqn:Hp;
      simpl; rewrite Ho'; [|exact H0].
    eapply stats_le_trans; [exact H0|].
    eapply stats_le_trans; [apply (stats_le_count_call _ tier)|].
    apply stats_le_add_cost. eapply Hpos. exact Hp. }
  destruct (is_some force_tier || str_in task_type never_cascade) eqn:Hskip.
  - rewrite cascade_attempt_skipped by exact Hskip. apply Hauth. reflexivity.
  - apply orb_false_iff in Hskip. destruct Hskip as [Hforce Hnc].
    destruct force_tier; [discriminate Hforce|].
    rewrite (cascade_attempt_eq _ _ _ _ _ key) by assumption.
    destruct (provider (provider_log o0) SMALL prompt) as [[response cost]|e].
    + destruct (10 <? String.length response)%nat.
      * simpl. eapply stats_le_trans; [exact H0|]. apply stats_le_count_call.
      * apply Hauth. reflexivity.
    + apply Hauth. reflexivity.
Qed.

Lemma call_llm_stats_monotone_witness :
  stats_le (stats CostOptimizer_init)
    (stats (snd (call_llm (fun s => s) small_down_provider "decision_making"
                   "PO 12345 delayed" None None CostOptimizer_init))).
Proof.
  apply call_llm_stats_monotone.
  intros log tier prompt response cost H.
  destruct tier; simpl in H; try discriminate H;
    injection H as _ <-; discriminate.
Defined.

(** X7. [calls_by_tier] counts one call for a request the provider
    served, by the cascade or at the selected tier, and none
    otherwise, while the provider itself is called up to twice: the
    rejected attempt of the cascade and a failed call are counted
    nowhere. *)
Theorem call_llm_counted_calls :
  forall md5 provider task_type prompt context force_tier o,
    let o' := snd (call_llm md5 provider task_type prompt context force_tier o) in
    counted_calls o'
    = (counted_calls o
       + match serving md5 provider task_type prompt context force_tier o with
         | ServedByCascade | ServedAtSelectedTier => 1
         | ServedFromCache | NotServed => 0
         end)%nat
    /\ exists calls,
        provider_log o' = (provider_log o ++ calls)%list
        /\ (List.length calls <= 2)%nat.
Proof.
  intros md5 provider task_type prompt context force_tier o. cbv zeta.
  unfold serving.
  destruct (_generate_cache_key md5 task_type prompt (context_or_empty context))
    as [key|e] eqn:Hkey.
  2:{ rewrite (call_llm_key_error _ _ _ _ _ _ e) by exact Hkey. simpl.
      split; [lia|]. exists []. rewrite app_nil_r. split; [reflexivity|simpl; lia]. }
  rewrite (call_llm_eq _ _ _ _ _ _ key) by exact Hkey. cbv zeta.
  remember (set_stats (if dict_mem key (cache o) then hit else miss) o) as o0
    eqn:Ho0.
  assert (H0 : counted_calls o0 = counted_calls o
               /\ provider_log o0 = provider_log o).
  { rewrite Ho0. unfold counted_calls.
    destruct (dict_mem key (cache o)); simpl; split; reflexivity. }
  destruct H0 as [Hc0 Hl0]. clear Ho0.
  destruct (cached_truthy _).
  { simpl. rewrite Hc0, Hl0. split; [lia|].
    exists []. rewrite app_nil_r. split; [reflexivity|simpl; lia]. }
  destruct (match force_tier with Some t => Ok t | None => _ end)
    as [tier|e].
  2:{ simpl. rewrite Hc0, Hl0. split; [lia|].
      exists []. rewrite app_nil_r. split; [reflexivity|simpl; lia]. }
  assert (Hauth : forall o' before,
            counted_calls o' = counted_calls o ->
            provider_log o' = (provider_log o ++ before)%list ->
            (List.length before <= 1)%nat ->
            let o1 := snd (authoritative_call provider tier key prompt o') in
            counted_calls o1
            = (counted_calls o
               + if is_ok (provider (provider_log o') tier prompt)
                 then 1 else 0)%nat
            /\ exists calls,
                provider_log o1 = (provider_log o ++ calls)%list
                /\ (List.length calls <= 2)%nat).
  { intros o' before Hc' Hl' Hb. cbv zeta. unfold authoritative_call.
    destruct (provider (provider_log o') tier prompt) as [[response cost]|e];
      simpl.
    - split.
      + unfold counted_calls in *. simpl.
        destruct tier; simpl; lia.
      + exists (before ++ [(tier, prompt)])%list. rewrite Hl', <- app_assoc.
        split; [reflexivity|]. rewrite length_app. simpl. lia.
    - split; [unfold counted_calls in *; simpl; lia|].
      exists (before ++ [(tier, prompt)])%list. rewrite Hl', <- app_assoc.
      split; [reflexivity|]. rewrite length_app. simpl. lia. }
  destruct (is_some force_tier || str_in task_type never_cascade) eqn:Hskip.
  - rewrite cascade_attempt_skipped by exact Hskip.
    destruct (Hauth o0 [] Hc0) as [Hc Hl];
      [rewrite app_nil_r; exact Hl0 | simpl; lia |].
    split; [|exact Hl]. rewrite Hc.
    destruct (is_ok _); reflexivity.
  - apply orb_false_iff in Hskip. destruct Hskip as [Hforce Hnc].
    destruct force_tier; [discriminate Hforce|].
    rewrite (cascade_attempt_eq _ _ _ _ _ key) by assumption.
    assert (Hfall :
      let o1 := snd (authoritative_call provider tier key prompt
                       (logged SMALL prompt o0)) in
      counted_calls o1
      = (counted_calls o
         + if is_ok (provider (provider_log (logged SMALL prompt o0)) tier prompt)
           then 1 else 0)%nat
      /\ exists calls,
          provider_log o1 = (provider_log o ++ calls)%list
          /\ (List.length calls <= 2)%nat).
    { apply (Hauth (logged SMALL prompt o0) [(SMALL, prompt)]).
      - exact Hc0.
      - simpl. rewrite Hl0. reflexivity.
      - simpl. lia. }
    cbv zeta in Hfall. destruct Hfall as [Hc Hl].
    destruct (provider (provider_log o0) SMALL prompt) as [[response cost]|e].
    + destruct (10 <? String.length response)%nat.
      * simpl. split.
        -- unfold counted_calls in *. simpl. lia.
        -- exists [(SMALL, prompt)]. rewrite Hl0.
           split; [reflexivity|simpl; lia].
      * split; [|exact Hl]. rewrite Hc. destruct (is_ok _); reflexivity.
    + split; [|exact Hl]. rewrite Hc. destruct (is_ok _); reflexivity.
Qed.

(** X8. The stand-in provider charges strictly more at a more capable
    tier, for every prompt: SMALL below MEDIUM below LARGE. *)
Theorem mock_cost_increases_with_tier :
  forall prompt : string,
    snd (_call_openai_body false SMALL prompt)
    < snd (_call_openai_body false MEDIUM prompt)
    /\ snd (_call_openai_body false MEDIUM prompt)
       < snd (_call_openai_body false LARGE prompt).
Proof.
  intros prompt. unfold _call_openai_body. simpl negb. cbv iota.
  unfold costs, mock_response, tier_value. simpl snd. simpl fst.
  generalize (Nat2Z.is_nonneg (String.length prompt)).
  generalize (Z.of_nat (String.length prompt)). intros z Hz.
  split; unfold Qlt, Qdiv, Qmult, Qplus, Qinv, inject_Z; simpl; lia.
Qed.

(** Rounding to a grid keeps a value between two points of the grid. *)
Lemma py_round_between x digits a b :
  inject_Z a <= x * inject_Z (10 ^ Z.of_nat digits) ->
  x * inject_Z (10 ^ Z.of_nat digits) <= inject_Z b ->
  inject_Z a / inject_Z (10 ^ Z.of_nat digits) <= py_round x digits
  /\ py_round x digits <= inject_Z b / inject_Z (10 ^ Z.of_nat digits).
Proof.
  intros Ha Hb. unfold py_round. cbv zeta.
  set (scale := inject_Z (10 ^ Z.of_nat digits)) in *.
  set (y := x * scale) in *.
  assert (Hscale : 0 < scale).
  { unfold scale. change 0 with (inject_Z 0). rewrite <- Zlt_Qlt.
    apply Z.pow_pos_nonneg; lia. }
  assert (Hfa : (a <= Qfloor y)%Z).
  { rewrite <- (Qfloor_Z a). apply Qfloor_resp_le. exact Ha. }
  assert (Hfb : (Qfloor y <= b)%Z).
  { rewrite <- (Qfloor_Z b). apply Qfloor_resp_le. exact Hb. }
  assert (Hdiv : forall m n : Z, (m <= n)%Z ->
            inject_Z m / scale <= inject_Z n / scale).
  { intros m n Hmn. apply Qmult_le_compat_r.
    - rewrite <- Zle_Qle. exact Hmn.
    - apply Qlt_le_weak. apply Qinv_lt_0_compat. exact Hscale. }
  assert (Hup : 1 # 2 <= y - inject_Z (Qfloor y) -> (Qfloor y + 1 <= b)%Z).
  { intros Hd.
    assert (Hlt : inject_Z (Qfloor y) < inject_Z b).
    { apply Qlt_le_trans with y; [|exact Hb].
      apply Qlt_minus_iff.
      apply Qlt_le_trans with (1 # 2); [reflexivity|].
      unfold Qminus in Hd. exact Hd. }
    rewrite <- Zlt_Qlt in Hlt. lia. }
  destruct (Qlt_le_dec (y - inject_Z (Qfloor y)) (1 # 2)) as [Hlow|Hhigh].
  - split; apply Hdiv; assumption.
  - specialize (Hup Hhigh).
    destruct (Qlt_le_dec (1 # 2) (y - inject_Z (Qfloor y))).
    + split; apply Hdiv; lia.
    + destruct (Z.even (Qfloor y)); split; apply Hdiv; lia.
Qed.

Lemma percent_of_bounds part total :
  (part <= total)%nat ->
  0 <= percent_of part total /\ percent_of part total <= 100.
Proof.
  intros Hle. unfold percent_of.
  destruct (0 <? total)%nat eqn:Hpos; [|split; discriminate].
  apply Nat.ltb_lt in Hpos.
  assert (Ht : 0 < inject_Z (Z.of_nat total)).
  { change 0 with (inject_Z 0). rewrite <- Zlt_Qlt. lia. }
  split.
  - apply Qmult_le_0_compat; [|discriminate].
    apply Qle_shift_div_l; [exact Ht|]. rewrite Qmult_0_l.
    change 0 with (inject_Z 0). rewrite <- Zle_Qle. lia.
  - rewrite <- (Qmult_1_l 100) at 2.
    apply Qmult_le_compat_r; [|discriminate].
    apply Qle_shift_div_r; [exact Ht|]. rewrite Qmult_1_l.
    rewrite <- Zle_Qle. lia.
Qed.

(** X9. The cache hit rate that [get_stats] reports lies between 0 and
    100, and is 0 when nothing was looked up; the estimated savings are
    0.002 per hit, the rounding changing nothing. *)
Theorem get_stats_rates :
  forall o : CostOptimizer,
    0 <= rep_cache_hit_rate (get_stats o)
    /\ rep_cache_hit_rate (get_stats o) <= 100
    /\ (lookups o = 0%nat -> rep_cache_hit_rate (get_stats o) == 0)
    /\ rep_estimated_savings (get_stats o)
       == inject_Z (Z.of_nat (cache_hits (stats o))) * (2 # 1000).
Proof.
  intros o. unfold get_stats. cbv zeta. simpl rep_cache_hit_rate.
  simpl rep_estimated_savings.
  fold (percent_of (cache_hits (stats o))
          (cache_hits (stats o) + cache_misses (stats o))).
  destruct (percent_of_bounds (cache_hits (stats o))
              (cache_hits (stats o) + cache_misses (stats o)))
    as [Hlo Hhi]; [lia|].
  destruct (py_round_between
              (percent_of (cache_hits (stats o))
                 (cache_hits (stats o) + cache_misses (stats o)))
              2 0 10000) as [Rlo Rhi].
  { change (inject_Z 0) with 0. apply Qmult_le_0_compat; [exact Hlo|discriminate]. }
  { change (inject_Z 10000) with (100 * inject_Z (10 ^ Z.of_nat 2)).
    apply Qmult_le_compat_r; [exact Hhi|discriminate]. }
  split; [eapply Qle_trans; [|exact Rlo]; unfold Qle; simpl; lia|].
  split; [eapply Qle_trans; [exact Rhi|]; unfold Qle; simpl; lia|].
  split.
  - unfold lookups. intros H0.
    replace (cache_hits (stats o) + cache_misses (stats o))%nat with 0%nat
      by lia.
    reflexivity.
  - unfold py_round. cbv zeta.
    set (h := Z.of_nat (cache_hits (stats o))).
    assert (Hy : inject_Z h * (2 # 1000) * inject_Z (10 ^ Z.of_nat 4)
                 == inject_Z (h * 20)).
    { unfold Qeq, Qmult, inject_Z. simpl. lia. }
    assert (Hf : Qfloor (inject_Z h * (2 # 1000) * inject_Z (10 ^ Z.of_nat 4))
                 = (h * 20)%Z).
    { rewrite Hy. apply Qfloor_Z. }
    rewrite Hf.
    destruct (Qlt_le_dec _ (1 # 2)) as [_|Hbad].
    + unfold Qeq, Qdiv, Qmult, Qinv, inject_Z. simpl. lia.
    + exfalso. rewrite Hy in Hbad.
      unfold Qle, Qminus, Qplus, Qopp, inject_Z in Hbad. simpl in Hbad. lia.
Qed.

(** ** The ledger *)

Lemma last_n_full {A} (l : list A) (x : A) n :
  List.length l = n -> (0 < n)%nat ->
  last_n n (l ++ [x])%list = (tl l ++ [x])%list.
Proof.
  intros Hlen Hpos. unfold last_n. rewrite length_app. simpl.
  replace (List.length l + 1 - n)%nat with 1%nat by lia.
  destruct l as [|y l']; [simpl in Hlen; lia|]. reflexivity.
Qed.

(** X10. On a ledger holding exactly 1000 events, a logged event
    takes the last place and the oldest event is dropped; logged
    without an execution id (or with an empty one), it gets the id
    "exec_1000", as does every such event from then on. *)
Theorem log_event_on_full_ledger :
  forall py_str now agent action context outcome cost duration_ms
         execution_id rendered l,
    List.length (events l) = max_events ->
    render_context py_str context = Ok rendered ->
    events (snd (log_event py_str now agent action context outcome cost
                   duration_ms execution_id l))
    = (tl (events l)
       ++ [mkEvent now agent action rendered outcome cost duration_ms
             (match execution_id with
              | Some e => if String.eqb e "" then "exec_1000" else e
              | None => "exec_1000"
              end)])%list.
Proof.
  intros py_str now agent action context outcome cost duration_ms
    execution_id rendered l Hfull Hrender.
  rewrite log_event_eq, Hrender. cbv zeta. simpl events.
  replace (max_events <? List.length (events l ++ _))%nat with true
    by (symmetry; apply Nat.ltb_lt; rewrite length_app, Hfull; simpl;
        unfold max_events; lia).
  simpl snd. simpl events.
  rewrite last_n_full by (try exact Hfull; unfold max_events; lia).
  unfold execution_id_or. rewrite Hfull.
  destruct execution_id as [e|]; [destruct (String.eqb e "")|]; reflexivity.
Qed.

Lemma log_event_on_full_ledger_witness :
  let full :=
    mkLogger
      (repeat (mkEvent "2024-12-15T10:00:00" "inbox_agent" "parse_email" "{}"
                 "success" 0 0 "exec_0") max_events) [] in
  events (snd (log_event (total_str plain_str) "2024-12-15T11:00:00"
                 "po_tracker"
                 "update_erp" (PStr "late") "success" 0 0 None full))
  = (tl (events full)
     ++ [mkEvent "2024-12-15T11:00:00" "po_tracker" "update_erp" "late"
           "success" 0 0 "exec_1000"])%list.
Proof.
  apply (log_event_on_full_ledger (total_str plain_str)
           "2024-12-15T11:00:00" "po_tracker"
           "update_erp" (PStr "late") "success" 0 0 None "late").
  - vm_compute. reflexivity.
  - reflexivity.
Defined.

Lemma run_op_events_bounded py_str op l :
  (List.length (events l) <= max_events)%nat ->
  (List.length (events (snd (run_op py_str op l))) <= max_events)%nat.
Proof.
  intros Hb.
  assert (Hlog : forall now a act ctx out c d e l0,
            (List.length (events l0) <= max_events)%nat ->
            (List.length
               (events (snd (log_event py_str now a act ctx out c d e l0)))
             <= max_events)%nat).
  { intros now a act ctx out c d e l0 Hl0. rewrite log_event_eq.
    destruct (render_context py_str ctx) as [rendered|err]; [|exact Hl0].
    cbv zeta. simpl events.
    destruct (max_events <? _)%nat eqn:Hover; simpl.
    - unfold last_n. rewrite length_skipn, length_app. simpl. unfold max_events in *. lia.
    - apply Nat.ltb_ge in Hover. exact Hover. }
  destruct op; simpl run_op.
  - apply Hlog. exact Hb.
  - unfold log_decision. apply Hlog. exact Hb.
  - unfold log_override, bind, modify. cbv beta iota.
    apply Hlog. exact Hb.
Qed.

Lemma run_op_events_count py_str op l :
  (List.length (events l) <= max_events)%nat ->
  List.length (events (snd (run_op py_str op l)))
  = Nat.min max_events
      (List.length (events l) + if op_logged py_str op then 1 else 0).
Proof.
  intros Hb.
  assert (Hlog : forall now a act ctx out c d e l0,
            (List.length (events l0) <= max_events)%nat ->
            List.length
              (events (snd (log_event py_str now a act ctx out c d e l0)))
            = Nat.min max_events
                (List.length (events l0)
                 + if is_ok (render_context py_str ctx) then 1 else 0)).
  { intros now a act ctx out c d e l0 Hl0. rewrite log_event_eq.
    destruct (render_context py_str ctx) as [rendered|err]; cbn [is_ok].
    - cbv zeta. unfold update_metrics. cbn [events snd].
      destruct (max_events <? _)%nat eqn:Hover; cbn [events].
      + apply Nat.ltb_lt in Hover. rewrite length_app in Hover.
        cbn [List.length] in Hover.
        unfold last_n. rewrite length_skipn, length_app. cbn [List.length].
        unfold max_events in *. lia.
      + apply Nat.ltb_ge in Hover. rewrite length_app in *.
        cbn [List.length] in *. unfold max_events in *. lia.
    - cbn [snd]. unfold max_events in *. lia. }
  unfold op_logged.
  destruct op; cbn [run_op op_context].
  - apply Hlog. exact Hb.
  - unfold log_decision. apply Hlog. exact Hb.
  - unfold log_override, bind, modify. cbv beta iota.
    rewrite Hlog by exact Hb. reflexivity.
Qed.

(** X11. Whatever is logged on a fresh ledger, it never holds more
    than 1000 events: it holds as many events as were logged, up to
    1000. *)
Theorem ledger_holds_at_most_1000 :
  forall (py_str : PyVal -> result string) (ops : list LedgerOp),
    List.length (events (run_ops py_str ops ObservabilityLogger_init))
    = Nat.min max_events (logged_count py_str ops).
Proof.
  intros py_str ops.
  assert (H : forall l,
            (List.length (events l) <= max_events)%nat ->
            List.length (events (run_ops py_str ops l))
            = Nat.min max_events
                (List.length (events l) + logged_count py_str ops)).
  { induction ops as [|op ops IH]; intros l Hb.
    - cbn [run_ops]. unfold logged_count. cbn [filter List.length].
      unfold max_events in *. lia.
    - cbn [run_ops]. rewrite IH by (apply run_op_events_bounded; exact Hb).
      rewrite run_op_events_count by exact Hb.
      unfold logged_count. cbn [filter].
      destruct (op_logged py_str op); cbn [List.length];
        unfold max_events in *; lia. }
  rewrite H by (cbn; unfold max_events; lia). reflexivity.
Qed.

Lemma dict_mem_set {V} (d : list (string * V)) k v k' :
  dict_mem k' (dict_set d k v) = String.eqb k k' || dict_mem k' d.
Proof.
  induction d as [|[k0 v0] d IH]; simpl.
  - rewrite orb_false_r. reflexivity.
  - destruct (String.eqb k0 k) eqn:E; simpl.
    + apply String.eqb_eq in E. subst k0.
      destruct (String.eqb k k'); reflexivity.
    + rewrite IH. destruct (String.eqb k0 k'), (String.eqb k k'); reflexivity.
Qed.

Lemma override_is_logged py_str now a o r :
  op_logged py_str (OpOverride now a o r) = true.
Proof. reflexivity. Qed.

Lemma run_op_mem py_str op l a :
  dict_mem a (agent_metrics (snd (run_op py_str op l)))
  = (String.eqb (op_agent op) a && op_logged py_str op)
    || dict_mem a (agent_metrics l).
Proof.
  assert (Hlog : forall now ag act ctx out c d e l0,
            dict_mem a
              (agent_metrics (snd (log_event py_str now ag act ctx out c d e l0)))
            = (String.eqb ag a && is_ok (render_context py_str ctx))
              || dict_mem a (agent_metrics l0)).
  { intros now ag act ctx out c d e l0. rewrite log_event_eq.
    destruct (render_context py_str ctx) as [rendered|err]; cbn [is_ok].
    - cbv zeta.
      match goal with
      | |- context [if ?b then _ else _] => destruct b
      end; cbn [snd agent_metrics update_metrics];
        rewrite dict_mem_set, andb_true_r; reflexivity.
    - cbn [snd]. rewrite andb_false_r. reflexivity. }
  unfold op_logged.
  destruct op as [now ag act ctx out c d e | now ag dec r i e | now ag o r];
    cbn [run_op op_agent op_context].
  - apply Hlog.
  - unfold log_decision. apply Hlog.
  - unfold log_override, bind, modify. cbv beta iota.
    rewrite Hlog. cbn [agent_metrics update_metrics].
    rewrite dict_mem_set.
    destruct (String.eqb ag a), (dict_mem a (agent_metrics l));
      reflexivity.
Qed.

(** On a ledger reached from a fresh one, an agent has an accumulator
    exactly when it has at least one action counted. *)
Lemma run_ops_mem py_str ops :
  forall l a,
    dict_mem a (agent_metrics l) = (0 <? total_actions (metrics_of l a))%nat ->
    dict_mem a (agent_metrics (run_ops py_str ops l))
    = (0 <? total_actions (metrics_of (run_ops py_str ops l) a))%nat.
Proof.
  induction ops as [|op ops IH]; intros l a Hl; [exact Hl|].
  cbn [run_ops]. apply IH.
  rewrite run_op_mem, run_op_metrics, Hl. unfold step_metrics.
  destruct (String.eqb (op_agent op) a); [|reflexivity].
  destruct (op_logged py_str op); cbn [andb orb];
    destruct (is_override op); reflexivity.
Qed.

Lemma count_overrides_le_failed py_str a ops :
  (count_overrides a ops
   <= count_logged py_str (fun out => negb (String.eqb out "success")) a ops)%nat.
Proof.
  unfold count_overrides, count_logged.
  induction ops as [|op ops IH]; cbn [filter List.length]; [lia|].
  set (n1 := List.length (filter _ ops)) in *.
  set (n2 := List.length
               (filter (fun op0 => op_logged py_str op0 && _ && _) ops)) in *.
  destruct op as [now ag act ctx out c d e | now ag dec r i e | now ag o r];
    cbn [is_override op_agent op_outcome andb].
  - match goal with
    | |- context [if ?b then _ else _] => destruct b
    end; cbn [List.length]; fold n2; lia.
  - match goal with
    | |- context [if ?b then _ else _] => destruct b
    end; cbn [List.length]; fold n2; lia.
  - rewrite override_is_logged. cbn [andb].
    change (negb (String.eqb "overridden" "success")) with true.
    rewrite andb_true_r.
    destruct (String.eqb ag a); cbn [List.length]; fold n1; fold n2; lia.
Qed.

(** The accumulator of an agent on a ledger reached from a fresh
    one. *)
Lemma reached_metrics py_str ops agent :
  let l := run_ops py_str ops ObservabilityLogger_init in
  let m := metrics_of l agent in
  dict_mem agent (agent_metrics l) = (0 <? total_actions m)%nat
  /\ total_actions m = count_logged py_str (fun _ => true) agent ops
  /\ total_actions m = (successful_actions m + failed_actions m)%nat
  /\ (overrides m <= failed_actions m)%nat
  /\ overrides m = count_overrides agent ops.
Proof.
  cbv zeta.
  pose proof (run_ops_mem py_str ops ObservabilityLogger_init agent eq_refl)
    as Hmem.
  destruct (run_ops_counters py_str ops ObservabilityLogger_init agent)
    as [Ht [Hs [Hf Ho]]].
  cbv zeta in Ht, Hs, Hf, Ho.
  change (total_actions (metrics_of ObservabilityLogger_init agent))
    with 0%nat in Ht.
  change (successful_actions (metrics_of ObservabilityLogger_init agent))
    with 0%nat in Hs.
  change (failed_actions (metrics_of ObservabilityLogger_init agent))
    with 0%nat in Hf.
  change (overrides (metrics_of ObservabilityLogger_init agent))
    with 0%nat in Ho.
  cbn [Nat.add] in Ht, Hs, Hf, Ho.
  pose proof (count_overrides_le_failed py_str agent ops) as Hof.
  pose proof (count_logged_split py_str agent ops) as Hsplit.
  repeat split; try assumption; lia.
Qed.

(** X12. On a ledger reached from a fresh one, [get_agent_metrics]
    returns the empty answer for an agent exactly when no event of
    that agent was ever logged; otherwise the report counts every
    logged event of the agent, also those the ledger no longer holds,
    and at least one, so that the zero-total branches of the rates are
    never taken. *)
Theorem agent_report_iff_logged :
  forall (py_str : PyVal -> result string) (ops : list LedgerOp)
         (agent : string),
    match get_agent_metrics (run_ops py_str ops ObservabilityLogger_init) agent
    with
    | None => count_logged py_str (fun _ => true) agent ops = 0%nat
    | Some r =>
        ar_total_actions r = count_logged py_str (fun _ => true) agent ops
        /\ (1 <= ar_total_actions r)%nat
        /\ ar_overrides r = count_overrides agent ops
    end.
Proof.
  intros py_str ops agent.
  destruct (reached_metrics py_str ops agent) as [Hmem [Ht [_ [_ Ho]]]].
  cbv zeta in Hmem, Ht, Ho.
  unfold get_agent_metrics. rewrite Hmem.
  destruct (0 <? total_actions _)%nat eqn:Hpos; cbn [negb].
  - apply Nat.ltb_lt in Hpos. cbv zeta. cbn [ar_total_actions ar_overrides].
    repeat split; [exact Ht | lia | exact Ho].
  - apply Nat.ltb_ge in Hpos. lia.
Qed.

Lemma percent_of_mono a b t :
  (a <= b)%nat -> percent_of a t <= percent_of b t.
Proof.
  intros Hab. unfold percent_of.
  destruct (0 <? t)%nat eqn:Hpos; [|apply Qle_refl].
  apply Nat.ltb_lt in Hpos.
  apply Qmult_le_compat_r; [|discriminate].
  apply Qmult_le_compat_r.
  - rewrite <- Zle_Qle. lia.
  - apply Qlt_le_weak, Qinv_lt_0_compat.
    change 0 with (inject_Z 0). rewrite <- Zlt_Qlt. lia.
Qed.

(** X13. In every report [get_agent_metrics] returns on a ledger
    reached from a fresh one, the success rate and the failure rate
    each lie between 0 and 100 and the override rate lies between 0 and
    the failure rate: every override is also counted as a failed
    action, and the successful and the failed actions behind the rates
    add up to the total reported. *)
Theorem agent_report_rates :
  forall (py_str : PyVal -> result string) (ops : list LedgerOp)
         (agent : string) (r : AgentReport),
    get_agent_metrics (run_ops py_str ops ObservabilityLogger_init) agent
    = Some r ->
    let m := metrics_of (run_ops py_str ops ObservabilityLogger_init) agent in
    (successful_actions m + failed_actions m = ar_total_actions r)%nat
    /\ (ar_overrides r <= failed_actions m)%nat
    /\ 0 <= ar_success_rate r /\ ar_success_rate r <= 100
    /\ 0 <= ar_failure_rate r /\ ar_failure_rate r <= 100
    /\ 0 <= ar_override_rate r
    /\ ar_override_rate r <= ar_failure_rate r.
Proof.
  intros py_str ops agent r Hr.
  destruct (reached_metrics py_str ops agent) as [Hmem [_ [Ht [Hof _]]]].
  cbv zeta in Hmem, Ht, Hof.
  unfold get_agent_metrics in Hr. rewrite Hmem in Hr.
  destruct (0 <? total_actions _)%nat eqn:Hpos; cbn [negb] in Hr;
    [|discriminate Hr].
  apply Nat.ltb_lt in Hpos. cbv zeta in Hr.
  injection Hr as <-.
  cbn [ar_success_rate ar_failure_rate ar_override_rate ar_total_actions
       ar_overrides].
  set (m := metrics_of (run_ops py_str ops ObservabilityLogger_init) agent) in *.
  destruct (percent_of_bounds (successful_actions m) (total_actions m)) as [A B];
    [lia|].
  destruct (percent_of_bounds (overrides m) (total_actions m)) as [C _];
    [lia|].
  destruct (percent_of_bounds (failed_actions m) (total_actions m)) as [D E];
    [lia|].
  repeat split; try assumption; try lia.
  apply percent_of_mono. lia.
Qed.

Lemma agent_report_rates_witness :
  let ops := [OpEvent "2024-12-15T10:00:00" "po_tracker" "update_erp" PNone
                "success" 0 0 None;
              OpOverride "2024-12-15T10:05:00" "po_tracker" "update_erp"
                "wrong order"] in
  let l := run_ops (total_str plain_str) ops ObservabilityLogger_init in
  exists r,
    get_agent_metrics l "po_tracker" = Some r
    /\ (successful_actions (metrics_of l "po_tracker")
        + failed_actions (metrics_of l "po_tracker")
        = ar_total_actions r)%nat
    /\ (ar_overrides r <= failed_actions (metrics_of l "po_tracker"))%nat
    /\ 0 <= ar_success_rate r /\ ar_success_rate r <= 100
    /\ 0 <= ar_failure_rate r /\ ar_failure_rate r <= 100
    /\ 0 <= ar_override_rate r
    /\ ar_override_rate r <= ar_failure_rate r.
Proof.
  cbv zeta. eexists. split; [reflexivity|].
  apply (agent_report_rates (total_str plain_str)
           [OpEvent "2024-12-15T10:00:00" "po_tracker" "update_erp" PNone
              "success" 0 0 None;
            OpOverride "2024-12-15T10:05:00" "po_tracker" "update_erp"
              "wrong order"] "po_tracker").
  reflexivity.
Defined.

Lemma fold_left_Qplus_acc xs : forall a, fold_left Qplus xs a == a + py_sum xs.
Proof.
  unfold py_sum.
  induction xs as [|x xs IH]; intros a; cbn [fold_left].
  - ring.
  - rewrite IH, (IH (0 + x)). ring.
Qed.

Lemma py_sum_cons x xs : py_sum (x :: xs) == x + py_sum xs.
Proof. unfold py_sum at 1. cbn [fold_left]. rewrite fold_left_Qplus_acc. ring. Qed.

(** Replacing the accumulator of one agent moves the sum by the
    difference of the two costs. *)
Lemma agents_cost_set (d : list (string * Metrics)) k v :
  py_sum (map (fun kv => m_total_cost (snd kv)) (dict_set d k v))
  == py_sum (map (fun kv => m_total_cost (snd kv)) d)
     + m_total_cost v - m_total_cost (dict_get d k Metrics_default).
Proof.
  induction d as [|[k0 v0] d IH]; cbn [dict_set dict_get map].
  - rewrite py_sum_cons. unfold py_sum. cbn. ring.
  - destruct (String.eqb k0 k); cbn [map snd].
    + rewrite !py_sum_cons. ring.
    + rewrite !py_sum_cons, IH. ring.
Qed.

Lemma run_op_total_cost py_str op l :
  agents_total_cost (snd (run_op py_str op l))
  == agents_total_cost l + (if op_logged py_str op then op_cost op else 0).
Proof.
  assert (Hlog : forall now ag act ctx out c d e l0,
            agents_total_cost
              (snd (log_event py_str now ag act ctx out c d e l0))
            == agents_total_cost l0
               + (if is_ok (render_context py_str ctx) then c else 0)).
  { intros now ag act ctx out c d e l0. rewrite log_event_eq.
    destruct (render_context py_str ctx) as [rendered|err]; cbn [is_ok].
    - cbv zeta.
      assert (Hupd : agents_total_cost
                (update_metrics ag (record_action out c d)
                   (mkLogger (events l0 ++ [mkEvent now ag act rendered out c d
                      (execution_id_or e (List.length (events l0)))])%list
                      (agent_metrics l0)))
              == agents_total_cost l0 + c).
      { unfold agents_total_cost, update_metrics. cbn [agent_metrics].
        rewrite agents_cost_set. unfold metrics_of.
        cbn [agent_metrics m_total_cost record_action]. ring. }
      match goal with
      | |- context [if ?b then _ else _] => destruct b
      end; cbn [snd]; [|exact Hupd].
      rewrite <- Hupd. reflexivity.
    - cbn [snd]. ring. }
  unfold op_logged.
  destruct op as [now ag act ctx out c d e | now ag dec r i e | now ag o r];
    cbn [run_op op_context op_cost].
  - apply Hlog.
  - unfold log_decision. apply Hlog.
  - unfold log_override, bind, modify. cbv beta iota.
    rewrite Hlog.
    unfold agents_total_cost, update_metrics. cbn [agent_metrics].
    rewrite agents_cost_set. unfold metrics_of.
    cbn [agent_metrics m_total_cost record_override].
    destruct (is_ok _); ring.
Qed.

(** X14. The total cost behind [get_metrics] is the sum of the costs
    of every event ever logged on the ledger, also of the events it no
    longer holds, while [total_processed] counts the events still held,
    at most 1000; the events of the last hour are among those, and the
    success rate lies between 0 and 100. *)
Theorem get_metrics_totals :
  forall (py_str : PyVal -> result string) (age_seconds : string -> Q)
         (ops : list LedgerOp),
    let l := run_ops py_str ops ObservabilityLogger_init in
    let r := get_metrics age_seconds l in
    agents_total_cost l == logged_cost py_str ops
    /\ mr_total_cost r = py_round (agents_total_cost l) 4
    /\ mr_total_processed r = Nat.min max_events (logged_count py_str ops)
    /\ (mr_events_last_hour r <= mr_total_processed r)%nat
    /\ 0 <= mr_success_rate r /\ mr_success_rate r <= 100.
Proof.
  intros py_str age_seconds ops. cbv zeta.
  split; [|split; [reflexivity|split; [|split]]].
  - assert (H : forall l,
              agents_total_cost (run_ops py_str ops l)
              == agents_total_cost l + logged_cost py_str ops).
    { induction ops as [|op ops IH]; intros l; cbn [run_ops logged_cost fold_right].
      - ring.
      - rewrite IH, run_op_total_cost. fold (logged_cost py_str ops). ring. }
    rewrite H. unfold agents_total_cost, py_sum. cbn. ring.
  - unfold get_metrics. cbn [mr_total_processed].
    assert (H : forall l,
              (List.length (events l) <= max_events)%nat ->
              List.length (events (run_ops py_str ops l))
              = Nat.min max_events
                  (List.length (events l) + logged_count py_str ops)).
    { induction ops as [|op ops IH]; intros l Hb.
      - cbn [run_ops]. unfold logged_count. cbn [filter List.length].
        unfold max_events in *. lia.
      - cbn [run_ops]. rewrite IH by (apply run_op_events_bounded; exact Hb).
        rewrite run_op_events_count by exact Hb.
        unfold logged_count. cbn [filter].
        destruct (op_logged py_str op); cbn [List.length];
          unfold max_events in *; lia. }
    rewrite H by (cbn; unfold max_events; lia). reflexivity.
  - unfold get_metrics. cbn [mr_events_last_hour mr_total_processed].
    apply filter_length_le.
  - unfold get_metrics. cbn [mr_success_rate].
    apply percent_of_bounds. apply filter_length_le.
Qed.

(** ** The timeline *)



Lemma insert_newest_first_perm x l :
  Permutation (x :: l) (insert_newest_first x l).
Proof.
  induction l as [|y l IH]; cbn [insert_newest_first]; [apply Permutation_refl|].
  destruct (String.ltb (ev_timestamp x) (ev_timestamp y));
    [|apply Permutation_refl].
  eapply perm_trans; [apply perm_swap|]. apply perm_skip. exact IH.
Qed.

Lemma sort_newest_first_perm l : Permutation l (sort_newest_first l).
Proof.
  induction l as [|x l IH]; cbn [sort_newest_first]; [constructor|].
  eapply perm_trans; [apply perm_skip; exact IH|].
  apply insert_newest_first_perm.
Qed.





Lemma get_timeline_eq limit agent_filter l :
  get_timeline limit agent_filter l
  = py_slice_to limit (sort_newest_first (timeline_pool agent_filter l)).
Proof. reflexivity. Qed.



(** X16. With a limit at least the number of selected events, the
    timeline holds every one of them exactly once. *)
Theorem get_timeline_complete :
  forall (limit : Z) (agent_filter : option string) (l : ObservabilityLogger),
    (Z.of_nat (List.length (timeline_pool agent_filter l)) <= limit)%Z ->
    Permutation (timeline_pool agent_filter l)
      (get_timeline limit agent_filter l).
Proof.
  intros limit agent_filter l Hlimit. rewrite get_timeline_eq.
  unfold py_slice_to.
  replace (0 <=? limit)%Z with true by (symmetry; apply Z.leb_le; lia).
  rewrite firstn_all2.
  - apply sort_newest_first_perm.
  - rewrite <- (Permutation_length
                  (sort_newest_first_perm (timeline_pool agent_filter l))).
    lia.
Qed.

Lemma get_timeline_complete_witness :
  let l := run_ops (total_str plain_str)
             [OpEvent "2024-12-15T10:00:00" "inbox_agent" "parse_email" PNone
                "success" 0 0 None;
              OpEvent "2024-12-15T10:00:05" "po_tracker" "update_erp" PNone
                "success" 0 0 None;
              OpEvent "2024-12-15T10:00:02" "po_tracker" "escalate_if_critical"
                PNone "success" 0 0 None]
             ObservabilityLogger_init in
  Permutation (timeline_pool (Some "po_tracker") l)
    (get_timeline 50 (Some "po_tracker") l).
Proof.
  apply (get_timeline_complete 50 (Some "po_tracker")).
  vm_compute. discriminate.
Defined.

(** The newest event of the agent comes first, whatever the order of
    logging. *)
Example get_timeline_newest_first :
  map ev_action
    (get_timeline 50 (Some "po_tracker")
       (run_ops (total_str plain_str)
          [OpEvent "2024-12-15T10:00:00" "inbox_agent" "parse_email" PNone
             "success" 0 0 None;
           OpEvent "2024-12-15T10:00:05" "po_tracker" "update_erp" PNone
             "success" 0 0 None;
           OpEvent "2024-12-15T10:00:02" "po_tracker" "escalate_if_critical"
             PNone "success" 0 0 None]
          ObservabilityLogger_init))
  = ["update_erp"; "escalate_if_critical"].
Proof. reflexivity. Qed.

(** ** The orchestrator, continued *)

Lemma hoare_bind {A B} (m : M Orchestrator A) (k : A -> M Orchestrator B)
  P Q R E :
  hoare P m Q E -> (forall a, hoare (Q a) (k a) R E) ->
  hoare P (bind m k) R E.
Proof.
  intros Hm Hk o HP. unfold bind. specialize (Hm o HP).
  destruct (m o) as [[a|e] o']; [apply Hk; exact Hm | exact Hm].
Qed.

Lemma hoare_ret {A} (a : A) (P : Orchestrator -> Prop)
  (Q : A -> Orchestrator -> Prop) E :
  (forall o, P o -> Q a o) -> hoare P (ret a) Q E.
Proof. intros H o HP. apply H. exact HP. Qed.

Lemma hoare_lift {A} (r : result A) (P : Orchestrator -> Prop)
  (Q : A -> Orchestrator -> Prop) (E : Orchestrator -> Prop) :
  (forall a o, r = Ok a -> P o -> Q a o) ->
  (forall o, P o -> E o) ->
  hoare P (lift r) Q E.
Proof.
  intros HQ HE o HP. unfold lift.
  destruct r as [a|e]; [apply HQ; [reflexivity|exact HP] | apply HE; exact HP].
Qed.

Lemma hoare_try {A} (m : M Orchestrator A) (h : exn -> M Orchestrator A)
  P Q E E' :
  hoare P m Q E -> (forall e, hoare E (h e) Q E') ->
  hoare P (try_except m h) Q E'.
Proof.
  intros Hm Hh o HP. unfold try_except. specialize (Hm o HP).
  destruct (m o) as [[a|e] o']; [exact Hm | apply Hh; exact Hm].
Qed.

(** A step that leaves a component as it is keeps whatever holds of
    that component. *)
Lemma hoare_preserved {A T} (f : Orchestrator -> T) (m : M Orchestrator A)
  (R : T -> Prop) :
  preserves f m ->
  hoare (fun o => R (f o)) m (fun _ o => R (f o)) (fun o => R (f o)).
Proof.
  intros Hk o HP. specialize (Hk o).
  destruct (m o) as [[a|e] o']; cbn [snd] in Hk; rewrite Hk; exact HP.
Qed.

Lemma preserves_in_observability {A T} (f : Orchestrator -> T)
  (m : M ObservabilityLogger A) :
  (forall c l ags l', f (mkOrchestrator c l ags) = f (mkOrchestrator c l' ags)) ->
  preserves f (in_observability m).
Proof.
  intros Hf o. unfold in_observability, zoom.
  destruct (m (observability o)) as [r l']. cbn [snd].
  destruct o as [c l ags]. cbn. symmetry. apply Hf.
Qed.

Lemma preserves_in_optimizer {A T} (f : Orchestrator -> T)
  (m : M CostOptimizer A) :
  (forall c l ags c', f (mkOrchestrator c l ags) = f (mkOrchestrator c' l ags)) ->
  preserves f (in_optimizer m).
Proof.
  intros Hf o. unfold in_optimizer, zoom.
  destruct (m (cost_optimizer o)) as [r c']. cbn [snd].
  destruct o as [c l ags]. cbn. symmetry. apply Hf.
Qed.

Lemma preserves_update_agent {T} (f : Orchestrator -> T) id g :
  (forall c l ags ags', f (mkOrchestrator c l ags) = f (mkOrchestrator c l ags')) ->
  preserves f (update_agent id g).
Proof.
  intros Hf o. unfold update_agent, bind, get, modify, raise.
  destruct (dict_lookup (agents o) id); cbn [snd]; [|reflexivity].
  destruct o as [c l ags]. cbn. symmetry. apply Hf.
Qed.

Lemma preserves_bind {A B T} (f : Orchestrator -> T) (m : M Orchestrator A)
  (k : A -> M Orchestrator B) :
  preserves f m -> (forall a, preserves f (k a)) -> preserves f (bind m k).
Proof.
  intros Hm Hk o. unfold bind. specialize (Hm o).
  destruct (m o) as [[a|e] o']; cbn [snd] in *; [|exact Hm].
  rewrite Hk. exact Hm.
Qed.

Lemma preserves_mark_active {T} (f : Orchestrator -> T) id :
  (forall c l ags ags', f (mkOrchestrator c l ags) = f (mkOrchestrator c l ags')) ->
  preserves f (mark_active id).
Proof.
  intros Hf. unfold mark_active.
  apply preserves_bind; [|intros _]; apply preserves_update_agent; exact Hf.
Qed.

Lemma preserves_mark_idle {T} (f : Orchestrator -> T) id :
  (forall c l ags ags', f (mkOrchestrator c l ags) = f (mkOrchestrator c l ags')) ->
  preserves f (mark_idle id).
Proof.
  intros Hf. unfold mark_idle.
  apply preserves_bind; [|intros _]; apply preserves_update_agent; exact Hf.
Qed.

Lemma log_override_never_raises py_str now agent decision reason l :
  fst (log_override py_str now agent decision reason l) = Ok tt.
Proof.
  unfold log_override, bind, modify. cbv beta iota.
  rewrite log_event_eq. reflexivity.
Qed.

(** The counters after one action, one by one. *)
Lemma record_action_counts outcome cost duration_ms m :
  let m' := record_action outcome cost duration_ms m in
  total_actions m' = S (total_actions m)
  /\ successful_actions m'
     = (successful_actions m
        + if String.eqb outcome "success" then 1 else 0)%nat
  /\ failed_actions m'
     = (failed_actions m + if String.eqb outcome "success" then 0 else 1)%nat
  /\ m_total_cost m' = m_total_cost m + cost
  /\ total_time m' = total_time m + duration_ms
  /\ overrides m' = overrides m.
Proof.
  cbv zeta. unfold record_action.
  destruct (String.eqb outcome "success");
    cbn [total_actions successful_actions failed_actions m_total_cost
         total_time overrides];
    repeat split; lia.
Qed.

(** What a [log_event] that returned has done: one action counted for
    its agent and for no other, and the event appended last. *)
Lemma log_event_returned py_str now agent action context outcome cost
  duration_ms execution_id l l' :
  log_event py_str now agent action context outcome cost duration_ms
    execution_id l = (Ok tt, l') ->
  (forall a,
      metrics_of l' a
      = if String.eqb agent a
        then record_action outcome cost duration_ms (metrics_of l a)
        else metrics_of l a)
  /\ exists older rendered,
      render_context py_str context = Ok rendered
      /\ events l'
         = (older ++ [mkEvent now agent action rendered outcome cost
                        duration_ms
                        (execution_id_or execution_id
                           (List.length (events l)))])%list.
Proof.
  intros Hrun. split.
  - intros a.
    pose proof (log_event_metrics py_str now agent action context outcome cost
                  duration_ms execution_id l a) as Hm.
    rewrite Hrun in Hm. cbn [snd] in Hm. rewrite Hm.
    rewrite log_event_eq in Hrun.
    destruct (render_context py_str context); [reflexivity|discriminate].
  - pose proof (log_event_raises_as_rendering py_str now agent action context
                  outcome cost duration_ms execution_id l) as Hev.
    cbv zeta in Hev. rewrite Hrun in Hev.
    destruct (render_context py_str context) as [rendered|e];
      [|discriminate].
    destruct Hev as [_ [older Hev]]. exists older, rendered.
    split; [reflexivity | exact Hev].
Qed.

(** X17. [override_decision] on an agent the registry does not hold
    raises ValueError and changes nothing.  On a registered agent it
    returns and leaves the registry and the optimizer as they are; the
    agent has one more override, one more action and one more failed
    action, and as many successful actions and as much cost as before;
    and the newest event of the ledger is the override, with the
    decision and the reason in its context and the outcome
    overridden. *)
Theorem override_decision_effect :
  forall py_str clock agent_id decision reason o,
    let run := override_decision py_str clock agent_id decision reason o in
    let m := metrics_of (observability o) agent_id in
    let m' := metrics_of (observability (snd run)) agent_id in
    if dict_mem agent_id (agents o) then
      fst run = Ok tt
      /\ agents (snd run) = agents o
      /\ cost_optimizer (snd run) = cost_optimizer o
      /\ overrides m' = S (overrides m)
      /\ total_actions m' = S (total_actions m)
      /\ failed_actions m' = S (failed_actions m)
      /\ successful_actions m' = successful_actions m
      /\ m_total_cost m' == m_total_cost m
      /\ exists older,
          events (observability (snd run))
          = (older
             ++ [mkEvent (now clock) agent_id "override"
                   ("{"
                      ++ ((Json.quote "original_decision" ++ ": "
                             ++ Json.quote decision)
                          ++ ", "
                          ++ (Json.quote "override_reason" ++ ": "
                                ++ Json.quote reason))
                      ++ "}")
                   "overridden" 0 0
                   ("exec_"
                      ++ Json.string_of_Z
                           (Z.of_nat
                              (List.length (events (observability o)))))])%list
    else
      run = (Raise (ValueError ("Agent " ++ agent_id ++ " not found")), o).
Proof.
  intros py_str clock agent_id decision reason o. cbv zeta.
  unfold override_decision, bind, get, raise.
  destruct (dict_mem agent_id (agents o)); [|reflexivity].
  unfold in_observability, zoom.
  pose proof (log_override_never_raises (total_str py_str) (now clock)
                agent_id decision reason (observability o)) as Hok.
  unfold log_override, bind, modify in *. cbv beta iota in *.
  destruct (log_event (total_str py_str) (now clock) agent_id "override"
              (PDict [("original_decision", PStr decision);
                      ("override_reason", PStr reason)])
              "overridden" 0 0 None
              (update_metrics agent_id record_override (observability o)))
    as [r l'] eqn:Hrun.
  cbn [fst snd agents cost_optimizer observability] in *. subst r.
  destruct (log_event_returned _ _ _ _ _ _ _ _ _ _ _ Hrun)
    as [Hm [older [rendered [Hrender Hev]]]].
  rewrite Hm, String.eqb_refl, metrics_of_update, String.eqb_refl.
  destruct (record_action_counts "overridden" 0 0
              (record_override (metrics_of (observability o) agent_id)))
    as [Ht [Hs [Hf [Hc [_ Ho]]]]].
  change (String.eqb "overridden" "success") with false in Hs, Hf.
  rewrite Ht, Hs, Hf, Hc, Ho.
  cbn [record_override total_actions successful_actions failed_actions
       m_total_cost overrides].
  repeat split; try lia; [ring|].
  exists older. rewrite Hev. cbn [update_metrics events execution_id_or].
  injection Hrender as <-. reflexivity.
Qed.

Lemma hoare_conseq {A} (m : M Orchestrator A) (P P' : Orchestrator -> Prop)
  (Q Q' : A -> Orchestrator -> Prop) (E E' : Orchestrator -> Prop) :
  hoare P m Q E ->
  (forall o, P' o -> P o) ->
  (forall a o, Q a o -> Q' a o) ->
  (forall o, E o -> E' o) ->
  hoare P' m Q' E'.
Proof.
  intros H HP HQ HE o Ho. specialize (H o (HP o Ho)).
  destruct (m o) as [[a|e] o']; [apply HQ | apply HE]; exact H.
Qed.

(** A fact that does not depend on the state can be taken out of the
    precondition. *)
Lemma hoare_pure {A} (m : M Orchestrator A) (F : Prop)
  (P : Orchestrator -> Prop) Q E :
  (F -> hoare P m Q E) -> hoare (fun o => F /\ P o) m Q E.
Proof. intros H o [HF HP]. apply (H HF). exact HP. Qed.

Lemma error_context_renders py_str msg :
  is_ok (render_context py_str (PDict [("error", PStr msg)])) = true.
Proof. reflexivity. Qed.

(** X18. [process_email] ends as the body of its [try] ends: a result
    is returned unchanged, and an exception is raised again as it is,
    neither swallowed nor replaced by a failure of the logging.  When
    it raises, the registry and the optimizer stay as the body left
    them; "orchestrator" has one more action and one more failed
    action, no other agent's counters move; and the newest event of
    the ledger is the failure, with the text of the exception in its
    context and the execution id of the request. *)
Theorem process_email_reraises :
  forall md5 provider py_str extract_entities classify_intent clock
         sender subject body o,
    let inner := process_email_body md5 provider py_str extract_entities
                   classify_intent clock sender subject body o in
    let run := process_email md5 provider py_str extract_entities
                 classify_intent clock sender subject body o in
    fst run = fst inner
    /\ match fst inner with
       | Ok _ => snd run = snd inner
       | Raise e =>
           let m := metrics_of (observability (snd inner)) "orchestrator" in
           let m' := metrics_of (observability (snd run)) "orchestrator" in
           agents (snd run) = agents (snd inner)
           /\ cost_optimizer (snd run) = cost_optimizer (snd inner)
           /\ total_actions m' = S (total_actions m)
           /\ failed_actions m' = S (failed_actions m)
           /\ successful_actions m' = successful_actions m
           /\ overrides m' = overrides m
           /\ (forall a,
                  String.eqb "orchestrator" a = false ->
                  metrics_of (observability (snd run)) a
                  = metrics_of (observability (snd inner)) a)
           /\ exists older,
               events (observability (snd run))
               = (older
                  ++ [mkEvent (now clock) "orchestrator" "process_email"
                        ("{" ++ (Json.quote "error" ++ ": "
                                   ++ Json.quote (exn_str e)) ++ "}")
                        "failure" 0 0
                        (if String.eqb (execution_id clock) ""
                         then "exec_"
                                ++ Json.string_of_Z
                                     (Z.of_nat
                                        (List.length
                                           (events
                                              (observability (snd inner)))))
                         else execution_id clock)])%list
       end.
Proof.
  intros md5 provider py_str extract_entities classify_intent clock
    sender subject body o. cbv zeta.
  unfold process_email, try_except.
  destruct (process_email_body md5 provider py_str extract_entities
              classify_intent clock sender subject body o) as [[res|e] o1];
    cbn [fst snd]; [split; reflexivity|].
  unfold bind, raise, in_observability, zoom.
  destruct (log_event (total_str py_str) (now clock) "orchestrator"
              "process_email" (PDict [("error", PStr (exn_str e))])
              "failure" 0 0 (Some (execution_id clock)) (observability o1))
    as [r l'] eqn:Hrun.
  assert (Hr : r = Ok tt).
  { rewrite log_event_eq in Hrun.
    pose proof (error_context_renders (total_str py_str) (exn_str e)) as Hok.
    destruct (render_context (total_str py_str)
                (PDict [("error", PStr (exn_str e))]));
      [|discriminate Hok].
    injection Hrun as <- _. reflexivity. }
  subst r. cbn [fst snd agents cost_optimizer observability].
  destruct (log_event_returned _ _ _ _ _ _ _ _ _ _ _ Hrun)
    as [Hm [older [rendered [Hrender Hev]]]].
  destruct (record_action_counts "failure" 0 0
              (metrics_of (observability o1) "orchestrator"))
    as [Ht [Hs [Hf [_ [_ Ho]]]]].
  change (String.eqb "failure" "success") with false in Hs, Hf.
  split; [reflexivity|].
  rewrite (Hm "orchestrator"), String.eqb_refl, Ht, Hs, Hf, Ho.
  repeat split; try lia.
  - intros a Ha. rewrite (Hm a), Ha. reflexivity.
  - exists older. rewrite Hev. injection Hrender as <-. reflexivity.
Qed.

Lemma preserves_observability_agents c l ags ags' :
  observability (mkOrchestrator c l ags) = observability (mkOrchestrator c l ags').
Proof. reflexivity. Qed.

Lemma preserves_observability_optimizer c l ags c' :
  observability (mkOrchestrator c l ags) = observability (mkOrchestrator c' l ags).
Proof. reflexivity. Qed.

(** The ledger after an event the orchestrator logged. *)
Lemma hoare_log_event py_str now agent action context outcome cost duration_ms
  execution_id ledger0 :
  hoare (fun o => observability o = ledger0)
    (in_observability
       (log_event py_str now agent action context outcome cost duration_ms
          execution_id))
    (fun _ o' =>
       log_event py_str now agent action context outcome cost duration_ms
         execution_id ledger0
       = (Ok tt, observability o'))
    (fun _ => True).
Proof.
  intros o Ho. unfold in_observability, zoom. rewrite Ho.
  destruct (log_event py_str now agent action context outcome cost
              duration_ms execution_id ledger0) as [[[]|e] l']; [|exact I].
  reflexivity.
Qed.

Lemma stage_workflow_logs_its_cost
  (m_call : string -> M Orchestrator (string * Q)) py_str now agent action
  context_of execution_id (result_of : Q -> WorkflowResult) ledger0 :
  (forall prompt, preserves observability (m_call prompt)) ->
  (forall cost, wf_cost (result_of cost) = cost) ->
  forall prompt,
    hoare (fun o => observability o = ledger0)
      (mark_active agent ;;;
       '(response, cost) <- m_call prompt ;;
       in_observability
         (log_event py_str now agent action context_of "success" cost 0
            execution_id) ;;;
       mark_idle agent ;;;
       ret (result_of cost))
      (fun w o' =>
         log_event py_str now agent action context_of "success" (wf_cost w) 0
           execution_id ledger0
         = (Ok tt, observability o'))
      (fun _ => True).
Proof.
  intros Hcall Hcost prompt.
  eapply hoare_bind.
  { eapply hoare_conseq;
      [apply (hoare_preserved observability (mark_active agent)
                (fun l => l = ledger0));
       apply preserves_mark_active; intros; reflexivity
      | intros ? H; exact H | intros ? ? H; exact H | intros; exact I]. }
  intros ?. cbv beta. eapply hoare_bind.
  { eapply hoare_conseq;
      [apply (hoare_preserved observability (m_call prompt)
                (fun l => l = ledger0)); apply Hcall
      | intros ? H; exact H | intros ? ? H; exact H | intros; exact I]. }
  intros [response cost]. eapply hoare_bind; [apply hoare_log_event|].
  intros ?. cbv beta. eapply hoare_bind.
  { eapply hoare_conseq;
      [apply (hoare_preserved observability (mark_idle agent)
                (fun l => log_event py_str now agent action context_of
                            "success" cost 0 execution_id ledger0
                          = (Ok tt, l)));
       apply preserves_mark_idle; intros; reflexivity
      | intros ? H; exact H | intros ? ? H; exact H | intros; exact I]. }
  intros ?. cbv beta. apply hoare_ret. intros ? H. rewrite Hcost. exact H.
Qed.

(** What a successful event leaves: one more action and one more
    successful action of its agent, its cost added, and the event
    last in the ledger. *)
Lemma logged_success py_str now agent action context cost execution_id l l' :
  log_event py_str now agent action context "success" cost 0 execution_id l
  = (Ok tt, l') ->
  total_actions (metrics_of l' agent) = S (total_actions (metrics_of l agent))
  /\ successful_actions (metrics_of l' agent)
     = S (successful_actions (metrics_of l agent))
  /\ failed_actions (metrics_of l' agent) = failed_actions (metrics_of l agent)
  /\ m_total_cost (metrics_of l' agent)
     = m_total_cost (metrics_of l agent) + cost
  /\ overrides (metrics_of l' agent) = overrides (metrics_of l agent)
  /\ exists older ev,
      events l' = (older ++ [ev])%list
      /\ ev_agent ev = agent
      /\ ev_action ev = action
      /\ ev_outcome ev = "success"
      /\ ev_cost ev = cost.
Proof.
  intros Hrun.
  destruct (log_event_returned _ _ _ _ _ _ _ _ _ _ _ Hrun)
    as [Hm [older [rendered [_ Hev]]]].
  destruct (record_action_counts "success" cost 0 (metrics_of l agent))
    as [Ht [Hs [Hf [Hc [_ Ho]]]]].
  change (String.eqb "success" "success") with true in Hs, Hf.
  rewrite (Hm agent), String.eqb_refl, Ht, Hs, Hf, Hc, Ho.
  repeat split; try lia.
  eexists. eexists. split; [exact Hev|]. repeat split.
Qed.

(** X19. A workflow that returns has logged exactly the cost it
    returns.  For po_tracker and change_manager the agent has one more
    action and one more successful action, as many failed actions and
    overrides as before, and its cost has grown by the cost returned;
    the newest event of the ledger is that of the agent, a success with
    the action and the cost returned; and the action follows the
    intent.  For any other agent nothing is called, logged or changed,
    and the result is "logged" at cost 0. *)
Theorem execute_workflow_logs_its_cost :
  forall md5 provider py_str clock agent intent_result entities sender eid
         o w o',
    _execute_workflow md5 provider py_str clock agent intent_result entities
      sender eid o = (Ok w, o') ->
    let m := metrics_of (observability o) agent in
    let m' := metrics_of (observability o') agent in
    wf_action w = stage_action agent (intent intent_result)
    /\ if is_stage agent then
         total_actions m' = S (total_actions m)
         /\ successful_actions m' = S (successful_actions m)
         /\ failed_actions m' = failed_actions m
         /\ m_total_cost m' = m_total_cost m + wf_cost w
         /\ overrides m' = overrides m
         /\ exists older ev,
             events (observability o') = (older ++ [ev])%list
             /\ ev_agent ev = agent
             /\ ev_action ev = wf_action w
             /\ ev_outcome ev = "success"
             /\ ev_cost ev = wf_cost w
       else wf_cost w = 0 /\ o' = o.
Proof.
  intros md5 provider py_str clock agent intent_result entities sender eid
    o w o' Hrun. cbv zeta.
  unfold _execute_workflow, stage_action, is_stage in *.
  destruct (String.eqb agent "po_tracker") eqn:Epo.
  - apply String.eqb_eq in Epo. subst agent. cbn [orb].
    unfold _po_tracker_workflow in Hrun. cbv zeta in Hrun.
    assert (Haction :
              wf_action w
              = if String.eqb (intent intent_result) "delivery_delay"
                then "escalate_if_critical"
                else if String.eqb (intent intent_result)
                          "acknowledgement_request"
                     then "send_acknowledgement" else "update_erp").
    { unfold bind in Hrun.
      destruct (mark_active "po_tracker" o) as [[u|e] o1]; [|discriminate].
      destruct (in_optimizer _ o1) as [[[response cost]|e] o2]; [|discriminate].
      destruct (in_observability _ o2) as [[u2|e] o3]; [|discriminate].
      destruct (mark_idle "po_tracker" o3) as [[u3|e] o4]; [|discriminate].
      unfold ret in Hrun. injection Hrun as <- _. reflexivity. }
    split; [exact Haction|].
    pose proof (stage_workflow_logs_its_cost
                  (fun prompt =>
                     in_optimizer
                       (call_llm md5 provider "decision_making" prompt
                          (Some [("intent", intent_to_py intent_result);
                                 ("entities", PDict entities)]) None))
                  (total_str py_str) (now clock) "po_tracker"
                  (if String.eqb (intent intent_result) "delivery_delay"
                   then "escalate_if_critical"
                   else if String.eqb (intent intent_result)
                             "acknowledgement_request"
                        then "send_acknowledgement" else "update_erp")
                  (PDict [("po_number", dict_get entities "po_number" PNone);
                          ("sender", PStr sender)])
                  (Some eid)
                  (fun cost =>
                     mkWorkflowResult
                       (if String.eqb (intent intent_result) "delivery_delay"
                        then "escalate_if_critical"
                        else if String.eqb (intent intent_result)
                                  "acknowledgement_request"
                             then "send_acknowledgement" else "update_erp")
                       cost (Some (dict_get entities "po_number" PNone)))
                  (observability o)) as H.
    specialize (H (fun prompt => preserves_in_optimizer observability _
                                   preserves_observability_optimizer)
                  (fun cost => eq_refl)
                  ("PO " ++ py_str (dict_get entities "po_number" PNone)
                     ++ " has delivery update. Intent: "
                     ++ intent intent_result ++ ". Dates: "
                     ++ py_str (dict_get entities "dates" (PList [])))
                  o eq_refl).
    cbv beta in H. rewrite Hrun in H.
    rewrite Haction. exact (logged_success _ _ _ _ _ _ _ _ _ H).
  - destruct (String.eqb agent "change_manager") eqn:Ecm.
    + apply String.eqb_eq in Ecm. subst agent. cbn [orb].
      unfold _change_manager_workflow in Hrun. cbv zeta in Hrun.
      assert (Haction :
                wf_action w
                = if str_in (intent intent_result)
                       ["price_change"; "quantity_change"]
                  then "requires_approval" else "log_change").
      { unfold bind in Hrun.
        destruct (mark_active "change_manager" o) as [[u|e] o1]; [|discriminate].
        destruct (in_optimizer _ o1) as [[[response cost]|e] o2]; [|discriminate].
        destruct (in_observability _ o2) as [[u2|e] o3]; [|discriminate].
        destruct (mark_idle "change_manager" o3) as [[u3|e] o4]; [|discriminate].
        unfold ret in Hrun. injection Hrun as <- _. reflexivity. }
      split; [exact Haction|].
      pose proof (stage_workflow_logs_its_cost
                    (fun prompt =>
                       in_optimizer
                         (call_llm md5 provider "multi_step_reasoning" prompt
                            (Some [("intent", intent_to_py intent_result);
                                   ("entities", PDict entities)]) None))
                    (total_str py_str) (now clock) "change_manager"
                    (if str_in (intent intent_result)
                          ["price_change"; "quantity_change"]
                     then "requires_approval" else "log_change")
                    (PDict [("intent", PStr (intent intent_result));
                            ("sender", PStr sender)])
                    (Some eid)
                    (fun cost =>
                       mkWorkflowResult
                         (if str_in (intent intent_result)
                               ["price_change"; "quantity_change"]
                          then "requires_approval" else "log_change")
                         cost None)
                    (observability o)) as H.
      specialize (H (fun prompt => preserves_in_optimizer observability _
                                     preserves_observability_optimizer)
                    (fun cost => eq_refl)
                    ("Analyze impact of " ++ intent intent_result
                       ++ " for supplier " ++ sender ++ ". Entities: "
                       ++ py_str (PDict entities))
                    o eq_refl).
      cbv beta in H. rewrite Hrun in H.
      rewrite Haction. exact (logged_success _ _ _ _ _ _ _ _ _ H).
    + cbn [orb]. unfold ret in Hrun. injection Hrun as <- <-.
      repeat split.
Qed.

Lemma execute_workflow_logs_its_cost_witness :
  let run := _execute_workflow (fun s => s) (source_provider false) plain_str
               demo_clock "po_tracker" demo_intent demo_entities
               "supplier@acme.com" "exec_1" Orchestrator_init in
  exists w o',
    run = (Ok w, o')
    /\ wf_action w = "escalate_if_critical"
    /\ total_actions (metrics_of (observability o') "po_tracker") = 1%nat
    /\ successful_actions (metrics_of (observability o') "po_tracker") = 1%nat
    /\ failed_actions (metrics_of (observability o') "po_tracker") = 0%nat
    /\ m_total_cost (metrics_of (observability o') "po_tracker")
       = 0 + wf_cost w.
Proof.
  cbv zeta. eexists. eexists. split; [vm_compute; reflexivity|].
  pose proof (execute_workflow_logs_its_cost (fun s => s)
                (source_provider false) plain_str demo_clock "po_tracker"
                demo_intent demo_entities "supplier@acme.com" "exec_1"
                Orchestrator_init _ _ eq_refl) as H.
  cbv zeta in H. destruct H as [Ha [Ht [Hs [Hf [Hc _]]]]].
  repeat split; first [exact Ha | exact Ht | exact Hs | exact Hf | exact Hc].
Defined.

Lemma execute_workflow_unstaged md5 provider py_str clock agent intent_result
  entities sender eid :
  is_stage agent = false ->
  _execute_workflow md5 provider py_str clock agent intent_result entities
    sender eid
  = ret (mkWorkflowResult "logged" 0 None).
Proof.
  unfold is_stage, _execute_workflow. intros H.
  apply orb_false_iff in H. destruct H as [-> ->]. reflexivity.
Qed.

(** One step that leaves the optimizer as it is. *)
Ltac optimizer_kept c0 :=
  eapply hoare_bind;
  [ eapply hoare_conseq;
    [ apply (hoare_preserved cost_optimizer _ (fun c => c = c0));
      first [ apply preserves_in_observability
            | apply preserves_mark_active
            | apply preserves_mark_idle ];
      intros; reflexivity
    | intros ? H; exact H
    | intros ? ? H; exact H
    | intros ? H; exact H ]
  | intros ?; cbv beta ].

(** X20. A request whose intent is routed to no stage (inbox_agent, as
    for general_inquiry and every unmapped intent) never reaches the
    optimizer: [process_email] leaves its cache and statistics as they
    are, whether it returns or raises, and what it returns has cost 0
    and the action "logged". *)
Theorem unstaged_request_costs_nothing :
  forall md5 provider py_str extract_entities classify_intent clock
         sender subject body o,
    (forall ir entities,
        classify_intent subject body = Ok ir ->
        is_stage (_route_email (intent ir) entities) = false) ->
    let run := process_email md5 provider py_str extract_entities
                 classify_intent clock sender subject body o in
    cost_optimizer (snd run) = cost_optimizer o
    /\ match fst run with
       | Ok r => r_cost r = 0
                 /\ wf_action (r_workflow_result r) = "logged"
       | Raise _ => True
       end.
Proof.
  intros md5 provider py_str extract_entities classify_intent clock
    sender subject body o Hroute. cbv zeta.
  set (c0 := cost_optimizer o).
  assert (H : hoare (fun o' => cost_optimizer o' = c0)
                (process_email md5 provider py_str extract_entities
                   classify_intent clock sender subject body)
                (fun r o' => cost_optimizer o' = c0
                             /\ r_cost r = 0
                             /\ wf_action (r_workflow_result r) = "logged")
                (fun o' => cost_optimizer o' = c0)).
  { unfold process_email.
    eapply hoare_try with (E := fun o' => cost_optimizer o' = c0).
    - unfold process_email_body. cbv zeta.
      optimizer_kept c0.
      eapply hoare_bind.
      { apply hoare_lift with (Q := fun _ o' => cost_optimizer o' = c0);
          intros; assumption. }
      intros entities. cbv beta.
      eapply hoare_bind.
      { apply hoare_lift
          with (Q := fun ir o' => classify_intent subject body = Ok ir
                                  /\ cost_optimizer o' = c0).
        - intros ir o' Hir Ho'. split; assumption.
        - intros; assumption. }
      intros ir. cbv beta. apply hoare_pure. intros Hir.
      rewrite execute_workflow_unstaged by (apply Hroute; exact Hir).
      optimizer_kept c0. optimizer_kept c0. optimizer_kept c0.
      eapply hoare_bind.
      { apply hoare_ret
          with (Q := fun w o' => w = mkWorkflowResult "logged" 0 None
                                 /\ cost_optimizer o' = c0).
        intros o' Ho'. split; [reflexivity|exact Ho']. }
      intros w. cbv beta. apply hoare_pure. intros ->.
      optimizer_kept c0. optimizer_kept c0.
      apply hoare_ret. intros o' Ho'. repeat split. exact Ho'.
    - intros e. optimizer_kept c0.
      intros o' Ho'. exact Ho'. }
  specialize (H o eq_refl).
  destruct (process_email md5 provider py_str extract_entities classify_intent
              clock sender subject body o) as [[r|e] o'];
    cbn [fst snd].
  - destruct H as [Hc [Hcost Hact]]. repeat split; assumption.
  - split; [exact H | exact I].
Qed.

Lemma unstaged_request_costs_nothing_witness :
  let run := process_email (fun s => s) down_provider plain_str
               (fun _ _ => Ok [])
               (fun _ _ => Ok (mkIntent "general_inquiry" "0.5" []))
               demo_clock "buyer@acme.com" "hello" "a question"
               Orchestrator_init in
  cost_optimizer (snd run) = cost_optimizer Orchestrator_init
  /\ match fst run with
     | Ok r => r_cost r = 0 /\ wf_action (r_workflow_result r) = "logged"
     | Raise _ => True
     end.
Proof.
  apply (unstaged_request_costs_nothing (fun s => s) down_provider plain_str
           (fun _ _ => Ok [])
           (fun _ _ => Ok (mkIntent "general_inquiry" "0.5" []))
           demo_clock "buyer@acme.com" "hello" "a question"
           Orchestrator_init).
  intros ir entities H. injection H as <-. reflexivity.
Defined.

(** ** The intent classifier *)

Lemma keyword_score_le text keywords :
  (keyword_score text keywords <= List.length keywords)%nat.
Proof. unfold keyword_score. apply filter_length_le. Qed.

(** Where [max(scores, key=scores.get)] lands: everything before the
    winner scores strictly less, everything after it no more. *)
Lemma first_max_split (rest : list (string * nat)) :
  forall pre mid best,
    Forall (fun kv => (snd kv < snd best)%nat) pre ->
    Forall (fun kv => (snd kv <= snd best)%nat) mid ->
    exists l1 l2,
      (pre ++ best :: mid ++ rest)%list
      = (l1 ++ first_max rest best :: l2)%list
      /\ Forall (fun kv => (snd kv < snd (first_max rest best))%nat) l1
      /\ Forall (fun kv => (snd kv <= snd (first_max rest best))%nat) l2.
Proof.
  induction rest as [|kv rest IH]; intros pre mid best Hpre Hmid;
    cbn [first_max].
  - exists pre, mid. rewrite app_nil_r. repeat split; assumption.
  - destruct (snd best <? snd kv)%nat eqn:Hlt.
    + apply Nat.ltb_lt in Hlt.
      destruct (IH (pre ++ best :: mid)%list [] kv) as [l1 [l2 [Heq [H1 H2]]]].
      * apply Forall_app. split.
        -- eapply Forall_impl; [|exact Hpre]. cbv beta. intros; lia.
        -- constructor; [exact Hlt|].
           eapply Forall_impl; [|exact Hmid]. cbv beta. intros; lia.
      * constructor.
      * exists l1, l2. split; [|split; assumption].
        rewrite <- Heq. rewrite <- !app_assoc. reflexivity.
    + apply Nat.ltb_ge in Hlt.
      destruct (IH pre (mid ++ [kv])%list best Hpre) as [l1 [l2 [Heq [H1 H2]]]].
      * apply Forall_app. split; [exact Hmid|]. constructor; [exact Hlt|constructor].
      * exists l1, l2. split; [|split; assumption].
        rewrite <- Heq. rewrite <- !app_assoc. reflexivity.
Qed.

Lemma primary_of_split (scores : list (string * nat)) :
  scores <> [] ->
  exists l1 l2,
    scores = (l1 ++ primary_of scores :: l2)%list
    /\ Forall (fun kv => (snd kv < snd (primary_of scores))%nat) l1
    /\ Forall (fun kv => (snd kv <= snd (primary_of scores))%nat) l2.
Proof.
  destruct scores as [|kv rest]; [intros H; contradiction|]. intros _.
  cbn [primary_of].
  destruct (first_max_split rest [] [] kv) as [l1 [l2 [Heq H]]];
    [constructor | constructor |].
  exists l1, l2. split; [exact Heq | exact H].
Qed.

Lemma max_score_le (scores : list (string * nat)) n :
  Forall (fun kv => (snd kv <= n)%nat) scores -> (max_score scores <= n)%nat.
Proof.
  induction 1 as [|kv scores Hkv _ IH]; cbn [max_score fold_right]; [lia|].
  fold (max_score scores). lia.
Qed.

Lemma dict_get_in {V} (d : list (string * V)) k v default :
  NoDup (dict_keys d) -> In (k, v) d -> dict_get d k default = v.
Proof.
  induction d as [|[k0 v0] d IH]; intros Hnd Hin; [destruct Hin|].
  cbn [dict_get]. inversion Hnd as [|? ? Hnotin Hnd']; subst.
  destruct Hin as [Heq|Hin].
  - injection Heq as -> ->. rewrite String.eqb_refl. reflexivity.
  - destruct (String.eqb k0 k) eqn:E; [|apply IH; assumption].
    apply String.eqb_eq in E. subst k0. exfalso. apply Hnotin.
    change k with (fst (k, v)). apply in_map. exact Hin.
Qed.

Lemma intent_keywords_distinct : NoDup (dict_keys intent_keywords).
Proof. apply distinct_NoDup. reflexivity. Qed.

Lemma intent_scores_keys text :
  dict_keys (intent_scores text) = dict_keys intent_keywords.
Proof. unfold intent_scores, dict_keys. rewrite map_map. reflexivity. Qed.

(** The winner of a classification with at least one keyword hit. *)
Lemma classify_winner subject body :
  let text := py_lower (subject ++ " " ++ body) in
  let scores := intent_scores text in
  max_score scores <> 0%nat ->
  exists keywords,
    In (fst (primary_of scores), keywords) intent_keywords
    /\ snd (primary_of scores) = keyword_score text keywords
    /\ (1 <= snd (primary_of scores))%nat
    /\ classify_intent_source subject body
       = mkClassification (fst (primary_of scores))
           (inject_Z (Z.of_nat (snd (primary_of scores)))
            / inject_Z (Z.of_nat (List.length keywords)))
           scores.
Proof.
  cbv zeta. intros Hmax.
  set (text := py_lower (subject ++ " " ++ body)) in *.
  destruct (primary_of_split (intent_scores text)) as [l1 [l2 [Heq [H1 H2]]]];
    [discriminate|].
  assert (Hin : In (primary_of (intent_scores text)) (intent_scores text)).
  { rewrite Heq at 2. apply in_or_app. right. left. reflexivity. }
  assert (Hall : Forall (fun kv => (snd kv <= snd (primary_of (intent_scores text)))%nat)
                   (intent_scores text)).
  { rewrite Heq at 1. apply Forall_app. split.
    - eapply Forall_impl; [|exact H1]. cbv beta. intros; lia.
    - constructor; [lia|exact H2]. }
  pose proof (max_score_le _ _ Hall) as Hge.
  pose proof Hin as Hmem.
  unfold intent_scores in Hin. apply in_map_iff in Hin.
  destruct Hin as [[k keywords] [Hkv Hin]]. cbn [fst snd] in Hkv.
  fold (intent_scores text) in Hkv.
  exists keywords.
  assert (Hk : fst (primary_of (intent_scores text)) = k)
    by (rewrite <- Hkv; reflexivity).
  assert (Hn : snd (primary_of (intent_scores text)) = keyword_score text keywords)
    by (rewrite <- Hkv; reflexivity).
  split; [rewrite Hk; exact Hin|]. split; [exact Hn|]. split; [lia|].
  unfold classify_intent_source. cbv zeta. fold text.
  replace (max_score (intent_scores text) =? 0)%nat with false
    by (symmetry; apply Nat.eqb_neq; exact Hmax).
  assert (Hscore : dict_get (intent_scores text)
                     (fst (primary_of (intent_scores text))) 0%nat
                   = snd (primary_of (intent_scores text))).
  { apply dict_get_in.
    - rewrite intent_scores_keys. apply intent_keywords_distinct.
    - destruct (primary_of (intent_scores text)); exact Hmem. }
  assert (Hkws : dict_get intent_keywords
                   (fst (primary_of (intent_scores text))) []
                 = keywords).
  { apply dict_get_in; [apply intent_keywords_distinct|].
    rewrite Hk. exact Hin. }
  rewrite Hscore, Hkws.
  assert (Hle : Qle_bool
                  (inject_Z (Z.of_nat (snd (primary_of (intent_scores text))))
                   / inject_Z (Z.of_nat (List.length keywords))) 1 = true).
  { apply Qle_bool_iff.
    pose proof (keyword_score_le text keywords) as Hb.
    apply Qle_shift_div_r.
    - change 0 with (inject_Z 0). rewrite <- Zlt_Qlt. lia.
    - rewrite Qmult_1_l, <- Zle_Qle. lia. }
  rewrite Hle. reflexivity.
Qed.

Lemma known_intent_routable k (entities : PyDict) :
  In k (dict_keys intent_keywords) ->
  dict_mem k routing_rules = true
  /\ dict_lookup routing_rules k = Some (_route_email k entities).
Proof.
  intros Hkey. cbn in Hkey.
  repeat (destruct Hkey as [<-|Hkey]; [split; reflexivity|]). destruct Hkey.
Qed.

(** X21. Whatever the subject and the body, the intent that
    [classify_intent] returns is one of the six intents of the routing
    table, so the default of [_route_email] is never used for it, and
    its confidence is above 0 and at most 1. *)
Theorem classify_intent_is_routable :
  forall (subject body : string) (entities : PyDict),
    let c := classify_intent_source subject body in
    dict_mem (cl_intent c) routing_rules = true
    /\ dict_lookup routing_rules (cl_intent c)
       = Some (_route_email (cl_intent c) entities)
    /\ 0 < cl_confidence c /\ cl_confidence c <= 1.
Proof.
  intros subject body entities. cbv zeta.
  destruct (Nat.eq_dec
              (max_score (intent_scores (py_lower (subject ++ " " ++ body)))) 0)
    as [Hzero|Hpos].
  - unfold classify_intent_source. cbv zeta. rewrite Hzero.
    cbn [Nat.eqb cl_intent cl_confidence].
    repeat split; discriminate.
  - destruct (classify_winner subject body Hpos)
      as [keywords [Hin [Hscore [Hone ->]]]].
    cbn [cl_intent cl_confidence].
    pose proof (keyword_score_le (py_lower (subject ++ " " ++ body)) keywords)
      as Hb.
    assert (Hlen : 0 < inject_Z (Z.of_nat (List.length keywords))).
    { change 0 with (inject_Z 0). rewrite <- Zlt_Qlt. lia. }
    assert (Hkey : In (fst (primary_of
                              (intent_scores
                                 (py_lower (subject ++ " " ++ body)))))
                      (dict_keys intent_keywords)).
    { unfold dict_keys. apply in_map_iff. eexists. split; [|exact Hin].
      reflexivity. }
    destruct (known_intent_routable _ entities Hkey) as [Hmem Hroute].
    split; [exact Hmem|]. split; [exact Hroute|]. split.
    + apply Qlt_shift_div_l; [exact Hlen|]. rewrite Qmult_0_l.
      change 0 with (inject_Z 0). rewrite <- Zlt_Qlt. lia.
    + apply Qle_shift_div_r; [exact Hlen|].
      rewrite Qmult_1_l, <- Zle_Qle. lia.
Qed.

(** X22. Without any keyword in the lower-cased text the intent is
    general_inquiry with confidence 0.5.  Otherwise the intent returned
    has the most keyword hits, every intent before it in the table has
    strictly fewer (the earliest wins a tie), and the confidence is its
    hits over the number of its keywords. *)
Theorem classify_intent_picks_first_maximum :
  forall subject body : string,
    let scores := intent_scores (py_lower (subject ++ " " ++ body)) in
    let c := classify_intent_source subject body in
    cl_scores c = scores
    /\ if (max_score scores =? 0)%nat then
         cl_intent c = "general_inquiry" /\ cl_confidence c = 1 # 2
       else
         exists hits keywords before after,
           scores = (before ++ (cl_intent c, hits) :: after)%list
           /\ Forall (fun kv => (snd kv < hits)%nat) before
           /\ Forall (fun kv => (snd kv <= hits)%nat) after
           /\ In (cl_intent c, keywords) intent_keywords
           /\ cl_confidence c
              = inject_Z (Z.of_nat hits)
                / inject_Z (Z.of_nat (List.length keywords)).
Proof.
  intros subject body. cbv zeta.
  destruct (max_score (intent_scores (py_lower (subject ++ " " ++ body))) =? 0)%nat
    eqn:Hzero.
  - unfold classify_intent_source. cbv zeta. rewrite Hzero.
    repeat split.
  - apply Nat.eqb_neq in Hzero.
    destruct (classify_winner subject body Hzero)
      as [keywords [Hin [Hscore [Hone ->]]]].
    cbn [cl_intent cl_confidence cl_scores]. split; [reflexivity|].
    destruct (primary_of_split
                (intent_scores (py_lower (subject ++ " " ++ body))))
      as [l1 [l2 [Heq [H1 H2]]]]; [discriminate|].
    exists (snd (primary_of (intent_scores (py_lower (subject ++ " " ++ body))))),
      keywords, l1, l2.
    repeat split; try assumption.
    rewrite Heq at 1.
    destruct (primary_of (intent_scores (py_lower (subject ++ " " ++ body))));
      reflexivity.
Qed.

Lemma py_lower_app a b : py_lower (a ++ b) = py_lower a ++ py_lower b.
Proof.
  induction a as [|c a IH]; cbn [py_lower String.append]; [reflexivity|].
  rewrite IH. reflexivity.
Qed.

(** X23. The classification ignores case: two emails whose subjects
    and bodies agree once lower-cased are classified alike, with the
    same scores and the same confidence. *)
Theorem classify_intent_ignores_case :
  forall subject1 body1 subject2 body2 : string,
    py_lower subject1 = py_lower subject2 ->
    py_lower body1 = py_lower body2 ->
    classify_intent_source subject1 body1
    = classify_intent_source subject2 body2.
Proof.
  intros subject1 body1 subject2 body2 Hs Hb.
  unfold classify_intent_source.
  rewrite !py_lower_app, Hs, Hb. reflexivity.
Qed.

Lemma classify_intent_ignores_case_witness :
  classify_intent_source "PO #12345 DELIVERY UPDATE" "Shipment DELAYED"
  = classify_intent_source "po #12345 delivery update" "shipment delayed".
Proof.
  apply classify_intent_ignores_case; reflexivity.
Defined.
